(** * Money management: balance ledger, budget evaluator, overlap validator

    A shallow embedding of the request handlers under [src/app/api] that
    carry the domain logic of the application:

    - [src/app/api/transactions/route.ts] (POST) and the handlers of a
      single transaction (PUT, DELETE), which keep [balance] of a bank
      account in step with the transactions posted against it;
    - [src/app/api/accounts/[id]/route.ts] and the accounts collection;
    - [src/app/api/budgets/route.ts], [src/app/api/budgets/[id]/route.ts]
      and the budget summary handler with [generateRecommendations];
    - the handlers of categories, of the dashboard summary, of registration
      and of the verification of an email.

    Conventions of the embedding.

    - The relational store reached through Prisma is a record of finite
      maps, one per table, keyed by the primary key [id].
    - The columns of amounts and balances are [Decimal(12, 2)]. A stored
      value is a rational [Q] with two decimals; a write rounds to two
      decimals, halves away from zero, and is refused when the rounded value
      needs more than twelve digits ([Decimal.write]). Stored values are
      compared with [==].
    - A JavaScript number of a request body is the decimal it prints as,
      the value Prisma hands to the database; the handlers only test its
      sign and negate it before they write it.
    - The numbers the budget evaluators compute with are binary64 floating
      point numbers, the primitive [float] with the operations of IEEE 754;
      [Js.Number] reads a stored decimal as the nearest such number.
    - Dates are integers (milliseconds since the epoch).
    - A handler is a function from the session, the request and the store to
      a response and the store after the request. Identifiers drawn by the
      store for a new row are an explicit argument. *)

From Stdlib Require Import QArith Qround ZArith Lia Lqa Uint63 Floats.
From stdpp Require Import gmap strings list fin_maps sorting pretty.

Set Warnings "-inexact-float".

(** ** The columns of type [Decimal(12, 2)] *)

Module Decimal.

Local Open Scope Q_scope.

(** The hundredths of [x] rounded to two decimals, halves away from zero. *)
Definition cents (x : Q) : Z :=
  if Qle_bool 0 x then Qfloor (x * 100 + (1 # 2))
  else (- Qfloor (- x * 100 + (1 # 2)))%Z.

Definition round2 (x : Q) : Q := inject_Z (cents x) / 100.

(** Precision 12 and scale 2: the rounded value is below [10 ^ 10] in
    absolute value. *)
Definition fits (x : Q) : bool := (Z.abs (cents x) <? 10 ^ 12)%Z.

(** Writing [x] to a column: the value stored, or [None] for the error
    "numeric field overflow". *)
Definition write (x : Q) : option Q :=
  if fits x then Some (round2 x) else None.

(** [x] has at most two decimals. *)
Definition two_decimals (x : Q) : Prop := round2 x == x.

(** [x] is a value a column can hold. *)
Definition value (x : Q) : Prop := fits x = true /\ two_decimals x.

End Decimal.

(** ** JavaScript values *)

Module Js.

(** [!s] on a string is true exactly for the empty string. *)
Definition truthy (s : string) : bool := negb (String.eqb s EmptyString).

(** [!n] on a number is true exactly for zero. *)
Definition truthy_num (q : Q) : bool := negb (Qeq_bool q 0).

(** [x < y] on numbers. *)
Definition ltb (x y : Q) : bool := negb (Qle_bool y x).

(** [x <= y] on numbers. *)
Definition leb (x y : Q) : bool := Qle_bool x y.

(** [x > y] on numbers. *)
Definition gtb (x y : Q) : bool := ltb y x.

(** [Number(d)] and [d.toNumber()] on a stored decimal [d]: the binary64
    number nearest to it. The hundredths of a stored decimal are below
    [2 ^ 53], so they and 100 are binary64 numbers and their quotient,
    rounded once, is that nearest number. *)
Definition Number (d : Q) : float :=
  let n := Decimal.cents d in
  let q := (PrimFloat.of_uint63 (Uint63.of_Z (Z.abs n)) / 100)%float in
  if (n <? 0)%Z then (- q)%float else q.

(** The binary64 number of an integer below [2 ^ 53] in absolute value;
    zero keeps the sign [negative]. *)
Definition float_of_Z (negative : bool) (n : Z) : float :=
  let m := PrimFloat.of_uint63 (Uint63.of_Z (Z.abs n)) in
  if (n <? 0)%Z || ((n =? 0)%Z && negative) then (- m)%float else m.

(** [Math.round]: [x] itself when it is an integer, an infinity or not a
    number; else the integer [floor (x + 1/2)] of the exact sum, with the
    sign of [x] when it is zero. A finite [x = m * 2 ^ e] with [0 <= e] is
    an integer. *)
Definition Math_round (x : float) : float :=
  match Prim2SF x with
  | S754_finite s m e =>
    if (0 <=? e)%Z then x
    else
      let v := if s then Z.neg m else Z.pos m in
      float_of_Z s ((2 * v + 2 ^ (- e)) / 2 ^ (1 - e))%Z
  | _ => x
  end.

(** [a.includes(s)] on an array of strings. *)
Definition includes (a : list string) (s : string) : bool :=
  existsb (String.eqb s) a.

End Js.

(** ** Data model (the Prisma schema) *)

Inductive TransactionType : Type := INCOME | EXPENSE | TRANSFER.

Inductive CategoryType : Type := CategoryINCOME | CategoryEXPENSE.

Inductive Period : Type := WEEKLY | MONTHLY | QUARTERLY | YEARLY.

Record BankAccount : Type := mkBankAccount {
  acc_name : string;
  acc_type : string;
  balance : Q;
  currency : string;
  acc_description : option string;
  isActive : bool;
  acc_userId : string
}.

Record Category : Type := mkCategory {
  cat_name : string;
  cat_type : CategoryType;
  cat_icon : option string;
  cat_color : option string;
  isDefault : bool;
  cat_userId : string
}.

Record Transaction : Type := mkTransaction {
  amount : Q;
  type : TransactionType;
  description : option string;
  notes : option string;
  date : Z;
  userId : string;
  accountId : string;
  categoryId : string
}.

Record Budget : Type := mkBudget {
  bud_name : string;
  bud_amount : Q;
  bud_period : Period;
  bud_categoryId : option string;
  startDate : Z;
  endDate : Z;
  bud_userId : string
}.

(** The store: one finite map per table, from [id] to row. *)
Record Store : Type := mkStore {
  bankAccount : gmap string BankAccount;
  category : gmap string Category;
  transaction : gmap string Transaction;
  budget : gmap string Budget
}.

Definition set_bankAccount (t : gmap string BankAccount) (db : Store) : Store :=
  mkStore t (category db) (transaction db) (budget db).

Definition set_category (t : gmap string Category) (db : Store) : Store :=
  mkStore (bankAccount db) t (transaction db) (budget db).

Definition set_transaction (t : gmap string Transaction) (db : Store) : Store :=
  mkStore (bankAccount db) (category db) t (budget db).

Definition set_budget (t : gmap string Budget) (db : Store) : Store :=
  mkStore (bankAccount db) (category db) (transaction db) t.

Definition set_balance (b : Q) (a : BankAccount) : BankAccount :=
  mkBankAccount (acc_name a) (acc_type a) b (currency a)
                (acc_description a) (isActive a) (acc_userId a).

Definition set_amount (x : Q) (t : Transaction) : Transaction :=
  mkTransaction x (type t) (description t) (notes t) (date t) (userId t)
                (accountId t) (categoryId t).

(** ** Responses *)

(** [NextResponse.json(body, { status })]; an error response carries the
    [error] string of its body. *)
Inductive Response (A : Type) : Type :=
| Json (status : nat) (body : A)
| JsonError (status : nat) (error : string).

Arguments Json {A} status body.
Arguments JsonError {A} status error.

Definition status_of {A} (r : Response A) : nat :=
  match r with Json s _ => s | JsonError s _ => s end.

Definition is_error {A} (r : Response A) : bool :=
  match r with Json _ _ => false | JsonError _ _ => true end.

(** [session?.user?.id], falsy when there is no session or the id is empty. *)
Definition session_user (session : option string) : option string :=
  match session with
  | Some uid => if Js.truthy uid then Some uid else None
  | None => None
  end.

(** [findFirst({ where: { id, userId } })] on a table keyed by [id]. *)
Definition findFirst {A} (owner : A -> string) (t : gmap string A)
    (id uid : string) : option A :=
  match t !! id with
  | Some r => if String.eqb (owner r) uid then Some r else None
  | None => None
  end.

(** The rows of a table as a query without [orderBy] returns them. The
    database leaves their order open; here it is the order of the keys. *)
Definition rows {A} (t : gmap string A) : list A := (map_to_list t).*2.

(** ** Interactive transactions of the store

    The body of [prisma.$transaction] is a computation over the store that
    may throw; when it throws, nothing it did is kept. *)

Definition Tx (A : Type) : Type := Store -> option (A * Store).

Definition tx_ret {A} (a : A) : Tx A := fun db => Some (a, db).

Definition tx_bind {A B} (m : Tx A) (k : A -> Tx B) : Tx B :=
  fun db => match m db with
            | Some (a, db') => k a db'
            | None => None
            end.

Notation "'let*' x ':=' m 'in' k" := (tx_bind m (fun x => k))
  (at level 10, x name, m at level 100, k at level 200).
Notation "'run*' m 'in' k" := (tx_bind m (fun _ => k))
  (at level 10, m at level 100, k at level 200).

(** [prisma.$transaction(body)]: commit on return, roll back on a throw. *)
Definition prisma_transaction {A} (body : Tx A) (db : Store) : option A * Store :=
  match body db with
  | Some (a, db') => (Some a, db')
  | None => (None, db)
  end.

(** [tx.transaction.create]: the primary key must be free and the amount
    must fit its column; the row is stored, and returned, with the amount
    as written. *)
Definition transaction_create (id : string) (row : Transaction) : Tx Transaction :=
  fun db => match transaction db !! id, Decimal.write (amount row) with
            | None, Some amt =>
                let stored := set_amount amt row in
                Some (stored, set_transaction (<[id := stored]> (transaction db)) db)
            | _, _ => None
            end.

(** [tx.transaction.update({ where: { id }, data })]: the row must exist
    and the amount must fit its column. *)
Definition transaction_update (id : string) (data : Transaction -> Transaction)
    : Tx Transaction :=
  fun db => match transaction db !! id with
            | Some old =>
                match Decimal.write (amount (data old)) with
                | Some amt =>
                    let stored := set_amount amt (data old) in
                    Some (stored,
                          set_transaction (<[id := stored]> (transaction db)) db)
                | None => None
                end
            | None => None
            end.

(** [tx.transaction.delete({ where: { id } })]: the row must exist. *)
Definition transaction_delete (id : string) : Tx unit :=
  fun db => match transaction db !! id with
            | Some _ => Some (tt, set_transaction (delete id (transaction db)) db)
            | None => None
            end.

(** [tx.bankAccount.update({ where: { id }, data: { balance: { increment } } })]:
    the database adds exactly and writes the sum to the column. *)
Definition bankAccount_increment (id : string) (change : Q) : Tx unit :=
  fun db => match bankAccount db !! id with
            | Some a =>
                match Decimal.write (balance a + change) with
                | Some b =>
                    Some (tt, set_bankAccount
                                (<[id := set_balance b a]> (bankAccount db)) db)
                | None => None
                end
            | None => None
            end.

(** ** Transactions: [src/app/api/transactions/route.ts] and the handlers of
    one transaction *)

(** The JSON body of a create or update request whose [amount] is a JSON
    number or absent. A string field that is absent is the empty string;
    [body_amount] and [body_date] are [None] when absent, and otherwise
    hold the number [parseFloat] yields and the instant [new Date] yields. *)
Record TransactionBody : Type := mkTransactionBody {
  body_amount : option Q;
  body_type : string;
  body_description : string;
  body_notes : string;
  body_date : option Z;
  body_accountId : string;
  body_categoryId : string
}.

(** The members of [['INCOME', 'EXPENSE', 'TRANSFER']]. *)
Definition transaction_type_of (s : string) : option TransactionType :=
  if String.eqb s "INCOME" then Some INCOME
  else if String.eqb s "EXPENSE" then Some EXPENSE
  else if String.eqb s "TRANSFER" then Some TRANSFER
  else None.

Definition is_INCOME (t : TransactionType) : bool :=
  match t with INCOME => true | _ => false end.

Definition is_EXPENSE (t : TransactionType) : bool :=
  match t with EXPENSE => true | _ => false end.

Definition category_is_INCOME (c : Category) : bool :=
  match cat_type c with CategoryINCOME => true | CategoryEXPENSE => false end.

Definition category_is_EXPENSE (c : Category) : bool :=
  match cat_type c with CategoryEXPENSE => true | CategoryINCOME => false end.

(** [(type === 'INCOME' && category.type !== 'INCOME') ||
     (type === 'EXPENSE' && category.type !== 'EXPENSE')] *)
Definition category_type_mismatch (t : TransactionType) (c : Category) : bool :=
  (is_INCOME t && negb (category_is_INCOME c))
  || (is_EXPENSE t && negb (category_is_EXPENSE c)).

(** [x || null] on a string. *)
Definition or_null (s : string) : option string :=
  if Js.truthy s then Some s else None.

(** [!amount || !type || !accountId || !categoryId || !date]. The amount
    being a number, [!amount] holds when it is absent or zero; a body that
    carries the amount as a string, where [!amount] holds for the empty
    string only, is outside the embedding. *)
Definition missing_required_fields (data : TransactionBody) : bool :=
  negb (match body_amount data with Some a => Js.truthy_num a | None => false end)
  || negb (Js.truthy (body_type data))
  || negb (Js.truthy (body_accountId data))
  || negb (Js.truthy (body_categoryId data))
  || negb (match body_date data with Some _ => true | None => false end).

(** POST /api/transactions *)
Definition POST_transactions (session : option string) (newId : string)
    (data : TransactionBody) (db : Store) : Response Transaction * Store :=
  match session_user session with
  | None => (JsonError 401 "Unauthorized", db)
  | Some uid =>
    if missing_required_fields data
    then (JsonError 400 "Missing required fields", db)
    else
    match body_amount data, body_date data, transaction_type_of (body_type data) with
    | Some amt, Some dt, Some ty =>
      if Js.leb amt 0 then (JsonError 400 "Amount must be positive", db)
      else
      match findFirst acc_userId (bankAccount db) (body_accountId data) uid,
            findFirst cat_userId (category db) (body_categoryId data) uid with
      | None, _ => (JsonError 404 "Account not found", db)
      | Some _, None => (JsonError 404 "Category not found", db)
      | Some account, Some cat =>
        if category_type_mismatch ty cat
        then (JsonError 400 "Category type does not match transaction type", db)
        else
        match prisma_transaction
                (let* created :=
                   transaction_create newId
                     (mkTransaction amt ty (or_null (body_description data))
                        (or_null (body_notes data)) dt uid
                        (body_accountId data) (body_categoryId data)) in
                 let balanceChange := if is_INCOME ty then amt else - amt in
                 run* bankAccount_increment (body_accountId data) balanceChange in
                 tx_ret created) db with
        | (Some result, db') => (Json 201 result, db')
        | (None, db') => (JsonError 500 "Internal server error", db')
        end
      end
    | _, _, None => (JsonError 400 "Invalid transaction type", db)
    | _, _, _ => (JsonError 400 "Missing required fields", db)
    end
  end.

(** PUT /api/transactions/[id] *)
Definition PUT_transaction (session : option string) (transactionId : string)
    (data : TransactionBody) (db : Store) : Response Transaction * Store :=
  match session_user session with
  | None => (JsonError 401 "Unauthorized", db)
  | Some uid =>
    match findFirst userId (transaction db) transactionId uid with
    | None => (JsonError 404 "Transaction not found", db)
    | Some existingTransaction =>
      if missing_required_fields data
      then (JsonError 400 "Missing required fields", db)
      else
      match body_amount data, body_date data, transaction_type_of (body_type data) with
      | Some amt, Some dt, Some ty =>
        if Js.leb amt 0 then (JsonError 400 "Amount must be positive", db)
        else
        match findFirst acc_userId (bankAccount db) (body_accountId data) uid,
              findFirst cat_userId (category db) (body_categoryId data) uid with
        | None, _ => (JsonError 404 "Account not found", db)
        | Some _, None => (JsonError 404 "Category not found", db)
        | Some account, Some cat =>
          if category_type_mismatch ty cat
          then (JsonError 400 "Category type does not match transaction type", db)
          else
          match prisma_transaction
                  (let oldBalanceChange :=
                     if is_INCOME (type existingTransaction)
                     then - amount existingTransaction
                     else amount existingTransaction in
                   run* (if String.eqb (accountId existingTransaction)
                                       (body_accountId data)
                         then bankAccount_increment
                                (accountId existingTransaction) oldBalanceChange
                         else bankAccount_increment
                                (accountId existingTransaction) oldBalanceChange) in
                   let* updatedTransaction :=
                     transaction_update transactionId
                       (fun old =>
                          mkTransaction amt ty (or_null (body_description data))
                            (or_null (body_notes data)) dt (userId old)
                            (body_accountId data) (body_categoryId data)) in
                   let newBalanceChange := if is_INCOME ty then amt else - amt in
                   run* bankAccount_increment (body_accountId data) newBalanceChange in
                   tx_ret updatedTransaction) db with
          | (Some result, db') => (Json 200 result, db')
          | (None, db') => (JsonError 500 "Internal server error", db')
          end
        end
      | _, _, None => (JsonError 400 "Invalid transaction type", db)
      | _, _, _ => (JsonError 400 "Missing required fields", db)
      end
    end
  end.

(** DELETE /api/transactions/[id]; the body of a success is its message. *)
Definition DELETE_transaction (session : option string) (transactionId : string)
    (db : Store) : Response string * Store :=
  match session_user session with
  | None => (JsonError 401 "Unauthorized", db)
  | Some uid =>
    match findFirst userId (transaction db) transactionId uid with
    | None => (JsonError 404 "Transaction not found", db)
    | Some existingTransaction =>
      match prisma_transaction
              (let balanceChange :=
                 if is_INCOME (type existingTransaction)
                 then - amount existingTransaction
                 else amount existingTransaction in
               run* bankAccount_increment
                      (accountId existingTransaction) balanceChange in
               transaction_delete transactionId) db with
      | (Some _, db') => (Json 200 "Transaction deleted successfully", db')
      | (None, db') => (JsonError 500 "Internal server error", db')
      end
    end
  end.

(** ** Accounts: [src/app/api/accounts/[id]/route.ts] and the collection *)

(** The JSON body of an account request. [ab_balance] and [ab_description]
    are [None] when the field is [undefined]; otherwise [ab_balance] holds
    the number [Number(balance)] yields, 0 for [null]. An absent string
    field is the empty string. *)
Record AccountBody : Type := mkAccountBody {
  ab_name : string;
  ab_type : string;
  ab_balance : option Q;
  ab_currency : string;
  ab_description : option string
}.

Definition validTypes : list string :=
  ["CHECKING"; "SAVINGS"; "CREDIT_CARD"; "CASH"; "INVESTMENT"; "LOAN"]%string.

(** POST /api/accounts. A falsy [balance] (absent or zero) opens the account
    at 0. The create throws when the key is taken or the balance does not
    fit its column. *)
Definition POST_accounts (session : option string) (newId : string)
    (data : AccountBody) (db : Store) : Response BankAccount * Store :=
  match session_user session with
  | None => (JsonError 401 "Unauthorized", db)
  | Some uid =>
    if negb (Js.truthy (ab_name data)) || negb (Js.truthy (ab_type data))
    then (JsonError 400 "Name and type are required", db)
    else if negb (Js.includes validTypes (ab_type data))
    then (JsonError 400 "Invalid account type", db)
    else
      match bankAccount db !! newId,
            Decimal.write (match ab_balance data with
                           | Some b => if Js.truthy_num b then b else 0%Q
                           | None => 0%Q
                           end) with
      | None, Some b =>
        let account :=
          mkBankAccount (ab_name data) (ab_type data) b
            (if Js.truthy (ab_currency data) then ab_currency data else "IDR"%string)
            (match ab_description data with
             | Some d => or_null d
             | None => None
             end)
            true uid in
        (Json 201 account,
         set_bankAccount (<[newId := account]> (bankAccount db)) db)
      | _, _ => (JsonError 500 "Internal server error", db)
      end
  end.

(** PUT /api/accounts/[id]. A [balance] of the body is written to the
    column, and the update throws when it does not fit; without one the
    stored balance is kept. *)
Definition PUT_account (session : option string) (id : string)
    (data : AccountBody) (db : Store) : Response BankAccount * Store :=
  match session_user session with
  | None => (JsonError 401 "Unauthorized", db)
  | Some uid =>
    if negb (Js.truthy (ab_name data)) || negb (Js.truthy (ab_type data))
    then (JsonError 400 "Name and type are required", db)
    else if negb (Js.includes validTypes (ab_type data))
    then (JsonError 400 "Invalid account type", db)
    else
      match findFirst acc_userId (bankAccount db) id uid with
      | None => (JsonError 404 "Account not found", db)
      | Some existingAccount =>
        match (match ab_balance data with
               | Some b => Decimal.write b
               | None => Some (balance existingAccount)
               end) with
        | None => (JsonError 500 "Internal server error", db)
        | Some b =>
          let updatedAccount :=
            mkBankAccount (ab_name data) (ab_type data) b
              (if Js.truthy (ab_currency data) then ab_currency data
               else currency existingAccount)
              (match ab_description data with
               | Some d => Some d
               | None => acc_description existingAccount
               end)
              (isActive existingAccount) (acc_userId existingAccount) in
          (Json 200 updatedAccount,
           set_bankAccount (<[id := updatedAccount]> (bankAccount db)) db)
        end
      end
  end.

(** [prisma.transaction.count({ where: { accountId: id } })] *)
Definition transaction_count_of_account (id : string) (db : Store) : nat :=
  length (filter (fun t => accountId t = id) (rows (transaction db))).

(** DELETE /api/accounts/[id]: a soft delete. *)
Definition DELETE_account (session : option string) (id : string)
    (db : Store) : Response string * Store :=
  match session_user session with
  | None => (JsonError 401 "Unauthorized", db)
  | Some uid =>
    match findFirst acc_userId (bankAccount db) id uid with
    | None => (JsonError 404 "Account not found", db)
    | Some existingAccount =>
      if (0 <? transaction_count_of_account id db)%nat
      then (JsonError 400 "Cannot delete account with existing transactions. Please delete all transactions first or transfer them to another account.", db)
      else
        (Json 200 "Account deleted successfully",
         set_bankAccount
           (<[id := mkBankAccount (acc_name existingAccount)
                      (acc_type existingAccount) (balance existingAccount)
                      (currency existingAccount) (acc_description existingAccount)
                      false (acc_userId existingAccount)]>
              (bankAccount db)) db)
    end
  end.

(** ** Budgets: [src/app/api/budgets/route.ts] and
    [src/app/api/budgets/[id]/route.ts] *)

(** The JSON body of a create request; [bb_categoryId] is [None] when the
    field is absent or [null]. The dates are the instants [new Date] yields. *)
Record BudgetBody : Type := mkBudgetBody {
  bb_name : string;
  bb_amount : Q;
  bb_period : string;
  bb_categoryId : option string;
  bb_startDate : Z;
  bb_endDate : Z
}.

(** The members of [['WEEKLY', 'MONTHLY', 'QUARTERLY', 'YEARLY']]. *)
Definition period_of (s : string) : option Period :=
  if String.eqb s "WEEKLY" then Some WEEKLY
  else if String.eqb s "MONTHLY" then Some MONTHLY
  else if String.eqb s "QUARTERLY" then Some QUARTERLY
  else if String.eqb s "YEARLY" then Some YEARLY
  else None.

(** [BudgetSchema.parse]: a name of at least one character, a positive
    amount, a period of the enumeration; [None] stands for a [ZodError]. *)
Definition BudgetSchema_parse (body : BudgetBody) : option (BudgetBody * Period) :=
  if negb (Js.truthy (bb_name body)) then None
  else if negb (Js.gtb (bb_amount body) 0) then None
  else match period_of (bb_period body) with
       | Some p => Some (body, p)
       | None => None
       end.

(** [categoryId || null] *)
Definition categoryId_or_null (c : option string) : option string :=
  match c with
  | Some s => or_null s
  | None => None
  end.

Definition option_string_eqb (a b : option string) : bool :=
  match a, b with
  | Some x, Some y => String.eqb x y
  | None, None => true
  | _, _ => false
  end.

(** The [OR] of the overlap query of the create handler, for a row with
    window [[s1, e1]] and a request with window [[s2, e2]]: the row contains
    the start of the request, or it contains its end, or it lies within the
    request. *)
Definition overlap_OR (s1 e1 s2 e2 : Z) : bool :=
  ((s1 <=? s2)%Z && (e1 >=? s2)%Z)
  || ((s1 <=? e2)%Z && (e1 >=? e2)%Z)
  || ((s1 >=? s2)%Z && (e1 <=? e2)%Z).

(** The [where] clause of the overlap query: same user, same category, and
    the [OR] of the date conditions. *)
Definition overlap_where (uid : string) (cat : option string) (s e : Z)
    (b : Budget) : bool :=
  String.eqb (bud_userId b) uid
  && option_string_eqb (bud_categoryId b) cat
  && overlap_OR (startDate b) (endDate b) s e.

(** POST /api/budgets. The create throws when the key is taken or the
    amount does not fit its column. *)
Definition POST_budgets (session : option string) (newId : string)
    (body : BudgetBody) (db : Store) : Response Budget * Store :=
  match session_user session with
  | None => (JsonError 401 "Unauthorized", db)
  | Some uid =>
    match BudgetSchema_parse body with
    | None => (JsonError 400 "Data tidak valid", db)
    | Some (validatedData, period) =>
      if match categoryId_or_null (bb_categoryId validatedData) with
         | Some cid =>
             match findFirst cat_userId (category db) cid uid with
             | Some _ => false
             | None => true
             end
         | None => false
         end
      then (JsonError 404 "Kategori tidak ditemukan", db)
      else
        match List.find
                (overlap_where uid (categoryId_or_null (bb_categoryId validatedData))
                   (bb_startDate validatedData) (bb_endDate validatedData))
                (rows (budget db)) with
        | Some existingBudget =>
            (JsonError 400 "Budget untuk periode dan kategori ini sudah ada", db)
        | None =>
            match budget db !! newId, Decimal.write (bb_amount validatedData) with
            | None, Some amt =>
              let budgetData :=
                mkBudget (bb_name validatedData) amt period
                  (categoryId_or_null (bb_categoryId validatedData))
                  (bb_startDate validatedData) (bb_endDate validatedData) uid in
              (Json 201 budgetData,
               set_budget (<[newId := budgetData]> (budget db)) db)
            | _, _ => (JsonError 500 "Internal server error", db)
            end
        end
    end
  end.

(** The JSON body of an update request: every field is optional. *)
Record BudgetUpdateBody : Type := mkBudgetUpdateBody {
  bu_name : option string;
  bu_amount : option Q;
  bu_period : option string;
  bu_categoryId : option string;
  bu_startDate : option Z;
  bu_endDate : option Z
}.

(** [BudgetUpdateSchema.parse]: the checks of the create schema on the
    fields that are present. The result is the period read, if any. *)
Definition BudgetUpdateSchema_parse (body : BudgetUpdateBody)
    : option (option Period) :=
  if match bu_name body with Some n => negb (Js.truthy n) | None => false end
  then None
  else if match bu_amount body with Some a => negb (Js.gtb a 0) | None => false end
  then None
  else match bu_period body with
       | Some p => match period_of p with
                   | Some p' => Some (Some p')
                   | None => None
                   end
       | None => Some None
       end.

(** [prisma.budget.update({ data: validatedData })]: the fields present
    replace those of the row, the amount as its column rounds it. *)
Definition budget_update_data (body : BudgetUpdateBody) (period : option Period)
    (b : Budget) : Budget :=
  mkBudget (default (bud_name b) (bu_name body))
           (match bu_amount body with
            | Some x => Decimal.round2 x
            | None => bud_amount b
            end)
           (default (bud_period b) period)
           (match bu_categoryId body with
            | Some cid => Some cid
            | None => bud_categoryId b
            end)
           (default (startDate b) (bu_startDate body))
           (default (endDate b) (bu_endDate body))
           (bud_userId b).

(** PUT /api/budgets/[id]. The update throws when a [categoryId] names no
    category row (the foreign key) or an amount does not fit its column. *)
Definition PUT_budget (session : option string) (id : string)
    (body : BudgetUpdateBody) (db : Store) : Response Budget * Store :=
  match session_user session with
  | None => (JsonError 401 "Unauthorized", db)
  | Some uid =>
    match BudgetUpdateSchema_parse body with
    | None => (JsonError 400 "Data tidak valid", db)
    | Some period =>
      match findFirst bud_userId (budget db) id uid with
      | None => (JsonError 404 "Budget tidak ditemukan", db)
      | Some existingBudget =>
        if match bu_categoryId body with
           | Some cid =>
               Js.truthy cid
               && match findFirst cat_userId (category db) cid uid with
                  | Some _ => false
                  | None => true
                  end
           | None => false
           end
        then (JsonError 404 "Kategori tidak ditemukan", db)
        else
          if match bu_categoryId body with
             | Some cid => match category db !! cid with
                           | Some _ => false
                           | None => true
                           end
             | None => false
             end
             || match bu_amount body with
                | Some x => negb (Decimal.fits x)
                | None => false
                end
          then (JsonError 500 "Internal server error", db)
          else
            let updated := budget_update_data body period existingBudget in
            (Json 200 updated, set_budget (<[id := updated]> (budget db)) db)
      end
    end
  end.

(** DELETE /api/budgets/[id] *)
Definition DELETE_budget (session : option string) (id : string)
    (db : Store) : Response string * Store :=
  match session_user session with
  | None => (JsonError 401 "Unauthorized", db)
  | Some uid =>
    match findFirst bud_userId (budget db) id uid with
    | None => (JsonError 404 "Budget tidak ditemukan", db)
    | Some existingBudget =>
        (Json 200 "Budget berhasil dihapus",
         set_budget (delete id (budget db)) db)
    end
  end.

(** ** Budget evaluation: the three call sites *)

Inductive BudgetStatus : Type := overbudget | warning | good.

(** A budget with the computed fields of a response, which are binary64
    numbers. *)
Record BudgetWithSpending : Type := mkBudgetWithSpending {
  bws_budget : Budget;
  bws_amount : float;
  totalSpent : float;
  remaining : float;
  percentageUsed : float;
  status : BudgetStatus
}.

(** The [where] clause of the transactions of a budget: the EXPENSE
    transactions of the user dated within the window, of the category of the
    budget when it has one. *)
Definition whereTransactions (uid : string) (b : Budget) (t : Transaction) : bool :=
  String.eqb (userId t) uid
  && is_EXPENSE (type t)
  && (startDate b <=? date t)%Z && (date t <=? endDate b)%Z
  && match categoryId_or_null (bud_categoryId b) with
     | Some cid => String.eqb (categoryId t) cid
     | None => true
     end.

(** [orderBy: { date: 'desc' }]: the later transaction comes first. *)
Definition date_desc (t1 t2 : Transaction) : Prop := (date t2 <= date t1)%Z.

#[global] Instance date_desc_dec : RelDecision date_desc :=
  fun t1 t2 => Z_le_dec (date t2) (date t1).

Definition orderBy_date_desc (l : list Transaction) : list Transaction :=
  merge_sort date_desc l.

(** The callback of [budgets.map] in GET /api/budgets. *)
Definition budgets_GET_spending (uid : string) (db : Store) (b : Budget)
    : BudgetWithSpending :=
  let transactions := List.filter (whereTransactions uid b) (rows (transaction db)) in
  let totalSpent :=
    fold_left (fun sum t => (sum + Js.Number (amount t))%float) transactions 0%float in
  let budgetAmount := Js.Number (bud_amount b) in
  let remaining := (budgetAmount - totalSpent)%float in
  let percentageUsed :=
    if (0 <? budgetAmount)%float
    then ((totalSpent / budgetAmount) * 100)%float else 0%float in
  mkBudgetWithSpending b budgetAmount totalSpent remaining
    (Js.Math_round (percentageUsed * 100) / 100)%float
    (if (remaining <? 0)%float then overbudget
     else if (remaining <? budgetAmount * 0.1)%float then warning
     else good).

(** GET /api/budgets/[id]: the budget with its computed fields and its
    transactions, latest first. *)
Definition GET_budget (session : option string) (id : string) (db : Store)
    : Response (BudgetWithSpending * list Transaction) :=
  match session_user session with
  | None => JsonError 401 "Unauthorized"
  | Some uid =>
    match findFirst bud_userId (budget db) id uid with
    | None => JsonError 404 "Budget tidak ditemukan"
    | Some b =>
      let transactions :=
        orderBy_date_desc
          (List.filter (whereTransactions uid b) (rows (transaction db))) in
      let totalSpent :=
        fold_left (fun sum t => (sum + Js.Number (amount t))%float)
          transactions 0%float in
      let budgetAmount := Js.Number (bud_amount b) in
      let remaining := (budgetAmount - totalSpent)%float in
      let percentageUsed :=
        if (0 <? budgetAmount)%float
        then ((totalSpent / budgetAmount) * 100)%float else 0%float in
      Json 200
        (mkBudgetWithSpending b budgetAmount totalSpent remaining
           (Js.Math_round (percentageUsed * 100) / 100)%float
           (if (remaining <? 0)%float then overbudget
            else if (remaining <? budgetAmount * 0.1)%float then warning
            else good),
         transactions)
    end
  end.

(** The callback of [activeBudgets.map] in GET /api/budgets/summary. *)
Definition summary_GET_spending (uid : string) (db : Store) (b : Budget)
    : BudgetWithSpending :=
  let transactions := List.filter (whereTransactions uid b) (rows (transaction db)) in
  let totalSpent :=
    fold_left (fun sum t => (sum + Js.Number (amount t))%float) transactions 0%float in
  let budgetAmount := Js.Number (bud_amount b) in
  let remaining := (budgetAmount - totalSpent)%float in
  let percentageUsed :=
    if (0 <? budgetAmount)%float
    then ((totalSpent / budgetAmount) * 100)%float else 0%float in
  mkBudgetWithSpending b budgetAmount totalSpent remaining
    (Js.Math_round (percentageUsed * 100) / 100)%float
    (if (remaining <? 0)%float then overbudget
     else if (remaining <? budgetAmount * 0.1)%float then warning
     else good).

(** ** Recommendations: [generateRecommendations] of the summary handler *)

Record Recommendation : Type := mkRecommendation {
  rec_type : string;
  rec_title : string;
  rec_message : string
}.

Definition is_overbudget (b : BudgetWithSpending) : bool :=
  match status b with overbudget => true | _ => false end.

Definition is_warning (b : BudgetWithSpending) : bool :=
  match status b with warning => true | _ => false end.

Definition overbudget_recommendation (n : nat) : Recommendation :=
  mkRecommendation "warning" "Budget Terlampaui"
    ("Anda telah melampaui budget di " +:+ pretty n
     +:+ " kategori. Pertimbangkan untuk mengurangi pengeluaran atau menyesuaikan budget.").

Definition warning_recommendation (n : nat) : Recommendation :=
  mkRecommendation "info" "Mendekati Batas Budget"
    ("Budget Anda di " +:+ pretty n
     +:+ " kategori hampir habis. Pantau pengeluaran dengan lebih ketat.").

Definition high_spending_recommendation : Recommendation :=
  mkRecommendation "warning" "Total Pengeluaran Tinggi"
    "Anda telah menggunakan lebih dari 90% dari total budget. Pertimbangkan untuk lebih berhemat.".

Definition good_management_recommendation : Recommendation :=
  mkRecommendation "success" "Pengelolaan Budget Baik"
    "Selamat! Anda berhasil mengelola budget dengan baik. Pertimbangkan untuk menabung lebih banyak.".

Definition first_budget_recommendation : Recommendation :=
  mkRecommendation "info" "Buat Budget Pertama"
    "Mulai kelola keuangan dengan membuat budget untuk kategori pengeluaran Anda.".

(** [recommendations.push(r)] when [c] holds. *)
Definition push_if (c : bool) (r : Recommendation) (recommendations : list Recommendation)
    : list Recommendation :=
  if c then recommendations ++ [r] else recommendations.

Definition generateRecommendations (budgets : list BudgetWithSpending)
    (totalSpent totalBudget : float) : list Recommendation :=
  let recommendations := [] in
  let overbudgetBudgets := List.filter is_overbudget budgets in
  let recommendations :=
    push_if (0 <? length overbudgetBudgets)%nat
      (overbudget_recommendation (length overbudgetBudgets)) recommendations in
  let warningBudgets := List.filter is_warning budgets in
  let recommendations :=
    push_if (0 <? length warningBudgets)%nat
      (warning_recommendation (length warningBudgets)) recommendations in
  let overallPercentage :=
    if (0 <? totalBudget)%float
    then ((totalSpent / totalBudget) * 100)%float else 0%float in
  let recommendations :=
    if (90 <? overallPercentage)%float
    then recommendations ++ [high_spending_recommendation]
    else if (overallPercentage <? 50)%float
    then recommendations ++ [good_management_recommendation]
    else recommendations in
  let recommendations :=
    push_if (length budgets =? 0)%nat first_budget_recommendation recommendations in
  recommendations.

(** The overview of GET /api/budgets/summary over the evaluated budgets. *)
Record Overview : Type := mkOverview {
  totalBudgets : nat;
  totalBudgetAmount : float;
  ov_totalSpent : float;
  totalRemaining : float;
  overallPercentageUsed : float;
  budgetsByStatus : BudgetStatus -> nat
}.

Definition status_eqb (a b : BudgetStatus) : bool :=
  match a, b with
  | overbudget, overbudget | warning, warning | good, good => true
  | _, _ => false
  end.

(** GET /api/budgets/summary for a period of the enumeration: the budgets
    of period [period] active at [now], evaluated, with the overview and
    the recommendations. *)
Definition GET_budgets_summary (session : option string) (period : Period)
    (now : Z) (db : Store)
    : Response (Overview * list BudgetWithSpending * list Recommendation) :=
  match session_user session with
  | None => JsonError 401 "Unauthorized"
  | Some uid =>
    let activeBudgets :=
      List.filter
        (fun b => String.eqb (bud_userId b) uid
                  && match bud_period b, period with
                     | WEEKLY, WEEKLY | MONTHLY, MONTHLY
                     | QUARTERLY, QUARTERLY | YEARLY, YEARLY => true
                     | _, _ => false
                     end
                  && (startDate b <=? now)%Z && (now <=? endDate b)%Z)
        (rows (budget db)) in
    let budgetSummary := List.map (summary_GET_spending uid db) activeBudgets in
    let totalBudgetAmount :=
      fold_left (fun sum b => (sum + bws_amount b)%float) budgetSummary 0%float in
    let totalSpent' :=
      fold_left (fun sum b => (sum + totalSpent b)%float) budgetSummary 0%float in
    let totalRemaining := (totalBudgetAmount - totalSpent')%float in
    let overallPercentageUsed :=
      if (0 <? totalBudgetAmount)%float
      then ((totalSpent' / totalBudgetAmount) * 100)%float else 0%float in
    let budgetsByStatus :=
      fold_left
        (fun (acc : BudgetStatus -> nat) b =>
           fun st => if status_eqb st (status b) then S (acc st) else acc st)
        budgetSummary (fun _ => 0%nat) in
    Json 200
      (mkOverview (length activeBudgets) totalBudgetAmount totalSpent'
         totalRemaining (Js.Math_round (overallPercentageUsed * 100) / 100)%float
         budgetsByStatus,
       budgetSummary,
       generateRecommendations budgetSummary totalSpent' totalBudgetAmount)
  end.

(** The same from the search parameter, empty when absent:
    [searchParams.get('period') || 'MONTHLY'] goes into the query as it is,
    and the query throws on a string outside the enumeration. *)
Definition GET_budgets_summary_of_param (session : option string)
    (period_param : string) (now : Z) (db : Store)
    : Response (Overview * list BudgetWithSpending * list Recommendation) :=
  match session_user session with
  | None => JsonError 401 "Unauthorized"
  | Some _ =>
    match period_of (if Js.truthy period_param then period_param
                     else "MONTHLY"%string) with
    | Some period => GET_budgets_summary session period now db
    | None => JsonError 500 "Internal server error"
    end
  end.

(** ** The ledger: what the transactions posted to an account add up to *)

Module Ledger.

Local Open Scope Q_scope.

(** The effect of a transaction on the balance of its account. *)
Definition signed (t : Transaction) : Q :=
  if is_INCOME (type t) then amount t else - amount t.

Definition Qsum (l : list Q) : Q := foldr Qplus 0 l.

Definition posted_to (acc : string) (t : Transaction) : Q :=
  if String.eqb (accountId t) acc then signed t else 0.

Definition sum_rows {A} (f : A -> Q) (t : gmap string A) : Q :=
  Qsum (f <$> rows t).

(** Signed sum of the transactions of account [acc]. *)
Definition posted (acc : string) (txs : gmap string Transaction) : Q :=
  sum_rows (posted_to acc) txs.

Definition type_eqb (a b : TransactionType) : bool :=
  match a, b with
  | INCOME, INCOME | EXPENSE, EXPENSE | TRANSFER, TRANSFER => true
  | _, _ => false
  end.

Definition amount_of (ty : TransactionType) (acc : string) (t : Transaction) : Q :=
  if String.eqb (accountId t) acc && type_eqb (type t) ty then amount t else 0.

(** Sum of the amounts of the transactions of type [ty] of account [acc]. *)
Definition total (ty : TransactionType) (acc : string)
    (txs : gmap string Transaction) : Q :=
  sum_rows (amount_of ty acc) txs.

(** The cached balance of account [acc]; 0 when there is no such row. *)
Definition balance_of (db : Store) (acc : string) : Q :=
  match bankAccount db !! acc with
  | Some a => balance a
  | None => 0
  end.

(** What is left of the balance once the posted transactions are taken
    out: the balance the account would have with no transaction. *)
Definition opening (db : Store) (acc : string) : Q :=
  balance_of db acc - posted acc (transaction db).

End Ledger.

(** ** Vocabulary for the statements about the transaction handlers *)

(** The row a create or an update request writes. *)
Definition row_of (data : TransactionBody) (amt : Q) (ty : TransactionType)
    (dt : Z) (uid : string) : Transaction :=
  mkTransaction amt ty (or_null (body_description data))
    (or_null (body_notes data)) dt uid
    (body_accountId data) (body_categoryId data).

(** The checks a create or an update request has to pass. *)
Record validated (uid : string) (data : TransactionBody) (db : Store)
    (amt : Q) (ty : TransactionType) (dt : Z) : Prop := mkValidated {
  v_fields : missing_required_fields data = false;
  v_amount : body_amount data = Some amt;
  v_date : body_date data = Some dt;
  v_type : transaction_type_of (body_type data) = Some ty;
  v_positive : Js.leb amt 0 = false;
  v_account : is_Some (findFirst acc_userId (bankAccount db) (body_accountId data) uid);
  v_category : exists c,
    findFirst cat_userId (category db) (body_categoryId data) uid = Some c
    /\ category_type_mismatch ty c = false
}.

(** The direction of category [c] is not the type [ty] of an INCOME or
    EXPENSE transaction. *)
Definition direction_differs (ty : TransactionType) (c : Category) : Prop :=
  (ty = INCOME /\ cat_type c = CategoryEXPENSE)
  \/ (ty = EXPENSE /\ cat_type c = CategoryINCOME).

(** The reversal of a stored transaction and the effect of a requested one,
    as increments of a balance. *)
Definition reversal (old : Transaction) : Q :=
  if is_INCOME (type old) then (- amount old)%Q else amount old.

Definition effect (ty : TransactionType) (amt : Q) : Q :=
  if is_INCOME ty then amt else (- amt)%Q.

(** The store a create request leaves when it succeeds. *)
Definition created (newId : string) (data : TransactionBody) (db : Store)
    (amt : Q) (ty : TransactionType) (dt : Z) (uid : string) (a : BankAccount)
    : Store :=
  mkStore
    (<[body_accountId data :=
         set_balance (Decimal.round2 (balance a + effect ty amt)) a]> (bankAccount db))
    (category db)
    (<[newId := row_of data (Decimal.round2 amt) ty dt uid]> (transaction db))
    (budget db).

(** The store an update request leaves when it succeeds; [a] is the
    account of the stored row and [a'] the account of the request once the
    reversal is written. *)
Definition updated (transactionId : string) (data : TransactionBody) (db : Store)
    (old : Transaction) (amt : Q) (ty : TransactionType) (dt : Z)
    (a a' : BankAccount) : Store :=
  mkStore
    (<[body_accountId data :=
         set_balance (Decimal.round2 (balance a' + effect ty amt)) a']>
       (<[accountId old := set_balance (Decimal.round2 (balance a + reversal old)) a]>
          (bankAccount db)))
    (category db)
    (<[transactionId := row_of data (Decimal.round2 amt) ty dt (userId old)]>
       (transaction db))
    (budget db).

(** The store a delete request leaves when it succeeds. *)
Definition deleted (transactionId : string) (db : Store) (old : Transaction)
    (a : BankAccount) : Store :=
  mkStore
    (<[accountId old := set_balance (Decimal.round2 (balance a + reversal old)) a]>
       (bankAccount db))
    (category db)
    (delete transactionId (transaction db))
    (budget db).

(** Every amount and balance of the store is a value of its column. *)
Definition decimal_store (db : Store) : Prop :=
  (forall id a, bankAccount db !! id = Some a -> Decimal.value (balance a))
  /\ (forall id t, transaction db !! id = Some t -> Decimal.value (amount t))
  /\ (forall id b, budget db !! id = Some b -> Decimal.value (bud_amount b)).

(** ** Sequences of requests against the ledger *)

Inductive LedgerRequest : Type :=
| CreateTransaction (session : option string) (newId : string) (data : TransactionBody)
| UpdateTransaction (session : option string) (transactionId : string)
    (data : TransactionBody)
| DeleteTransaction (session : option string) (transactionId : string).

(** The store after one request. *)
Definition serve (req : LedgerRequest) (db : Store) : Store :=
  match req with
  | CreateTransaction session newId data =>
      snd (POST_transactions session newId data db)
  | UpdateTransaction session transactionId data =>
      snd (PUT_transaction session transactionId data db)
  | DeleteTransaction session transactionId =>
      snd (DELETE_transaction session transactionId db)
  end.

(** The store after a sequence of requests, served one after the other. *)
Definition serve_all (reqs : list LedgerRequest) (db : Store) : Store :=
  foldl (fun db req => serve req db) db reqs.

(** The request carries an amount with at most two decimals, if it
    carries one. *)
Definition two_decimal_request (req : LedgerRequest) : Prop :=
  match req with
  | CreateTransaction _ _ data | UpdateTransaction _ _ data =>
      forall amt, body_amount data = Some amt -> Decimal.two_decimals amt
  | DeleteTransaction _ _ => True
  end.

(** ** Vocabulary for the statements about budgets *)

(** The status rule, read on an evaluated budget: [remaining] is the
    difference, and the status follows the two strict comparisons, all in
    binary64. *)
Definition status_rule (e : BudgetWithSpending) : Prop :=
  remaining e = (bws_amount e - totalSpent e)%float
  /\ ((remaining e <? 0)%float = true -> status e = overbudget)
  /\ ((remaining e <? 0)%float = false ->
      (remaining e <? bws_amount e * 0.1)%float = true ->
      status e = warning)
  /\ ((remaining e <? 0)%float = false ->
      (remaining e <? bws_amount e * 0.1)%float = false ->
      status e = good).

(** The evaluation the three call sites carry out, as a function of the
    budget and of the transactions their query returns, in that order. *)
Definition evaluation (b : Budget) (transactions : list Transaction)
    : BudgetWithSpending :=
  let totalSpent :=
    fold_left (fun sum t => (sum + Js.Number (amount t))%float) transactions 0%float in
  let budgetAmount := Js.Number (bud_amount b) in
  let remaining := (budgetAmount - totalSpent)%float in
  let percentageUsed :=
    if (0 <? budgetAmount)%float
    then ((totalSpent / budgetAmount) * 100)%float else 0%float in
  mkBudgetWithSpending b budgetAmount totalSpent remaining
    (Js.Math_round (percentageUsed * 100) / 100)%float
    (if (remaining <? 0)%float then overbudget
     else if (remaining <? budgetAmount * 0.1)%float then warning
     else good).

(** Two evaluations agree on the computed fields. *)
Definition agree (x y : BudgetWithSpending) : Prop :=
  totalSpent x = totalSpent y
  /\ remaining x = remaining y
  /\ percentageUsed x = percentageUsed y
  /\ status x = status y.

(** The inclusive windows of two budgets have a day in common. *)
Definition windows_overlap (b1 b2 : Budget) : Prop :=
  (startDate b1 <= endDate b2 /\ startDate b2 <= endDate b1)%Z.

Definition same_scope (b1 b2 : Budget) : Prop :=
  bud_userId b1 = bud_userId b2 /\ bud_categoryId b1 = bud_categoryId b2.

(** No two budgets of one scope have overlapping windows. *)
Definition no_overlap (db : Store) : Prop :=
  forall i j b1 b2,
    i <> j -> budget db !! i = Some b1 -> budget db !! j = Some b2 ->
    same_scope b1 b2 -> ~ windows_overlap b1 b2.

(** The requests that are neither the creation of an account nor a request
    on transactions. *)
Inductive OtherRequest : Type :=
| UpdateAccount (session : option string) (id : string) (data : AccountBody)
| DeleteAccount (session : option string) (id : string)
| CreateBudget (session : option string) (newId : string) (body : BudgetBody)
| UpdateBudget (session : option string) (id : string) (body : BudgetUpdateBody)
| DeleteBudget (session : option string) (id : string).

Definition serve_other (req : OtherRequest) (db : Store) : Store :=
  match req with
  | UpdateAccount session id data => snd (PUT_account session id data db)
  | DeleteAccount session id => snd (DELETE_account session id db)
  | CreateBudget session newId body => snd (POST_budgets session newId body db)
  | UpdateBudget session id body => snd (PUT_budget session id body db)
  | DeleteBudget session id => snd (DELETE_budget session id db)
  end.

(** The request carries no [balance] field. *)
Definition carries_no_balance (req : OtherRequest) : Prop :=
  match req with
  | UpdateAccount _ _ data => ab_balance data = None
  | _ => True
  end.

(** The percentage [generateRecommendations] compares with 90 and 50. *)
Definition overallPercentage (totalSpent totalBudget : float) : float :=
  if (0 <? totalBudget)%float
  then ((totalSpent / totalBudget) * 100)%float else 0%float.

(** ** A small store and a few requests, for the worked scenarios *)

Module Scenario.

Local Open Scope Q_scope.

Definition account_X : BankAccount :=
  mkBankAccount "Wallet" "CASH" 1000000 "IDR" None true "user-1".

Definition account_Y : BankAccount :=
  mkBankAccount "Savings" "SAVINGS" 0 "IDR" None true "user-1".

Definition food : Category :=
  mkCategory "Food & Dining" CategoryEXPENSE None None true "user-1".

Definition salary : Category :=
  mkCategory "Salary" CategoryINCOME None None true "user-1".

Definition db0 : Store :=
  mkStore (<["X" := account_X]> (<["Y" := account_Y]> ∅))
          (<["food" := food]> (<["salary" := salary]> ∅))
          ∅ ∅.

Definition me : option string := Some "user-1"%string.

Definition body (amt : Q) (ty acc cat : string) : TransactionBody :=
  mkTransactionBody (Some amt) ty EmptyString EmptyString
    (Some 1750000000000%Z) acc cat.

(** Spend 150000, correct it to 50000, delete it. *)
Definition spend_correct_delete : list LedgerRequest :=
  [ CreateTransaction me "t1" (body 150000 "EXPENSE" "X" "food");
    UpdateTransaction me "t1" (body 50000 "EXPENSE" "X" "food");
    DeleteTransaction me "t1" ].

(** One transfer of 400000 out of X. *)
Definition one_transfer : list LedgerRequest :=
  [ CreateTransaction me "t1" (body 400000 "TRANSFER" "X" "food") ].

(** One expense of 10.555 out of X. *)
Definition one_fraction : list LedgerRequest :=
  [ CreateTransaction me "t1" (body 10.555 "EXPENSE" "X" "food") ].

Definition expense (amt : Q) (day : Z) : Transaction :=
  mkTransaction amt EXPENSE None None day "user-1" "X" "food".

(** A budget of 1000 for days 1 to 30, and expenses of 400 and 500 within. *)
Definition budget_june : Budget :=
  mkBudget "June" 1000 MONTHLY None 1 30 "user-1".

Definition budget_july : Budget :=
  mkBudget "July" 1000 MONTHLY None 31 61 "user-1".

Definition db_spent_900 : Store :=
  mkStore (bankAccount db0) (category db0)
          (<["t1" := expense 400 3]> (<["t2" := expense 500 17]> ∅))
          (<["b1" := budget_june]> (<["b2" := budget_july]> ∅)).

(** Expenses of 0.1, 0.2 and 0.3, the largest being the latest, under a
    budget of 0.6. *)
Definition budget_tenths : Budget :=
  mkBudget "Tenths" 0.6 MONTHLY None 1 30 "user-1".

Definition db_tenths : Store :=
  mkStore (bankAccount db0) (category db0)
          (<["t1" := expense 0.1 3]>
             (<["t2" := expense 0.2 10]> (<["t3" := expense 0.3 17]> ∅)))
          (<["b1" := budget_tenths]> ∅).

(** A budget of 3 with 2.7 spent. *)
Definition budget_three : Budget :=
  mkBudget "Three" 3 MONTHLY None 1 30 "user-1".

Definition db_three : Store :=
  mkStore (bankAccount db0) (category db0)
          (<["t1" := expense 2.7 3]> ∅)
          (<["b1" := budget_three]> ∅).

(** Move the start of the July budget into June. *)
Definition move_july_start : BudgetUpdateBody :=
  mkBudgetUpdateBody None None None None (Some 15%Z) None.

(** Set the balance of account X to 5. *)
Definition set_balance_5 : AccountBody :=
  mkAccountBody "Wallet" "CASH" (Some 5) EmptyString None.

(** Set the balance of account X to 5.555, and to 10000000000. *)
Definition set_balance_fraction : AccountBody :=
  mkAccountBody "Wallet" "CASH" (Some 5.555) EmptyString None.

Definition set_balance_large : AccountBody :=
  mkAccountBody "Wallet" "CASH" (Some 10000000000) EmptyString None.



End Scenario.

(** ** Integrity of the store *)

(** A stored transaction has an amount that is not negative, its account
    and its category are rows of its user, and the direction of the
    category fits the type. *)
Definition transaction_ok (db : Store) (t : Transaction) : Prop :=
  (0 <= amount t)%Q
  /\ (exists a, bankAccount db !! accountId t = Some a /\ acc_userId a = userId t)
  /\ (exists c, category db !! categoryId t = Some c /\ cat_userId c = userId t
                /\ category_type_mismatch (type t) c = false).

Definition integrity (db : Store) : Prop :=
  forall id t, transaction db !! id = Some t -> transaction_ok db t.

(** ** Every request on accounts, transactions and budgets *)

Inductive Request : Type :=
| OnLedger (req : LedgerRequest)
| OnOther (req : OtherRequest)
| CreateAccount (session : option string) (newId : string) (data : AccountBody).

Definition serve_any (req : Request) (db : Store) : Store :=
  match req with
  | OnLedger r => serve r db
  | OnOther r => serve_other r db
  | CreateAccount session newId data => snd (POST_accounts session newId data db)
  end.

Definition serve_any_all (reqs : list Request) (db : Store) : Store :=
  foldl (fun db req => serve_any req db) db reqs.

(** The user a request is made for, if its session names one. *)
Definition requester (req : Request) : option string :=
  session_user
    match req with
    | OnLedger (CreateTransaction session _ _)
    | OnLedger (UpdateTransaction session _ _)
    | OnLedger (DeleteTransaction session _)
    | OnOther (UpdateAccount session _ _)
    | OnOther (DeleteAccount session _)
    | OnOther (CreateBudget session _ _)
    | OnOther (UpdateBudget session _ _)
    | OnOther (DeleteBudget session _)
    | CreateAccount session _ _ => session
    end.

(** Every account of [db] is still a row of [db'], with the same owner. *)
Definition same_owners (db db' : Store) : Prop :=
  forall id a, bankAccount db !! id = Some a ->
    exists a', bankAccount db' !! id = Some a' /\ acc_userId a' = acc_userId a.

(** ** A store of two users, for the worked scenarios *)

Module TwoUsers.

Local Open Scope Q_scope.

Definition account_Z : BankAccount :=
  mkBankAccount "Other wallet" "CASH" 300 "IDR" None true "user-2".

Definition groceries : Category :=
  mkCategory "Groceries" CategoryEXPENSE None None false "user-2".

Definition other_expense : Transaction :=
  mkTransaction 40 EXPENSE None None 5 "user-2" "Z" "groceries".

Definition other_budget : Budget :=
  mkBudget "Theirs" 500 MONTHLY None 1 30 "user-2".

(** The store of the scenarios with the rows of a second user added. *)
Definition db : Store :=
  mkStore (<["Z" := account_Z]> (bankAccount Scenario.db_spent_900))
          (<["groceries" := groceries]> (category Scenario.db_spent_900))
          (<["t9" := other_expense]> (transaction Scenario.db_spent_900))
          (<["b9" := other_budget]> (budget Scenario.db_spent_900)).

Definition them : option string := Some "user-2"%string.

End TwoUsers.

(** ** Validity of the rows the handlers check *)

(** An account has a name and one of the six types. *)
Definition valid_account (a : BankAccount) : Prop :=
  acc_name a <> EmptyString /\ Js.includes validTypes (acc_type a) = true.

(** A budget has a name and an amount that is not negative. *)
Definition valid_budget (b : Budget) : Prop :=
  bud_name b <> EmptyString /\ (0 <= bud_amount b)%Q.

Definition valid_rows (db : Store) : Prop :=
  (forall id a, bankAccount db !! id = Some a -> valid_account a)
  /\ (forall id b, budget db !! id = Some b -> valid_budget b).

(** ** Listing transactions: GET of [src/app/api/transactions/route.ts] *)

(** The search parameters. A string parameter that is absent is the empty
    string; the dates are the instants [new Date] yields; [q_page] and
    [q_limit] are the integers [parseInt] yields, a page from 1 on and a
    limit from 0 on (their defaults 1 and 10 are filled in by the caller). *)
Record TransactionQuery : Type := mkTransactionQuery {
  q_type : string;
  q_categoryId : string;
  q_accountId : string;
  q_startDate : option Z;
  q_endDate : option Z;
  q_page : positive;
  q_limit : nat
}.

(** The [where] object built from the parameters. *)
Definition transactions_where (uid : string) (q : TransactionQuery)
    (t : Transaction) : bool :=
  String.eqb (userId t) uid
  && match (if Js.truthy (q_type q)
               && Js.includes ["INCOME"; "EXPENSE"; "TRANSFER"]%string (q_type q)
            then transaction_type_of (q_type q) else None) with
     | Some ty => Ledger.type_eqb (type t) ty
     | None => true
     end
  && (if Js.truthy (q_categoryId q)
      then String.eqb (categoryId t) (q_categoryId q) else true)
  && (if Js.truthy (q_accountId q)
      then String.eqb (accountId t) (q_accountId q) else true)
  && match q_startDate q with Some s => (s <=? date t)%Z | None => true end
  && match q_endDate q with Some e => (date t <=? e)%Z | None => true end.

Record Pagination : Type := mkPagination {
  pg_page : positive;
  pg_limit : nat;
  pg_total : nat;
  pg_totalPages : option nat
}.

(** [Math.ceil(total / limit)]; with a limit of 0 the quotient is not a
    number and the field is [null]. *)
Definition totalPages_of (total limit : nat) : option nat :=
  if (limit =? 0)%nat then None else Some ((total + limit - 1) / limit)%nat.

(** GET /api/transactions *)
Definition GET_transactions (session : option string) (q : TransactionQuery)
    (db : Store) : Response (list Transaction * Pagination) :=
  match session_user session with
  | None => JsonError 401 "Unauthorized"
  | Some uid =>
    let transactions :=
      take (q_limit q)
        (drop ((Pos.to_nat (q_page q) - 1) * q_limit q)
           (orderBy_date_desc
              (List.filter (transactions_where uid q) (rows (transaction db))))) in
    let total :=
      length (List.filter (transactions_where uid q) (rows (transaction db))) in
    Json 200 (transactions,
              mkPagination (q_page q) (q_limit q) total
                (totalPages_of total (q_limit q)))
  end.

(** GET /api/transactions/[id] *)
Definition GET_transaction (session : option string) (transactionId : string)
    (db : Store) : Response Transaction :=
  match session_user session with
  | None => JsonError 401 "Unauthorized"
  | Some uid =>
    match findFirst userId (transaction db) transactionId uid with
    | None => JsonError 404 "Transaction not found"
    | Some t => Json 200 t
    end
  end.

(** ** Listing budgets: GET of [src/app/api/budgets/route.ts] *)

(** The search parameters; an absent parameter is the empty string. *)
Record BudgetQuery : Type := mkBudgetQuery {
  bq_period : string;
  bq_categoryId : string;
  bq_status : string
}.

Definition period_eqb (a b : Period) : bool :=
  match a, b with
  | WEEKLY, WEEKLY | MONTHLY, MONTHLY | QUARTERLY, QUARTERLY | YEARLY, YEARLY => true
  | _, _ => false
  end.

(** The [whereClause] built from the parameters, for a [period] parameter
    that is absent or names a period ([period] is what it names). *)
Definition budgets_where (uid : string) (q : BudgetQuery) (period : option Period)
    (now : Z) (b : Budget) : bool :=
  String.eqb (bud_userId b) uid
  && match period with Some p => period_eqb (bud_period b) p | None => true end
  && (if Js.truthy (bq_categoryId q)
      then option_string_eqb (bud_categoryId b) (Some (bq_categoryId q)) else true)
  && (if String.eqb (bq_status q) "active"
      then (startDate b <=? now)%Z && (now <=? endDate b)%Z
      else if String.eqb (bq_status q) "completed"
      then (endDate b <? now)%Z
      else true).

Section BudgetsList.

(** The column [createdAt] is not part of the rows of the model; the
    instant at which the budget of a key was created is a parameter. *)
Variable createdAt : string -> Z.

(** [orderBy: { createdAt: 'desc' }] *)
Definition createdAt_desc (x y : string * Budget) : Prop :=
  (createdAt (fst y) <= createdAt (fst x))%Z.

#[local] Instance createdAt_desc_dec : RelDecision createdAt_desc :=
  fun x y => Z_le_dec (createdAt (fst y)) (createdAt (fst x)).

(** GET /api/budgets. A [period] parameter outside the enumeration makes
    the query throw. *)
Definition GET_budgets (session : option string) (q : BudgetQuery) (now : Z)
    (db : Store) : Response (list BudgetWithSpending) :=
  match session_user session with
  | None => JsonError 401 "Unauthorized"
  | Some uid =>
    match (if Js.truthy (bq_period q)
           then match period_of (bq_period q) with
                | Some p => Some (Some p)
                | None => None
                end
           else Some None) with
    | None => JsonError 500 "Internal server error"
    | Some period =>
      let budgets :=
        merge_sort createdAt_desc
          (List.filter (fun r => budgets_where uid q period now (snd r))
             (map_to_list (budget db))) in
      Json 200 (List.map (fun r => budgets_GET_spending uid db (snd r)) budgets)
    end
  end.

End BudgetsList.

(** ** Listing accounts: GET of the accounts collection *)

Section AccountsList.

(** [orderBy: { name: 'asc' }] follows the collation of the database, a
    parameter of the model. *)
Context (name_asc : relation string) `{!RelDecision name_asc}.

Definition acc_name_asc (x y : string * BankAccount) : Prop :=
  name_asc (acc_name (snd x)) (acc_name (snd y)).

#[local] Instance acc_name_asc_dec : RelDecision acc_name_asc :=
  fun x y => decide (name_asc (acc_name (snd x)) (acc_name (snd y))).

(** GET /api/accounts: the active accounts of the user, each with its id. *)
Definition GET_accounts (session : option string) (db : Store)
    : Response (list (string * BankAccount)) :=
  match session_user session with
  | None => JsonError 401 "Unauthorized"
  | Some uid =>
    Json 200
      (merge_sort acc_name_asc
         (List.filter
            (fun r => String.eqb (acc_userId (snd r)) uid && isActive (snd r))
            (map_to_list (bankAccount db))))
  end.

End AccountsList.

(** ** The dashboard: GET of [src/app/api/dashboard/summary/route.ts] *)

(** [_sum] of an aggregate: [null] when no row matches. *)
Definition aggregate_sum {A} (f : A -> Q) (l : list A) : option Q :=
  match l with
  | [] => None
  | _ => Some (Ledger.Qsum (f <$> l))
  end.

(** [x?.toNumber() || 0] *)
Definition toNumber_or_0 (x : option Q) : Q :=
  match x with
  | Some q => if Js.truthy_num q then q else 0%Q
  | None => 0%Q
  end.

(** The [where] of the aggregates over the period; [ty] is absent in the
    count. *)
Definition dashboard_where (uid : string) (ty : option TransactionType)
    (startDate endDate : Z) (t : Transaction) : bool :=
  String.eqb (userId t) uid
  && match ty with Some ty => Ledger.type_eqb (type t) ty | None => true end
  && (startDate <=? date t)%Z && (date t <? endDate)%Z.

(** [groupBy categoryId] with [_sum.amount]: one entry for each category
    among the rows. *)
Definition groupBy_categoryId (l : list Transaction) : list (string * Q) :=
  (fun c => (c, Ledger.Qsum
                  (amount <$> List.filter (fun t => String.eqb (categoryId t) c) l)))
  <$> remove_dups (categoryId <$> l).

(** [orderBy: { _sum: { amount: 'desc' } }] *)
Definition sum_desc (x y : string * Q) : Prop := (snd y <= snd x)%Q.

#[global] Instance sum_desc_dec : RelDecision sum_desc :=
  fun x y =>
    match Qlt_le_dec (snd x) (snd y) with
    | left H => right (Qlt_not_le _ _ H)
    | right H => left H
    end.

(** The summary of a response. The totals are the sums the database
    computes, as numbers; the net income is their difference in binary64. *)
Record DashboardSummary : Type := mkDashboardSummary {
  ds_period : string;
  ds_startDate : Z;
  ds_endDate : Z;
  ds_totalIncome : Q;
  ds_totalExpense : Q;
  ds_netIncome : float;
  ds_transactionCount : nat;
  ds_totalBalance : Q;
  ds_recentTransactions : list Transaction;
  ds_categoryStats : list (string * Q * option Category)
}.

Section Dashboard.

(** The three dates the handler takes from the local calendar: seven days
    before an instant, the start of its year and the start of its month. *)
Variables (seven_days_before start_of_year start_of_month : Z -> Z).

Definition dashboard_startDate (period : string) (now : Z) : Z :=
  if String.eqb period "week" then seven_days_before now
  else if String.eqb period "year" then start_of_year now
  else start_of_month now.

(** GET /api/dashboard/summary; [period_param] is the search parameter,
    empty when absent. *)
Definition GET_dashboard_summary (session : option string) (period_param : string)
    (now : Z) (db : Store) : Response DashboardSummary :=
  match session_user session with
  | None => JsonError 401 "Unauthorized"
  | Some uid =>
    let period := if Js.truthy period_param then period_param else "month"%string in
    let endDate := (now + 24 * 60 * 60 * 1000)%Z in
    let startDate := dashboard_startDate period now in
    let totalIncome :=
      aggregate_sum amount
        (List.filter (dashboard_where uid (Some INCOME) startDate endDate)
           (rows (transaction db))) in
    let totalExpense :=
      aggregate_sum amount
        (List.filter (dashboard_where uid (Some EXPENSE) startDate endDate)
           (rows (transaction db))) in
    let transactionCount :=
      length (List.filter (dashboard_where uid None startDate endDate)
                (rows (transaction db))) in
    let recentTransactions :=
      take 5 (orderBy_date_desc
                (List.filter (fun t => String.eqb (userId t) uid)
                   (rows (transaction db)))) in
    let accountsBalance :=
      aggregate_sum balance
        (List.filter (fun a => String.eqb (acc_userId a) uid && isActive a)
           (rows (bankAccount db))) in
    let categoryStats :=
      take 5 (merge_sort sum_desc
                (groupBy_categoryId
                   (List.filter (dashboard_where uid (Some EXPENSE) startDate endDate)
                      (rows (transaction db))))) in
    let categoryStatsWithDetails :=
      (fun stat => (stat, category db !! fst stat)) <$> categoryStats in
    Json 200
      (mkDashboardSummary period startDate endDate
         (toNumber_or_0 totalIncome)
         (toNumber_or_0 totalExpense)
         (Js.Number (toNumber_or_0 totalIncome)
          - Js.Number (toNumber_or_0 totalExpense))%float
         transactionCount
         (toNumber_or_0 accountsBalance)
         recentTransactions
         categoryStatsWithDetails)
  end.

End Dashboard.

(** An order on names for the worked scenarios: the order of the bytes. *)
Definition byte_order (a b : string) : Prop := String.leb a b = true.

#[global] Instance byte_order_dec : RelDecision byte_order :=
  fun a b => decide (String.leb a b = true).

(** ** Categories: POST of [src/app/api/categories/route.ts], PUT and
    DELETE of the handlers of one category *)

Record CategoryBody : Type := mkCategoryBody {
  cb_name : string;
  cb_type : string;
  cb_icon : string;
  cb_color : string
}.

Definition category_type_of (s : string) : option CategoryType :=
  if String.eqb s "INCOME" then Some CategoryINCOME
  else if String.eqb s "EXPENSE" then Some CategoryEXPENSE
  else None.

(** [prisma.transaction.count({ where: { categoryId: id } })] *)
Definition transaction_count_of_category (id : string) (db : Store) : nat :=
  length (List.filter (fun t => String.eqb (categoryId t) id) (rows (transaction db))).

(** ** Users: the columns the handlers of registration read or write *)

Record User : Type := mkUser {
  usr_name : option string;
  email : string;
  password : option string;
  emailVerificationToken : option string;
  emailVerificationExpires : option Z;
  isEmailVerified : bool;
  emailVerified : option Z
}.

Record RegisterBody : Type := mkRegisterBody {
  rb_name : string;
  rb_email : string;
  rb_password : string
}.

(** The created user as the response shows it: every column but the
    password. *)
Record UserWithoutPassword : Type := mkUserWithoutPassword {
  ru_id : string;
  ru_name : option string;
  ru_email : string;
  ru_emailVerificationToken : option string;
  ru_emailVerificationExpires : option Z;
  ru_isEmailVerified : bool;
  ru_emailVerified : option Z
}.

Definition defaultCategories : list (string * string * string * CategoryType) :=
  [ ("Salary", "💼", "#10B981", CategoryINCOME);
    ("Freelance", "💻", "#6366F1", CategoryINCOME);
    ("Investment", "📈", "#8B5CF6", CategoryINCOME);
    ("Other Income", "💰", "#F59E0B", CategoryINCOME);
    ("Food & Dining", "🍽️", "#EF4444", CategoryEXPENSE);
    ("Transportation", "🚗", "#F97316", CategoryEXPENSE);
    ("Shopping", "🛍️", "#EC4899", CategoryEXPENSE);
    ("Entertainment", "🎬", "#8B5CF6", CategoryEXPENSE);
    ("Bills & Utilities", "📄", "#6B7280", CategoryEXPENSE);
    ("Healthcare", "🏥", "#EF4444", CategoryEXPENSE);
    ("Education", "🎓", "#3B82F6", CategoryEXPENSE);
    ("Travel", "✈️", "#06B6D4", CategoryEXPENSE);
    ("Other Expenses", "💸", "#6B7280", CategoryEXPENSE) ]%string.

Section UniqueCategories.

(** The schema, which [src/app/categories/page.tsx] embeds, puts a unique
    index on the owner and the name of a category,
    [@@unique([userId, name])], and makes the foreign key from budgets to
    categories [onDelete: Cascade]. The handlers are written over the two:
    [category_conflict new old] tells whether the index refuses the row
    [new] beside the row [old], and [budgets_on_category_delete id] is what
    deleting category [id] does to the table of budgets, [None] when the
    database refuses. [conflict_by_name] and [cascade_on_delete] below are
    those of the schema. *)
Variable category_conflict : Category -> Category -> bool.
Variable budgets_on_category_delete :
  string -> gmap string Budget -> option (gmap string Budget).

(** [prisma.category.create]; [None] for the error P2002, raised when the
    key is taken or the index refuses the row. *)
Definition category_create (id : string) (row : Category)
    (t : gmap string Category) : option (gmap string Category) :=
  match t !! id with
  | Some _ => None
  | None =>
    if existsb (category_conflict row) (rows t) then None
    else Some (<[id := row]> t)
  end.

(** [prisma.category.update] of the row stored under [id]. *)
Definition category_update (id : string) (row : Category)
    (t : gmap string Category) : option (gmap string Category) :=
  if existsb (fun r => negb (String.eqb (fst r) id) && category_conflict row (snd r))
       (map_to_list t)
  then None
  else Some (<[id := row]> t).

(** [prisma.category.createMany]: all the rows or none. *)
Definition category_createMany (new : list (string * Category))
    (t : gmap string Category) : option (gmap string Category) :=
  foldl (fun acc r =>
           match acc with
           | Some t => category_create (fst r) (snd r) t
           | None => None
           end) (Some t) new.

(** POST /api/categories *)
Definition POST_categories (session : option string) (newId : string)
    (data : CategoryBody) (db : Store) : Response Category * Store :=
  match session_user session with
  | None => (JsonError 401 "Unauthorized", db)
  | Some uid =>
    if negb (Js.truthy (cb_name data)) || negb (Js.truthy (cb_type data))
    then (JsonError 400 "Name and type are required", db)
    else if negb (Js.includes ["INCOME"; "EXPENSE"]%string (cb_type data))
    then (JsonError 400 "Invalid category type", db)
    else
      match category_type_of (cb_type data) with
      | None => (JsonError 500 "Internal server error", db)
      | Some ty =>
        let row := mkCategory (cb_name data) ty (or_null (cb_icon data))
                              (or_null (cb_color data)) false uid in
        match category_create newId row (category db) with
        | None => (JsonError 409 "Category name already exists", db)
        | Some t => (Json 201 row, set_category t db)
        end
      end
  end.

(** PUT /api/categories/[id] *)
Definition PUT_category (session : option string) (id : string)
    (data : CategoryBody) (db : Store) : Response Category * Store :=
  match session_user session with
  | None => (JsonError 401 "Unauthorized", db)
  | Some uid =>
    if negb (Js.truthy (cb_name data)) || negb (Js.truthy (cb_type data))
    then (JsonError 400 "Name and type are required", db)
    else if negb (Js.includes ["INCOME"; "EXPENSE"]%string (cb_type data))
    then (JsonError 400 "Invalid category type", db)
    else
      match findFirst cat_userId (category db) id uid with
      | None => (JsonError 404 "Category not found", db)
      | Some existingCategory =>
        if isDefault existingCategory
        then (JsonError 400 "Cannot edit default categories", db)
        else
          match category_type_of (cb_type data) with
          | None => (JsonError 500 "Internal server error", db)
          | Some ty =>
            let row := mkCategory (cb_name data) ty (or_null (cb_icon data))
                                  (or_null (cb_color data))
                                  (isDefault existingCategory)
                                  (cat_userId existingCategory) in
            match category_update id row (category db) with
            | None => (JsonError 409 "Category name already exists", db)
            | Some t => (Json 200 row, set_category t db)
            end
          end
      end
  end.

(** DELETE /api/categories/[id] *)
Definition DELETE_category (session : option string) (id : string) (db : Store)
    : Response string * Store :=
  match session_user session with
  | None => (JsonError 401 "Unauthorized", db)
  | Some uid =>
    match findFirst cat_userId (category db) id uid with
    | None => (JsonError 404 "Category not found", db)
    | Some existingCategory =>
      if isDefault existingCategory
      then (JsonError 400 "Cannot delete default categories", db)
      else if (0 <? transaction_count_of_category id db)%nat
      then (JsonError 400
              "Cannot delete category with existing transactions. Please reassign transactions to another category first.",
            db)
      else
        match budgets_on_category_delete id (budget db) with
        | None => (JsonError 500 "Internal server error", db)
        | Some budgets =>
          (Json 200 "Category deleted successfully"%string,
           mkStore (bankAccount db) (delete id (category db)) (transaction db)
                   budgets)
        end
    end
  end.

(** POST /api/auth/register. The hash of the password, the verification
    token, its expiry and the generated keys are inputs: [newUserId] for
    the user, [newCategoryId i] for the default category of index [i].
    A failure after the user is created leaves the user in place. *)
Definition POST_register (data : RegisterBody)
    (hashedPassword verificationToken : string) (verificationExpires : Z)
    (newUserId : string) (newCategoryId : nat -> string)
    (users : gmap string User) (db : Store)
    : Response UserWithoutPassword * (gmap string User * Store) :=
  if negb (Js.truthy (rb_name data)) || negb (Js.truthy (rb_email data))
     || negb (Js.truthy (rb_password data))
  then (JsonError 400 "Missing required fields", (users, db))
  else
    match List.find (fun u => String.eqb (email u) (rb_email data)) (rows users) with
    | Some _ => (JsonError 400 "User already exists", (users, db))
    | None =>
      match users !! newUserId with
      | Some _ => (JsonError 500 "Internal server error", (users, db))
      | None =>
        let user := mkUser (Some (rb_name data)) (rb_email data)
                           (Some hashedPassword) (Some verificationToken)
                           (Some verificationExpires) false None in
        let users' := <[newUserId := user]> users in
        match category_createMany
                (imap (fun i c =>
                         match c with
                         | (name, icon, color, ty) =>
                           (newCategoryId i,
                            mkCategory name ty (Some icon) (Some color) true newUserId)
                         end) defaultCategories)
                (category db) with
        | None => (JsonError 500 "Internal server error", (users', db))
        | Some categories =>
          (Json 201
             (mkUserWithoutPassword newUserId (usr_name user) (email user)
                (emailVerificationToken user) (emailVerificationExpires user)
                (isEmailVerified user) (emailVerified user)),
           (users', set_category categories db))
        end
      end
    end.

End UniqueCategories.

(** GET /api/auth/verify-email; [now] is the instant of the query and
    [verifiedAt] the later instant written to the row. *)
Definition GET_verify_email (token : string) (now verifiedAt : Z)
    (users : gmap string User) : Response string * gmap string User :=
  if negb (Js.truthy token)
  then (JsonError 400 "Verification token is required", users)
  else
    match List.find
            (fun r => option_string_eqb (emailVerificationToken (snd r)) (Some token)
                      && match emailVerificationExpires (snd r) with
                         | Some expires => (now <? expires)%Z
                         | None => false
                         end)
            (map_to_list users) with
    | None => (JsonError 400 "Invalid or expired verification token", users)
    | Some (id, user) =>
      (Json 200 "Email verified successfully! You can now sign in."%string,
       <[id := mkUser (usr_name user) (email user) (password user) None None
                      true (Some verifiedAt)]> users)
    end.

(** ** Every request of the application on the store *)

Inductive CategoryRequest : Type :=
| CreateCategory (session : option string) (newId : string) (data : CategoryBody)
| UpdateCategory (session : option string) (id : string) (data : CategoryBody)
| DeleteCategory (session : option string) (id : string).

Inductive AppRequest : Type :=
| OnCategory (req : CategoryRequest)
| OnRest (req : Request).

Section App.

Variable category_conflict : Category -> Category -> bool.
Variable budgets_on_category_delete :
  string -> gmap string Budget -> option (gmap string Budget).

Definition serve_category (req : CategoryRequest) (db : Store) : Store :=
  match req with
  | CreateCategory session newId data =>
    snd (POST_categories category_conflict session newId data db)
  | UpdateCategory session id data =>
    snd (PUT_category category_conflict session id data db)
  | DeleteCategory session id =>
    snd (DELETE_category budgets_on_category_delete session id db)
  end.

Definition serve_app (req : AppRequest) (db : Store) : Store :=
  match req with
  | OnCategory r => serve_category r db
  | OnRest r => serve_any r db
  end.

Definition serve_app_all (reqs : list AppRequest) (db : Store) : Store :=
  foldl (fun db req => serve_app req db) db reqs.

End App.

(** The index and the foreign key of the schema: the index refuses a
    second category of one owner under one name, and deleting a category
    deletes its budgets. *)
Definition conflict_by_name (new old : Category) : bool :=
  String.eqb (cat_userId new) (cat_userId old)
  && String.eqb (cat_name new) (cat_name old).

Definition cascade_on_delete (id : string) (t : gmap string Budget)
    : option (gmap string Budget) :=
  Some (filter (fun kb : string * Budget => bud_categoryId kb.2 <> Some id) t).

(** A category of the user's own making with one expense in it, for the
    worked scenarios. *)
Module Pets.

Local Open Scope Q_scope.

Definition pets : Category :=
  mkCategory "Pets" CategoryEXPENSE None None false "user-1".

Definition vet : Transaction :=
  mkTransaction 80 EXPENSE None None 9 "user-1" "X" "pets".

Definition db : Store :=
  mkStore (bankAccount Scenario.db0)
          (<["pets" := pets]> (category Scenario.db0))
          (<["t5" := vet]> ∅) ∅.

End Pets.

(** ** The requests of registration *)

Inductive AuthRequest : Type :=
| Register (data : RegisterBody) (hashedPassword verificationToken : string)
    (verificationExpires : Z) (newUserId : string) (newCategoryId : nat -> string)
| VerifyEmail (token : string) (now verifiedAt : Z).

Definition serve_auth (category_conflict : Category -> Category -> bool)
    (req : AuthRequest) (st : gmap string User * Store) : gmap string User * Store :=
  match req with
  | Register data hashedPassword verificationToken verificationExpires
      newUserId newCategoryId =>
    snd (POST_register category_conflict data hashedPassword verificationToken
           verificationExpires newUserId newCategoryId (fst st) (snd st))
  | VerifyEmail token now verifiedAt =>
    (snd (GET_verify_email token now verifiedAt (fst st)), snd st)
  end.

Definition serve_auth_all (category_conflict : Category -> Category -> bool)
    (reqs : list AuthRequest) (st : gmap string User * Store)
    : gmap string User * Store :=
  foldl (fun st req => serve_auth category_conflict req st) st reqs.

(** ** The requests that are neither the creation of an account nor a
    request on transactions *)

Inductive NonLedgerRequest : Type :=
| OfOther (req : OtherRequest)
| OfCategory (req : CategoryRequest)
| OfAuth (req : AuthRequest).

Definition serve_non_ledger (category_conflict : Category -> Category -> bool)
    (budgets_on_category_delete :
       string -> gmap string Budget -> option (gmap string Budget))
    (req : NonLedgerRequest) (st : gmap string User * Store)
    : gmap string User * Store :=
  match req with
  | OfOther r => (fst st, serve_other r (snd st))
  | OfCategory r =>
      (fst st, serve_category category_conflict budgets_on_category_delete r (snd st))
  | OfAuth r => serve_auth category_conflict r st
  end.

(** The request is not an update of an account that carries a [balance]
    field. *)
Definition sets_no_balance (req : NonLedgerRequest) : Prop :=
  match req with
  | OfOther r => carries_no_balance r
  | _ => True
  end.

(** No two users have the same email. *)
Definition unique_emails (users : gmap string User) : Prop :=
  forall k1 k2 u1 u2,
    users !! k1 = Some u1 -> users !! k2 = Some u2 -> email u1 = email u2 ->
    k1 = k2.

(** One registered user who has not verified yet, for the worked
    scenarios. *)
Definition ann : User :=
  mkUser (Some "Ann"%string) "ann@example.org" (Some "$2a$12$hash-of-ann"%string)
         (Some "token-of-ann"%string) (Some 1000%Z) false None.

Definition bob_body : RegisterBody :=
  mkRegisterBody "Bob" "bob@example.org" "secret".

Definition category_key (uid : string) (i : nat) : string :=
  uid +:+ "-" +:+ pretty i.

(** A user of [users] is still a user of [users'], with the same email
    and password, and verified if it was. *)
Definition persists (users users' : gmap string User) : Prop :=
  forall k u, users !! k = Some u ->
    exists u', users' !! k = Some u' /\ email u' = email u
               /\ password u' = password u
               /\ (isEmailVerified u = true -> isEmailVerified u' = true).

(** * Properties *)

Module LedgerFacts.

Import Ledger.
Local Open Scope Q_scope.

Lemma Qsum_Permutation (l l' : list Q) : l ≡ₚ l' -> Qsum l == Qsum l'.
Proof.
  induction 1 as [|x l l' _ IH|x y l|l l' l'' _ IH1 _ IH2]; simpl.
  - reflexivity.
  - rewrite IH. reflexivity.
  - ring.
  - rewrite IH1. exact IH2.
Qed.

Lemma Qsum_app (l l' : list Q) : Qsum (l ++ l') == Qsum l + Qsum l'.
Proof.
  induction l as [|x l IH]; simpl.
  - ring.
  - rewrite IH. ring.
Qed.

Section Sums.
Context {A : Type} (f : A -> Q).

Lemma sum_rows_empty : sum_rows f ∅ = 0.
Proof. unfold sum_rows, rows. rewrite map_to_list_empty. reflexivity. Qed.

Lemma sum_rows_insert_None (t : gmap string A) (id : string) (r : A) :
  t !! id = None -> sum_rows f (<[id := r]> t) == f r + sum_rows f t.
Proof.
  intros Hid. unfold sum_rows, rows.
  rewrite (Qsum_Permutation _ (f <$> ((id, r) :: map_to_list t).*2)).
  - reflexivity.
  - do 2 apply fmap_Permutation. by apply map_to_list_insert.
Qed.

Lemma sum_rows_delete (t : gmap string A) (id : string) (r : A) :
  t !! id = Some r -> sum_rows f t == f r + sum_rows f (delete id t).
Proof.
  intros Hid. unfold sum_rows, rows.
  rewrite (Qsum_Permutation _ (f <$> ((id, r) :: map_to_list (delete id t)).*2)).
  - reflexivity.
  - do 2 apply fmap_Permutation. symmetry. by apply map_to_list_delete.
Qed.

Lemma sum_rows_insert_Some (t : gmap string A) (id : string) (r r' : A) :
  t !! id = Some r -> sum_rows f (<[id := r']> t) == sum_rows f t - f r + f r'.
Proof.
  intros Hid. rewrite <- insert_delete_eq.
  rewrite sum_rows_insert_None by apply lookup_delete_eq.
  rewrite (sum_rows_delete t id r Hid). ring.
Qed.

Lemma sum_rows_ext (g : A -> Q) (t : gmap string A) :
  (forall r, f r == g r) -> Qsum (f <$> rows t) == Qsum (g <$> rows t).
Proof.
  intros Hfg. unfold sum_rows. induction (rows t) as [|r l IH]; simpl.
  - reflexivity.
  - rewrite IH, Hfg. reflexivity.
Qed.
End Sums.

Lemma posted_to_split (acc : string) (t : Transaction) :
  posted_to acc t ==
  amount_of INCOME acc t - amount_of EXPENSE acc t - amount_of TRANSFER acc t.
Proof.
  unfold posted_to, amount_of, signed.
  destruct (String.eqb (accountId t) acc), (type t); simpl; ring.
Qed.

(** The signed sum is income less expenses less transfers. *)
Lemma posted_split (acc : string) (txs : gmap string Transaction) :
  posted acc txs ==
  total INCOME acc txs - total EXPENSE acc txs - total TRANSFER acc txs.
Proof.
  unfold posted, total, sum_rows.
  induction (rows txs) as [|t l IH]; cbn [fmap list_fmap Qsum foldr].
  - ring.
  - change (foldr Qplus 0) with Qsum. rewrite IH, posted_to_split. ring.
Qed.

End LedgerFacts.

(** ** Rounding to the scale of a column *)

Module DecimalFacts.

Import Decimal.
Local Open Scope Q_scope.

Lemma Qfloor_eq (x : Q) (n : Z) :
  inject_Z n <= x -> x < inject_Z (n + 1) -> Qfloor x = n.
Proof.
  intros Hle Hlt.
  pose proof (Qfloor_le x) as H1. pose proof (Qlt_floor x) as H2.
  assert (Qfloor x < n + 1)%Z.
  { rewrite Zlt_Qlt. eapply Qle_lt_trans; [exact H1|exact Hlt]. }
  assert (n < Qfloor x + 1)%Z.
  { rewrite Zlt_Qlt. eapply Qle_lt_trans; [exact Hle|exact H2]. }
  lia.
Qed.

Lemma Qfloor_half (n : Z) : Qfloor (inject_Z n + (1 # 2)) = n.
Proof.
  apply Qfloor_eq.
  - lra.
  - rewrite inject_Z_plus. change (inject_Z 1) with 1. lra.
Qed.

Lemma cents_comp (x y : Q) : x == y -> cents x = cents y.
Proof.
  intros Hxy. unfold cents.
  assert (Qle_bool 0 x = Qle_bool 0 y) as -> by (by rewrite Hxy).
  destruct (Qle_bool 0 y); [|f_equal]; apply Qfloor_comp; by rewrite Hxy.
Qed.

#[export] Instance cents_proper : Proper (Qeq ==> eq) cents.
Proof. intros x y. apply cents_comp. Qed.

#[export] Instance round2_proper : Proper (Qeq ==> Qeq) round2.
Proof. intros x y Hxy. unfold round2. by rewrite (cents_comp x y Hxy). Qed.

Lemma fits_comp (x y : Q) : x == y -> fits x = fits y.
Proof. intros Hxy. unfold fits. by rewrite (cents_comp x y Hxy). Qed.

(** The hundredths of a number of hundredths. *)
Lemma cents_hundredths (n : Z) : cents (inject_Z n / 100) = n.
Proof.
  unfold cents. destruct (Qle_bool 0 (inject_Z n / 100)) eqn:E.
  - rewrite <- (Qfloor_half n) at 2. apply Qfloor_comp. field.
  - assert (Qfloor (- (inject_Z n / 100) * 100 + (1 # 2)) = (- n)%Z) as ->; [|lia].
    rewrite <- (Qfloor_half (- n)). apply Qfloor_comp.
    rewrite inject_Z_opp. field.
Qed.

Lemma cents_round2 (x : Q) : cents (round2 x) = cents x.
Proof. apply cents_hundredths. Qed.

Lemma round2_idem (x : Q) : round2 (round2 x) = round2 x.
Proof. unfold round2 at 1. by rewrite cents_round2. Qed.

Lemma fits_round2 (x : Q) : fits (round2 x) = fits x.
Proof. unfold fits. by rewrite cents_round2. Qed.

Lemma two_decimals_round2 (x : Q) : two_decimals (round2 x).
Proof. unfold two_decimals. by rewrite round2_idem. Qed.

Lemma two_decimals_hundredths (x : Q) :
  two_decimals x <-> exists n : Z, x == inject_Z n / 100.
Proof.
  split.
  - intros H. exists (cents x). symmetry. exact H.
  - intros [n Hn]. unfold two_decimals, round2.
    rewrite (cents_comp _ _ Hn), cents_hundredths. by symmetry.
Qed.

Lemma two_decimals_plus (x y : Q) :
  two_decimals x -> two_decimals y -> two_decimals (x + y).
Proof.
  rewrite !two_decimals_hundredths. intros [n Hn] [m Hm].
  exists (n + m)%Z. rewrite Hn, Hm, inject_Z_plus. field.
Qed.

Lemma two_decimals_opp (x : Q) : two_decimals x -> two_decimals (- x).
Proof.
  rewrite !two_decimals_hundredths. intros [n Hn].
  exists (- n)%Z. rewrite Hn, inject_Z_opp. field.
Qed.

Lemma two_decimals_comp (x y : Q) : x == y -> two_decimals x -> two_decimals y.
Proof. unfold two_decimals. intros Hxy H. by rewrite <- Hxy. Qed.

Lemma two_decimals_inject (n : Z) : two_decimals (inject_Z n).
Proof.
  apply two_decimals_hundredths. exists (n * 100)%Z.
  rewrite inject_Z_mult. change (inject_Z 100) with 100. field.
Qed.

(** What a write stores. *)
Lemma write_Some (x y : Q) :
  write x = Some y <-> fits x = true /\ y = round2 x.
Proof.
  unfold write. destruct (fits x); split.
  - by intros [= <-].
  - by intros [_ ->].
  - done.
  - by intros [? _].
Qed.

Lemma write_None (x : Q) : write x = None <-> fits x = false.
Proof. unfold write. by destruct (fits x). Qed.

Lemma write_value (x y : Q) : write x = Some y -> value y.
Proof.
  intros [Hf ->]%write_Some. split.
  - by rewrite fits_round2.
  - apply two_decimals_round2.
Qed.

Lemma write_comp (x x' : Q) : x == x' -> write x = write x'.
Proof.
  intros Hx. unfold write, round2.
  by rewrite (fits_comp _ _ Hx), (cents_comp _ _ Hx).
Qed.

(** A value of a column is written as it is. *)
Lemma write_exact (x y : Q) :
  two_decimals x -> write x = Some y -> y == x.
Proof. intros Hx [_ ->]%write_Some. exact Hx. Qed.

Lemma value_writes (x : Q) : value x -> write x = Some (round2 x).
Proof. intros [Hf _]. unfold write. by rewrite Hf. Qed.

Lemma cents_nonneg (x : Q) : 0 <= x -> (0 <= cents x)%Z.
Proof.
  intros Hx. unfold cents. rewrite (proj2 (Qle_bool_iff 0 x) Hx).
  change 0%Z with (Qfloor 0). apply Qfloor_resp_le. lra.
Qed.

(** Rounding keeps what is not negative so. *)
Lemma round2_nonneg (x : Q) : 0 <= x -> 0 <= round2 x.
Proof.
  intros Hx. unfold round2.
  pose proof (cents_nonneg x Hx) as H. rewrite Zle_Qle in H.
  change (inject_Z 0) with 0 in H.
  apply Qle_shift_div_l; [reflexivity|]. lra.
Qed.

Lemma cents_opp (x : Q) : cents (- x) = (- cents x)%Z.
Proof.
  unfold cents.
  destruct (Qle_bool 0 x) eqn:E1; destruct (Qle_bool 0 (- x)) eqn:E2.
  - apply Qle_bool_iff in E1, E2.
    assert (Hx : x == 0) by lra.
    rewrite (Qfloor_comp (- x * 100 + (1 # 2)) (1 # 2)) by (rewrite Hx; ring).
    rewrite (Qfloor_comp (x * 100 + (1 # 2)) (1 # 2)) by (rewrite Hx; ring).
    reflexivity.
  - f_equal. apply Qfloor_comp. ring.
  - rewrite Z.opp_involutive. reflexivity.
  - assert (~ 0 <= x) by (rewrite <- Qle_bool_iff; congruence).
    assert (~ 0 <= - x) by (rewrite <- Qle_bool_iff; congruence).
    lra.
Qed.

Lemma round2_opp (x : Q) : round2 (- x) == - round2 x.
Proof. unfold round2. rewrite cents_opp, inject_Z_opp. field. Qed.

Lemma fits_opp (x : Q) : fits (- x) = fits x.
Proof. unfold fits. by rewrite cents_opp, Z.abs_opp. Qed.

End DecimalFacts.

(** ** What a handler of transactions does to the store *)

Module HandlerFacts.

Import Decimal.
Local Open Scope Q_scope.

Lemma findFirst_Some {A} (owner : A -> string) (t : gmap string A)
    (id uid : string) (r : A) :
  findFirst owner t id uid = Some r <-> t !! id = Some r /\ owner r = uid.
Proof.
  unfold findFirst. destruct (t !! id) as [r'|]; [|split; [done|by intros [? _]]].
  destruct (String.eqb_spec (owner r') uid) as [Heq|Hne]; split.
  - intros [= ->]. done.
  - intros [[= ->] _]. done.
  - done.
  - intros [[= ->] ?]. done.
Qed.

(** A create request that passes every check and draws a fresh key writes
    its row and the new balance, or it is answered by 500 and writes
    nothing when one of the two does not fit its column. *)
Lemma POST_transactions_validated session newId data db uid amt ty dt a :
  session_user session = Some uid ->
  validated uid data db amt ty dt ->
  transaction db !! newId = None ->
  bankAccount db !! body_accountId data = Some a ->
  POST_transactions session newId data db
  = if fits amt && fits (balance a + effect ty amt)
    then (Json 201 (row_of data (round2 amt) ty dt uid),
          created newId data db amt ty dt uid a)
    else (JsonError 500 "Internal server error", db).
Proof.
  intros Hs [Hm Ha Hd Hty Hpos [a0 Hacc] (c & Hc & Hmis)] Hnew Hlk.
  unfold POST_transactions. rewrite Hs, Hm, Ha, Hd, Hty, Hpos, Hacc, Hc, Hmis.
  unfold prisma_transaction, tx_bind, transaction_create, bankAccount_increment,
    tx_ret, write.
  rewrite Hnew. cbn [amount].
  destruct (fits amt); [|reflexivity].
  cbn [set_transaction bankAccount andb]. rewrite Hlk.
  fold (effect ty amt).
  destruct (fits (balance a + effect ty amt)); reflexivity.
Qed.

(** A create request either is answered by an error and leaves the store as
    it was, or passes every check, inserts its row under the fresh key and
    increments the balance of its account, what is written being rounded. *)
Lemma POST_transactions_cases session newId data db :
  let (r, db') := POST_transactions session newId data db in
  (is_error r = true /\ db' = db)
  \/ (exists uid amt ty dt a,
        session_user session = Some uid
        /\ validated uid data db amt ty dt
        /\ transaction db !! newId = None
        /\ bankAccount db !! body_accountId data = Some a
        /\ fits amt = true
        /\ fits (balance a + effect ty amt) = true
        /\ r = Json 201 (row_of data (round2 amt) ty dt uid)
        /\ db' = created newId data db amt ty dt uid a).
Proof.
  unfold POST_transactions.
  destruct (session_user session) as [uid|] eqn:Hs; [|by left].
  destruct (missing_required_fields data) eqn:Hm; [by left|].
  destruct (body_amount data) as [amt|] eqn:Ha;
    destruct (body_date data) as [dt|] eqn:Hd;
    destruct (transaction_type_of (body_type data)) as [ty|] eqn:Ht;
    try by left.
  destruct (Js.leb amt 0) eqn:Hp; [by left|].
  destruct (findFirst acc_userId _ _ _) as [a|] eqn:Hacc; [|by left].
  destruct (findFirst cat_userId _ _ _) as [c|] eqn:Hcat; [|by left].
  destruct (category_type_mismatch ty c) eqn:Hmis; [by left|].
  unfold prisma_transaction, tx_bind, transaction_create, bankAccount_increment,
    tx_ret, write.
  destruct (transaction db !! newId) eqn:Hnew; [by left|].
  cbn [amount]. destruct (fits amt) eqn:Hf1; [|by left].
  cbn [set_transaction bankAccount].
  pose proof (proj1 (findFirst_Some _ _ _ _ _) Hacc) as [Hlk _].
  rewrite Hlk. fold (effect ty amt).
  destruct (fits (balance a + effect ty amt)) eqn:Hf2; [|by left].
  right. exists uid, amt, ty, dt, a.
  repeat split; eauto.
Qed.

Lemma same_branches {A} (c : bool) (x : A) : (if c then x else x) = x.
Proof. by destruct c. Qed.

(** An update request of a stored transaction that passes every check
    writes the reversal, the row and the new balance, or it is answered by
    500 and writes nothing when one of the three does not fit its column. *)
Lemma PUT_transaction_validated session transactionId data db uid old amt ty dt
    a a' :
  session_user session = Some uid ->
  findFirst userId (transaction db) transactionId uid = Some old ->
  validated uid data db amt ty dt ->
  bankAccount db !! accountId old = Some a ->
  <[accountId old := set_balance (round2 (balance a + reversal old)) a]>
    (bankAccount db) !! body_accountId data = Some a' ->
  PUT_transaction session transactionId data db
  = if fits (balance a + reversal old) && fits amt
       && fits (balance a' + effect ty amt)
    then (Json 200 (row_of data (round2 amt) ty dt (userId old)),
          updated transactionId data db old amt ty dt a a')
    else (JsonError 500 "Internal server error", db).
Proof.
  intros Hs Hold [Hm Ha Hd Hty Hpos [a0 Hacc] (c & Hc & Hmis)] Hb Hb'.
  unfold PUT_transaction.
  rewrite Hs, Hold, Hm, Ha, Hd, Hty, Hpos, Hacc, Hc, Hmis.
  apply findFirst_Some in Hold as [Hold _].
  cbv zeta. rewrite same_branches.
  unfold prisma_transaction, tx_bind, transaction_update, bankAccount_increment,
    tx_ret, write.
  rewrite Hb. fold (reversal old).
  destruct (fits (balance a + reversal old)); [|reflexivity].
  cbn [set_bankAccount set_transaction transaction bankAccount andb].
  rewrite Hold. cbn [amount].
  destruct (fits amt); [|reflexivity].
  cbn [set_bankAccount set_transaction transaction bankAccount andb].
  rewrite Hb'. fold (effect ty amt).
  destruct (fits (balance a' + effect ty amt)); reflexivity.
Qed.

(** An update request either is answered by an error and leaves the store as
    it was, or passes every check, increments the balance of the account of
    the stored row by the reversal, rewrites the row, and increments the
    balance of the account of the request, what is written being rounded. *)
Lemma PUT_transaction_cases session transactionId data db :
  let (r, db') := PUT_transaction session transactionId data db in
  (is_error r = true /\ db' = db)
  \/ (exists uid old amt ty dt a a',
        session_user session = Some uid
        /\ findFirst userId (transaction db) transactionId uid = Some old
        /\ validated uid data db amt ty dt
        /\ bankAccount db !! accountId old = Some a
        /\ <[accountId old := set_balance (round2 (balance a + reversal old)) a]>
             (bankAccount db) !! body_accountId data = Some a'
        /\ fits (balance a + reversal old) = true
        /\ fits amt = true
        /\ fits (balance a' + effect ty amt) = true
        /\ r = Json 200 (row_of data (round2 amt) ty dt (userId old))
        /\ db' = updated transactionId data db old amt ty dt a a').
Proof.
  unfold PUT_transaction.
  destruct (session_user session) as [uid|] eqn:Hs; [|by left].
  destruct (findFirst userId _ _ _) as [old|] eqn:Hold; [|by left].
  destruct (missing_required_fields data) eqn:Hm; [by left|].
  destruct (body_amount data) as [amt|] eqn:Ha;
    destruct (body_date data) as [dt|] eqn:Hd;
    destruct (transaction_type_of (body_type data)) as [ty|] eqn:Ht;
    try by left.
  destruct (Js.leb amt 0) eqn:Hp; [by left|].
  destruct (findFirst acc_userId _ _ _) as [a0|] eqn:Hacc; [|by left].
  destruct (findFirst cat_userId _ _ _) as [c|] eqn:Hcat; [|by left].
  destruct (category_type_mismatch ty c) eqn:Hmis; [by left|].
  pose proof (proj1 (findFirst_Some _ _ _ _ _) Hold) as [Hlk _].
  cbv zeta. rewrite same_branches.
  unfold prisma_transaction, tx_bind, transaction_update, bankAccount_increment,
    tx_ret, write.
  destruct (bankAccount db !! accountId old) as [a|] eqn:Ha1; [|by left].
  fold (reversal old).
  destruct (fits (balance a + reversal old)) eqn:Hf1; [|by left].
  cbn [set_bankAccount set_transaction transaction bankAccount category budget].
  rewrite Hlk. cbn [amount].
  destruct (fits amt) eqn:Hf2; [|by left].
  cbn [set_bankAccount set_transaction transaction bankAccount category budget].
  destruct (_ !! body_accountId data) as [a'|] eqn:Ha2; [|by left].
  fold (effect ty amt).
  destruct (fits (balance a' + effect ty amt)) eqn:Hf3; [|by left].
  right. exists uid, old, amt, ty, dt, a, a'.
  repeat split; eauto.
Qed.

(** A delete request on a stored transaction of the user writes the
    reversal and removes the row, or it is answered by 500 and writes
    nothing when the new balance does not fit its column. *)
Lemma DELETE_transaction_found session transactionId db uid old a :
  session_user session = Some uid ->
  findFirst userId (transaction db) transactionId uid = Some old ->
  bankAccount db !! accountId old = Some a ->
  DELETE_transaction session transactionId db
  = if fits (balance a + reversal old)
    then (Json 200 "Transaction deleted successfully"%string,
          deleted transactionId db old a)
    else (JsonError 500 "Internal server error", db).
Proof.
  intros Hs Hold Ha. unfold DELETE_transaction. rewrite Hs, Hold.
  apply findFirst_Some in Hold as [Hold _].
  unfold prisma_transaction, tx_bind, transaction_delete, bankAccount_increment,
    write.
  rewrite Ha. fold (reversal old).
  destruct (fits (balance a + reversal old)); [|reflexivity].
  cbn [set_bankAccount set_transaction transaction bankAccount].
  rewrite Hold. reflexivity.
Qed.

(** A delete request either is answered by an error and leaves the store as
    it was, or increments the balance of the account of the stored row by
    the reversal and removes the row. *)
Lemma DELETE_transaction_cases session transactionId db :
  let (r, db') := DELETE_transaction session transactionId db in
  (is_error r = true /\ db' = db)
  \/ (exists uid old a,
        session_user session = Some uid
        /\ findFirst userId (transaction db) transactionId uid = Some old
        /\ bankAccount db !! accountId old = Some a
        /\ fits (balance a + reversal old) = true
        /\ r = Json 200 "Transaction deleted successfully"%string
        /\ db' = deleted transactionId db old a).
Proof.
  unfold DELETE_transaction.
  destruct (session_user session) as [uid|] eqn:Hs; [|by left].
  destruct (findFirst userId _ _ _) as [old|] eqn:Hold; [|by left].
  pose proof (proj1 (findFirst_Some _ _ _ _ _) Hold) as [Hlk _].
  unfold prisma_transaction, tx_bind, transaction_delete, bankAccount_increment,
    write.
  destruct (bankAccount db !! accountId old) as [a|] eqn:Ha1; [|by left].
  fold (reversal old).
  destruct (fits (balance a + reversal old)) eqn:Hf; [|by left].
  cbn [set_bankAccount set_transaction transaction bankAccount category budget].
  rewrite Hlk. right. exists uid, old, a. repeat split; eauto.
Qed.

End HandlerFacts.

(** ** The opening balance of an account is the same after every request *)

Module LedgerInvariant.

Import Decimal DecimalFacts Ledger LedgerFacts HandlerFacts.
Local Open Scope Q_scope.

Lemma balance_of_set (accs : gmap string BankAccount) (k : string)
    (a : BankAccount) (b : Q) c t bu c' t' bu' (acc : string) :
  accs !! k = Some a ->
  balance_of (mkStore (<[k := set_balance b a]> accs) c t bu) acc
  == balance_of (mkStore accs c' t' bu') acc
     + (if String.eqb k acc then b - balance a else 0).
Proof.
  intros Hk. unfold balance_of. cbn [bankAccount].
  destruct (String.eqb_spec k acc) as [->|Hne].
  - rewrite lookup_insert_eq, Hk. cbn [set_balance balance]. ring.
  - rewrite lookup_insert_ne by done. ring.
Qed.

Lemma is_Some_increment (accs : gmap string BankAccount) (k : string)
    (a a' : BankAccount) (acc : string) :
  accs !! k = Some a -> is_Some (<[k := a']> accs !! acc) <-> is_Some (accs !! acc).
Proof.
  intros Hk. rewrite lookup_insert_is_Some'. split; [|by right].
  intros [<-|H]; [by eexists|done].
Qed.

Lemma reversal_posted (acc : string) (old : Transaction) :
  (if String.eqb (accountId old) acc then reversal old else 0)
  == - posted_to acc old.
Proof.
  unfold posted_to, signed, reversal.
  destruct (String.eqb _ _), (is_INCOME (type old)); ring.
Qed.

Lemma effect_posted (data : TransactionBody) amt ty dt uid (acc : string) :
  (if String.eqb (body_accountId data) acc then effect ty amt else 0)
  == posted_to acc (row_of data amt ty dt uid).
Proof.
  unfold posted_to, signed, row_of, effect. cbn [accountId type amount].
  destruct (String.eqb _ _); reflexivity.
Qed.

Lemma posted_to_amount (data : TransactionBody) amt amt' ty dt uid (acc : string) :
  amt == amt' ->
  posted_to acc (row_of data amt ty dt uid)
  == posted_to acc (row_of data amt' ty dt uid).
Proof.
  intros H. unfold posted_to, signed, row_of. cbn [accountId type amount].
  destruct (String.eqb _ _), (is_INCOME ty); rewrite ?H; reflexivity.
Qed.

Lemma two_decimals_effect ty amt : two_decimals amt -> two_decimals (effect ty amt).
Proof.
  intros H. unfold effect. destruct (is_INCOME ty); [done|].
  by apply two_decimals_opp.
Qed.

Lemma two_decimals_reversal old :
  two_decimals (amount old) -> two_decimals (reversal old).
Proof.
  intros H. unfold reversal. destruct (is_INCOME (type old)); [|done].
  by apply two_decimals_opp.
Qed.

(** A sum of values with two decimals is written as it is. *)
Lemma round2_sum (x y : Q) :
  two_decimals x -> two_decimals y -> round2 (x + y) == x + y.
Proof. intros Hx Hy. by apply two_decimals_plus. Qed.

(** *** The store holds values of its columns *)

Lemma value_round2 (x : Q) : fits x = true -> value (round2 x).
Proof.
  intros Hf. split; [by rewrite fits_round2|apply two_decimals_round2].
Qed.

Lemma POST_transactions_decimal session newId data db :
  decimal_store db -> decimal_store (snd (POST_transactions session newId data db)).
Proof.
  intros (Ha & Ht & Hb).
  pose proof (POST_transactions_cases session newId data db) as H.
  destruct (POST_transactions session newId data db) as [r db'].
  destruct H as [[_ ->]|(uid & amt & ty & dt & a & _ & _ & _ & _ & Hf1 & Hf2 & _ & ->)];
    [done|].
  cbn [snd]. unfold created. split; [|split]; cbn [bankAccount transaction budget].
  - intros id x [[_ <-]|[_ Hx]]%lookup_insert_Some; [|by eapply Ha].
    cbn [set_balance balance]. by apply value_round2.
  - intros id x [[_ <-]|[_ Hx]]%lookup_insert_Some; [|by eapply Ht].
    cbn [row_of amount]. by apply value_round2.
  - exact Hb.
Qed.

Lemma PUT_transaction_decimal session transactionId data db :
  decimal_store db ->
  decimal_store (snd (PUT_transaction session transactionId data db)).
Proof.
  intros (Ha & Ht & Hb).
  pose proof (PUT_transaction_cases session transactionId data db) as H.
  destruct (PUT_transaction session transactionId data db) as [r db'].
  destruct H as [[_ ->]|(uid & old & amt & ty & dt & a & a' & _ & _ & _ & _ & _
                          & Hf1 & Hf2 & Hf3 & _ & ->)]; [done|].
  cbn [snd]. unfold updated. split; [|split]; cbn [bankAccount transaction budget].
  - intros id x [[_ <-]|[_ Hx]]%lookup_insert_Some.
    { cbn [set_balance balance]. by apply value_round2. }
    apply lookup_insert_Some in Hx as [[_ <-]|[_ Hx]]; [|by eapply Ha].
    cbn [set_balance balance]. by apply value_round2.
  - intros id x [[_ <-]|[_ Hx]]%lookup_insert_Some; [|by eapply Ht].
    cbn [row_of amount]. by apply value_round2.
  - exact Hb.
Qed.

Lemma DELETE_transaction_decimal session transactionId db :
  decimal_store db ->
  decimal_store (snd (DELETE_transaction session transactionId db)).
Proof.
  intros (Ha & Ht & Hb).
  pose proof (DELETE_transaction_cases session transactionId db) as H.
  destruct (DELETE_transaction session transactionId db) as [r db'].
  destruct H as [[_ ->]|(uid & old & a & _ & _ & _ & Hf & _ & ->)]; [done|].
  cbn [snd]. unfold deleted. split; [|split]; cbn [bankAccount transaction budget].
  - intros id x [[_ <-]|[_ Hx]]%lookup_insert_Some; [|by eapply Ha].
    cbn [set_balance balance]. by apply value_round2.
  - intros id x [_ Hx]%lookup_delete_Some. by eapply Ht.
  - exact Hb.
Qed.

Lemma serve_decimal req db : decimal_store db -> decimal_store (serve req db).
Proof.
  destruct req; cbn [serve].
  - apply POST_transactions_decimal.
  - apply PUT_transaction_decimal.
  - apply DELETE_transaction_decimal.
Qed.

(** *** The opening balance *)

Lemma POST_transactions_opening session newId data db acc :
  decimal_store db ->
  (forall amt, body_amount data = Some amt -> two_decimals amt) ->
  opening (snd (POST_transactions session newId data db)) acc == opening db acc.
Proof.
  intros (Hdec & _ & _) Hcents.
  pose proof (POST_transactions_cases session newId data db) as H.
  destruct (POST_transactions session newId data db) as [r db'].
  destruct H as [[_ ->]|(uid & amt & ty & dt & a & _ & Hv & Hnew & Ha & _ & _ & _ & ->)];
    [done|].
  pose proof (Hcents amt (v_amount _ _ _ _ _ _ Hv)) as Hamt.
  destruct (Hdec _ _ Ha) as [_ Hbal].
  cbn [snd]. unfold opening, created. cbn [transaction]. unfold posted.
  rewrite sum_rows_insert_None by done.
  rewrite (balance_of_set _ _ _ _ _ _ _
             (category db) (transaction db) (budget db)) by done.
  rewrite (posted_to_amount data (round2 amt) amt) by exact Hamt.
  rewrite <- (effect_posted data amt ty dt uid).
  pose proof (round2_sum (balance a) (effect ty amt) Hbal
                (two_decimals_effect ty amt Hamt)) as Hr.
  unfold balance_of, sum_rows. cbn [bankAccount].
  destruct (String.eqb _ _); lra.
Qed.

Lemma PUT_transaction_opening session transactionId data db acc :
  decimal_store db ->
  (forall amt, body_amount data = Some amt -> two_decimals amt) ->
  opening (snd (PUT_transaction session transactionId data db)) acc == opening db acc.
Proof.
  intros (Hdec & Hdect & _) Hcents.
  pose proof (PUT_transaction_cases session transactionId data db) as H.
  destruct (PUT_transaction session transactionId data db) as [r db'].
  destruct H as [[_ ->]|(uid & old & amt & ty & dt & a & a' & _ & Hold & Hv
                          & Ha & Ha' & _ & _ & _ & _ & ->)]; [done|].
  apply findFirst_Some in Hold as [Hold _].
  pose proof (Hcents amt (v_amount _ _ _ _ _ _ Hv)) as Hamt.
  destruct (Hdec _ _ Ha) as [_ Hbal].
  destruct (Hdect _ _ Hold) as [_ Hold2].
  assert (Hbal' : two_decimals (balance a')).
  { apply lookup_insert_Some in Ha' as [[_ <-]|[_ Ha']].
    - cbn [set_balance balance]. apply two_decimals_round2.
    - by destruct (Hdec _ _ Ha'). }
  cbn [snd]. unfold opening, updated. cbn [transaction]. unfold posted.
  rewrite (sum_rows_insert_Some _ _ _ old) by done.
  rewrite (balance_of_set _ _ _ _ _ _ _
             (category db) (transaction db) (budget db)) by done.
  rewrite (balance_of_set _ _ _ _ _ _ _
             (category db) (transaction db) (budget db)) by done.
  rewrite (posted_to_amount data (round2 amt) amt) by exact Hamt.
  rewrite <- (effect_posted data amt ty dt (userId old)).
  pose proof (reversal_posted acc old) as Hrev.
  pose proof (round2_sum (balance a') (effect ty amt) Hbal'
                (two_decimals_effect ty amt Hamt)) as Hr'.
  pose proof (round2_sum (balance a) (reversal old) Hbal
                (two_decimals_reversal old Hold2)) as Hr.
  unfold balance_of, sum_rows in *. cbn [bankAccount].
  destruct (String.eqb (body_accountId data) acc),
           (String.eqb (accountId old) acc); lra.
Qed.

Lemma DELETE_transaction_opening session transactionId db acc :
  decimal_store db ->
  opening (snd (DELETE_transaction session transactionId db)) acc == opening db acc.
Proof.
  intros (Hdec & Hdect & _).
  pose proof (DELETE_transaction_cases session transactionId db) as H.
  destruct (DELETE_transaction session transactionId db) as [r db'].
  destruct H as [[_ ->]|(uid & old & a & _ & Hold & Ha & _ & _ & ->)]; [done|].
  apply findFirst_Some in Hold as [Hold _].
  destruct (Hdec _ _ Ha) as [_ Hbal].
  destruct (Hdect _ _ Hold) as [_ Hold2].
  cbn [snd]. unfold opening, deleted. cbn [transaction]. unfold posted.
  rewrite (sum_rows_delete _ (transaction db) transactionId old) by done.
  rewrite (balance_of_set _ _ _ _ _ _ _
             (category db) (transaction db) (budget db)) by done.
  pose proof (reversal_posted acc old) as Hrev.
  pose proof (round2_sum (balance a) (reversal old) Hbal
                (two_decimals_reversal old Hold2)) as Hr.
  unfold balance_of, sum_rows in *. cbn [bankAccount].
  destruct (String.eqb (accountId old) acc); lra.
Qed.

Lemma serve_opening req db acc :
  decimal_store db -> two_decimal_request req ->
  opening (serve req db) acc == opening db acc.
Proof.
  intros Hdec Hreq. destruct req; cbn [serve].
  - by apply POST_transactions_opening.
  - by apply PUT_transaction_opening.
  - by apply DELETE_transaction_opening.
Qed.

Lemma serve_all_opening reqs db acc :
  decimal_store db -> Forall two_decimal_request reqs ->
  opening (serve_all reqs db) acc == opening db acc.
Proof.
  revert db. induction reqs as [|req reqs IH]; intros db Hdec Hreqs.
  - reflexivity.
  - apply Forall_cons in Hreqs as [Hreq Hreqs].
    change (serve_all (req :: reqs) db) with (serve_all reqs (serve req db)).
    transitivity (opening (serve req db) acc).
    + apply IH; [by apply serve_decimal|done].
    + by apply serve_opening.
Qed.

Lemma serve_all_decimal reqs db :
  decimal_store db -> decimal_store (serve_all reqs db).
Proof.
  revert db. induction reqs as [|req reqs IH]; intros db Hdec; [done|].
  apply IH. by apply serve_decimal.
Qed.

(** *** The accounts are the same after every request *)

Lemma serve_accounts req db acc :
  is_Some (bankAccount (serve req db) !! acc) <-> is_Some (bankAccount db !! acc).
Proof.
  destruct req as [session newId data|session transactionId data|session transactionId];
    cbn [serve].
  - pose proof (POST_transactions_cases session newId data db) as H.
    destruct (POST_transactions session newId data db) as [r db'].
    destruct H as [[_ ->]|(uid & amt & ty & dt & a & _ & _ & _ & Ha & _ & _ & _ & ->)];
      [done|].
    cbn [snd created bankAccount]. by eapply is_Some_increment.
  - pose proof (PUT_transaction_cases session transactionId data db) as H.
    destruct (PUT_transaction session transactionId data db) as [r db'].
    destruct H as [[_ ->]|(uid & old & amt & ty & dt & a & a' & _ & _ & _ & Ha & Ha'
                            & _ & _ & _ & _ & ->)]; [done|].
    cbn [snd updated bankAccount].
    rewrite (is_Some_increment _ _ a') by done. by eapply is_Some_increment.
  - pose proof (DELETE_transaction_cases session transactionId db) as H.
    destruct (DELETE_transaction session transactionId db) as [r db'].
    destruct H as [[_ ->]|(uid & old & a & _ & _ & Ha & _ & _ & ->)]; [done|].
    cbn [snd deleted bankAccount]. by eapply is_Some_increment.
Qed.

Lemma serve_all_accounts reqs db acc :
  is_Some (bankAccount (serve_all reqs db) !! acc) <-> is_Some (bankAccount db !! acc).
Proof.
  revert db. induction reqs as [|req reqs IH]; intros db; [done|].
  change (serve_all (req :: reqs) db) with (serve_all reqs (serve req db)).
  rewrite IH. apply serve_accounts.
Qed.

(** An account without transactions has its balance as opening balance. *)
Lemma posted_none (acc : string) (txs : gmap string Transaction) :
  (forall id t, txs !! id = Some t -> accountId t <> acc) ->
  posted acc txs == 0.
Proof.
  intros Hnone. unfold posted, sum_rows, rows.
  assert (H : Forall (fun kt => accountId kt.2 <> acc) (map_to_list txs)).
  { apply Forall_forall. intros [id t] Hin%elem_of_map_to_list. by eapply Hnone. }
  induction H as [|[id t] l Ht _ IH]; [reflexivity|].
  cbn [fmap list_fmap Qsum foldr snd]. change (foldr Qplus 0) with Qsum.
  rewrite IH. unfold posted_to.
  destruct (String.eqb_spec (accountId t) acc) as [Heq|_]; [done|]. ring.
Qed.

(** *** The stores of the worked scenarios hold values of their columns *)

Lemma value_inject (n : Z) : (Z.abs n <? 10 ^ 10)%Z = true -> value (inject_Z n).
Proof.
  intros Hn. split; [|apply two_decimals_inject].
  unfold fits.
  assert (cents (inject_Z n) = (n * 100)%Z) as ->.
  { rewrite <- (cents_hundredths (n * 100)). apply cents_comp.
    rewrite inject_Z_mult. field. }
  apply Z.ltb_lt in Hn. apply Z.ltb_lt. lia.
Qed.

(** The rows of a table written out as insertions, one after the other. *)
Ltac each_row H tac :=
  first [ by rewrite lookup_empty in H
        | apply lookup_insert_Some in H as [[_ <-]|[_ H]];
          [tac|each_row H tac] ].

Ltac concrete_decimal_store :=
  split; [|split]; intros ? ? H; cbn in H;
  each_row H ltac:(split; vm_compute; reflexivity).

Lemma db0_decimal : decimal_store Scenario.db0.
Proof. concrete_decimal_store. Qed.

Lemma db_spent_900_decimal : decimal_store Scenario.db_spent_900.
Proof. concrete_decimal_store. Qed.

Lemma TwoUsers_decimal : decimal_store TwoUsers.db.
Proof. concrete_decimal_store. Qed.

End LedgerInvariant.

(** ** Claims about the balance ledger *)

Module LedgerClaims.

Import Decimal DecimalFacts Ledger LedgerFacts HandlerFacts LedgerInvariant.
Local Open Scope Q_scope.

(** The scenario of the specification: 1,000,000 becomes 850,000, then
    950,000, then 1,000,000 again. *)
Example scenario_balances :
  balance_of (serve_all (take 1 Scenario.spend_correct_delete) Scenario.db0) "X"
    == 850000
  /\ balance_of (serve_all (take 2 Scenario.spend_correct_delete) Scenario.db0) "X"
    == 950000
  /\ balance_of (serve_all Scenario.spend_correct_delete Scenario.db0) "X"
    == 1000000.
Proof. vm_compute. done. Qed.

(** C1, as amended. Take a store whose balances and amounts are values of
    their Decimal(12,2) columns and an account that has no transaction yet.
    After any sequence of create, update and delete requests whose amounts
    have at most two decimals the account is still there and its balance is
    its initial balance plus the amounts of its INCOME transactions, less
    the amounts of its EXPENSE transactions and less the amounts of its
    TRANSFER transactions. *)
Theorem balance_invariant (reqs : list LedgerRequest) (db0 : Store)
    (acc : string) (a0 : BankAccount) :
  decimal_store db0 ->
  Forall two_decimal_request reqs ->
  bankAccount db0 !! acc = Some a0 ->
  (forall id t, transaction db0 !! id = Some t -> accountId t <> acc) ->
  exists a,
    bankAccount (serve_all reqs db0) !! acc = Some a
    /\ balance a ==
         balance a0
         + total INCOME acc (transaction (serve_all reqs db0))
         - total EXPENSE acc (transaction (serve_all reqs db0))
         - total TRANSFER acc (transaction (serve_all reqs db0)).
Proof.
  intros Hdec Hreqs Ha0 Hnone.
  pose proof (serve_all_opening reqs db0 acc Hdec Hreqs) as Hopen.
  destruct (proj2 (serve_all_accounts reqs db0 acc)) as [a Ha]; [by eexists|].
  exists a. split; [done|].
  revert Hopen. unfold opening, balance_of. rewrite Ha, Ha0.
  rewrite (posted_none acc (transaction db0) Hnone).
  rewrite posted_split. intros Hopen.
  lra.
Qed.

Lemma balance_invariant_witness :
  decimal_store Scenario.db0
  /\ Forall two_decimal_request Scenario.one_transfer
  /\ bankAccount Scenario.db0 !! "X" = Some Scenario.account_X
  /\ exists a,
       bankAccount (serve_all Scenario.one_transfer Scenario.db0) !! "X" = Some a
       /\ balance a ==
            balance Scenario.account_X
            + total INCOME "X"
                (transaction (serve_all Scenario.one_transfer Scenario.db0))
            - total EXPENSE "X"
                (transaction (serve_all Scenario.one_transfer Scenario.db0))
            - total TRANSFER "X"
                (transaction (serve_all Scenario.one_transfer Scenario.db0)).
Proof.
  assert (Hreqs : Forall two_decimal_request Scenario.one_transfer).
  { repeat constructor. intros amt [= <-]. reflexivity. }
  split; [exact db0_decimal|]. split; [exact Hreqs|]. split; [reflexivity|].
  apply (balance_invariant Scenario.one_transfer Scenario.db0 "X" Scenario.account_X).
  - exact db0_decimal.
  - exact Hreqs.
  - reflexivity.
  - intros id t H. unfold Scenario.db0 in H. cbn [transaction] in H.
    by rewrite lookup_empty in H.
Defined.

(** C1, as stated, fails twice. After one transfer of 400000 out of an
    account opened with 1000000 the balance is 600000, while the initial
    balance plus income less expenses is still 1000000. After one expense of
    10.555 out of the same account the stored amount is 10.56 and the
    balance is 999989.45, while the initial balance less the expense is
    999989.44. *)
Lemma balance_invariant_as_stated_fails :
  (transaction Scenario.db0 = ∅
   /\ balance_of Scenario.db0 "X" == 1000000
   /\ balance_of (serve_all Scenario.one_transfer Scenario.db0) "X" == 600000
   /\ ~ (balance_of (serve_all Scenario.one_transfer Scenario.db0) "X" ==
         balance_of Scenario.db0 "X"
         + total INCOME "X"
             (transaction (serve_all Scenario.one_transfer Scenario.db0))
         - total EXPENSE "X"
             (transaction (serve_all Scenario.one_transfer Scenario.db0))))
  /\ (balance_of (serve_all Scenario.one_fraction Scenario.db0) "X" == 999989.45
      /\ total EXPENSE "X"
           (transaction (serve_all Scenario.one_fraction Scenario.db0)) == 10.56
      /\ total INCOME "X"
           (transaction (serve_all Scenario.one_fraction Scenario.db0)) == 0
      /\ total TRANSFER "X"
           (transaction (serve_all Scenario.one_fraction Scenario.db0)) == 0
      /\ ~ (balance_of (serve_all Scenario.one_fraction Scenario.db0) "X" ==
            balance_of Scenario.db0 "X"
            + total INCOME "X"
                (transaction (serve_all Scenario.one_fraction Scenario.db0))
            - total EXPENSE "X"
                (transaction (serve_all Scenario.one_fraction Scenario.db0)))).
Proof. vm_compute. repeat split; try done. Qed.

(** The account of an update request, once the reversal is written. *)
Lemma reversed_account uid data db amt ty dt (old : Transaction) (a : BankAccount)
    (b : Q) :
  validated uid data db amt ty dt ->
  is_Some (<[accountId old := set_balance b a]> (bankAccount db)
             !! body_accountId data).
Proof.
  intros [_ _ _ _ _ [a0 [Hacc _]%findFirst_Some] _].
  apply lookup_insert_is_Some'. right. by eexists.
Qed.

(** The balances after an update that was not rolled back, when nothing is
    lost to rounding. *)
Lemma updated_balances transactionId data db old amt ty dt a a' acc :
  decimal_store db ->
  two_decimals amt ->
  transaction db !! transactionId = Some old ->
  bankAccount db !! accountId old = Some a ->
  <[accountId old := set_balance (round2 (balance a + reversal old)) a]>
    (bankAccount db) !! body_accountId data = Some a' ->
  balance_of (updated transactionId data db old amt ty dt a a') acc ==
  balance_of db acc
  + (if String.eqb (accountId old) acc then reversal old else 0)
  + (if String.eqb (body_accountId data) acc then effect ty amt else 0).
Proof.
  intros (Hdec & Hdect & _) Hamt Hold Ha Ha'.
  destruct (Hdec _ _ Ha) as [_ Hbal].
  destruct (Hdect _ _ Hold) as [_ Hold2].
  assert (Hbal' : two_decimals (balance a')).
  { apply lookup_insert_Some in Ha' as [[_ <-]|[_ Ha']].
    - cbn [set_balance balance]. apply two_decimals_round2.
    - by destruct (Hdec _ _ Ha'). }
  unfold updated.
  rewrite (balance_of_set _ _ _ _ _ _ _
             (category db) (transaction db) (budget db)) by done.
  rewrite (balance_of_set _ _ _ _ _ _ _
             (category db) (transaction db) (budget db)) by done.
  pose proof (round2_sum (balance a') (effect ty amt) Hbal'
                (two_decimals_effect ty amt Hamt)) as Hr'.
  pose proof (round2_sum (balance a) (reversal old) Hbal
                (two_decimals_reversal old Hold2)) as Hr.
  unfold balance_of. cbn [bankAccount].
  destruct (String.eqb (body_accountId data) acc),
           (String.eqb (accountId old) acc); lra.
Qed.

(** C2, as amended. An update that passes every check first writes the
    balance of the account of the stored row, incremented by the reversal
    (minus the old amount for INCOME, plus the old amount otherwise), also
    when the request names another account; then it writes the row; then it
    writes the balance of the account of the request, as found after the
    first write, incremented by the new effect (plus the new amount for
    INCOME, minus it otherwise). What is written is rounded to two decimals,
    and when one of the three values does not fit Decimal(12,2) the answer
    is 500 and nothing is written. When the store holds values of its
    columns and the new amount has at most two decimals, an update that is
    not answered by an error moves the balances by exactly the reversal and
    the new effect; an update that keeps amount, type and account leaves
    every balance as it was. *)
Theorem update_reverses_then_applies session transactionId data db
    uid old amt ty dt a :
  session_user session = Some uid ->
  findFirst userId (transaction db) transactionId uid = Some old ->
  validated uid data db amt ty dt ->
  bankAccount db !! accountId old = Some a ->
  let reversed :=
    <[accountId old := set_balance (round2 (balance a + reversal old)) a]>
      (bankAccount db) in
  let put := PUT_transaction session transactionId data db in
  exists a',
    reversed !! body_accountId data = Some a'
    /\ put =
       (if fits (balance a + reversal old) && fits amt
           && fits (balance a' + effect ty amt)
        then (Json 200 (row_of data (round2 amt) ty dt (userId old)),
              mkStore
                (<[body_accountId data :=
                     set_balance (round2 (balance a' + effect ty amt)) a']> reversed)
                (category db)
                (<[transactionId := row_of data (round2 amt) ty dt (userId old)]>
                   (transaction db))
                (budget db))
        else (JsonError 500 "Internal server error", db))
    /\ (decimal_store db -> two_decimals amt -> is_error (fst put) = false ->
        forall acc,
          balance_of (snd put) acc ==
          balance_of db acc
          + (if String.eqb (accountId old) acc then reversal old else 0)
          + (if String.eqb (body_accountId data) acc then effect ty amt else 0))
    /\ (decimal_store db ->
        amt == amount old -> ty = type old -> body_accountId data = accountId old ->
        forall acc, balance_of (snd put) acc == balance_of db acc).
Proof.
  intros Hs Hold Hv Ha reversed put. subst reversed put.
  destruct (reversed_account uid data db amt ty dt old a
              (round2 (balance a + reversal old)) Hv) as [a' Ha'].
  exists a'. split; [exact Ha'|].
  rewrite (PUT_transaction_validated session transactionId data db uid old amt ty dt
             a a' Hs Hold Hv Ha Ha').
  split; [reflexivity|].
  apply findFirst_Some in Hold as [Hold _].
  assert (Hmoved : decimal_store db -> two_decimals amt ->
    forall acc,
      balance_of (updated transactionId data db old amt ty dt a a') acc ==
      balance_of db acc
      + (if String.eqb (accountId old) acc then reversal old else 0)
      + (if String.eqb (body_accountId data) acc then effect ty amt else 0)).
  { intros Hdec Hamt acc. by apply updated_balances. }
  destruct (fits (balance a + reversal old) && fits amt
            && fits (balance a' + effect ty amt)); cbn [fst snd is_error].
  - split; [intros Hdec Hamt _; by apply Hmoved|].
    intros Hdec Hamt -> Hacc acc.
    assert (Hamt2 : two_decimals amt).
    { destruct Hdec as (_ & Hdect & _). destruct (Hdect _ _ Hold) as [_ H2].
      eapply two_decimals_comp; [symmetry; exact Hamt|exact H2]. }
    rewrite (Hmoved Hdec Hamt2 acc), Hacc.
    unfold reversal, effect.
    destruct (String.eqb (accountId old) acc), (is_INCOME (type old)); lra.
  - split; [intros _ _ [=]|]. intros _ _ _ _ acc. reflexivity.
Qed.

(** The update of the scenario repeated with the stored values: the same
    amount, type and account. *)
Lemma update_reverses_then_applies_witness :
  let db := serve_all (take 1 Scenario.spend_correct_delete) Scenario.db0 in
  let data := Scenario.body 150000 "EXPENSE" "X" "food" in
  fst (PUT_transaction Scenario.me "t1" data db)
  = Json 200 (Scenario.expense (round2 150000) 1750000000000)
  /\ balance_of (snd (PUT_transaction Scenario.me "t1" data db)) "X" ==
     balance_of db "X".
Proof.
  intros db data.
  destruct (update_reverses_then_applies Scenario.me "t1" data db "user-1"
              (Scenario.expense (round2 150000) 1750000000000) 150000 EXPENSE
              1750000000000
              (set_balance (round2 (1000000 - 150000)) Scenario.account_X))
    as (a' & _ & Hput & _ & Hsame).
  - reflexivity.
  - reflexivity.
  - split; try reflexivity.
    + by eexists.
    + exists Scenario.food. by split.
  - vm_compute. reflexivity.
  - split.
    + vm_compute. reflexivity.
    + apply Hsame; try reflexivity.
      apply serve_all_decimal, db0_decimal.
Defined.

(** C2, as stated, fails twice, on the store that holds an expense of 150000
    on account X. An update that asks for 10000000000 passes every check,
    is answered by 500 and moves no balance: neither the reversal nor the
    new effect is applied. An update that asks for 10.555 leaves the balance
    999989.45, while the reversal and the new effect add up to 999989.445. *)
Lemma update_as_stated_fails :
  let db := serve_all (take 1 Scenario.spend_correct_delete) Scenario.db0 in
  let large := Scenario.body 10000000000 "EXPENSE" "X" "food" in
  let fraction := Scenario.body 10.555 "EXPENSE" "X" "food" in
  balance_of db "X" == 850000
  /\ transaction db !! "t1" = Some (Scenario.expense (round2 150000) 1750000000000)
  /\ (validated "user-1" large db 10000000000 EXPENSE 1750000000000
      /\ PUT_transaction Scenario.me "t1" large db
         = (JsonError 500 "Internal server error", db)
      /\ ~ (balance_of (snd (PUT_transaction Scenario.me "t1" large db)) "X" ==
            balance_of db "X" + 150000 - 10000000000))
  /\ (validated "user-1" fraction db 10.555 EXPENSE 1750000000000
      /\ (exists row,
            fst (PUT_transaction Scenario.me "t1" fraction db) = Json 200 row
            /\ amount row == 10.56)
      /\ balance_of (snd (PUT_transaction Scenario.me "t1" fraction db)) "X"
         == 999989.45
      /\ ~ (balance_of (snd (PUT_transaction Scenario.me "t1" fraction db)) "X" ==
            balance_of db "X" + 150000 - 10.555)).
Proof.
  intros db large fraction.
  split; [vm_compute; reflexivity|]. split; [vm_compute; reflexivity|].
  split; [split; [|split]|split; [|split; [|split]]].
  - split; try reflexivity; [by eexists|exists Scenario.food; by split].
  - vm_compute. reflexivity.
  - vm_compute. discriminate.
  - split; try reflexivity; [by eexists|exists Scenario.food; by split].
  - eexists. split; [vm_compute; reflexivity|]. vm_compute. reflexivity.
  - vm_compute. reflexivity.
  - vm_compute. discriminate.
Qed.

(** Moving the expense of 150000 from account X to account Y gives X its
    1000000 back and takes 150000 from Y. *)
Example update_moves_between_accounts :
  let db := serve_all (take 1 Scenario.spend_correct_delete) Scenario.db0 in
  let db' := snd (PUT_transaction Scenario.me "t1"
                    (Scenario.body 150000 "EXPENSE" "Y" "food") db) in
  balance_of db "X" == 850000 /\ balance_of db "Y" == 0
  /\ balance_of db' "X" == 1000000 /\ balance_of db' "Y" == -150000.
Proof. vm_compute. done. Qed.

Lemma direction_differs_mismatch ty c :
  direction_differs ty c -> category_type_mismatch ty c = true.
Proof.
  unfold category_type_mismatch, category_is_INCOME, category_is_EXPENSE.
  intros [[-> ->]|[-> ->]]; reflexivity.
Qed.

(** An error response never comes with a change of the store. *)
Lemma POST_transactions_error_unchanged session newId data db :
  is_error (fst (POST_transactions session newId data db)) = true ->
  snd (POST_transactions session newId data db) = db.
Proof.
  pose proof (POST_transactions_cases session newId data db) as H.
  destruct (POST_transactions session newId data db) as [r db'].
  destruct H as [[_ ->]|(? & ? & ? & ? & ? & _ & _ & _ & _ & _ & _ & -> & _)]; done.
Qed.

Lemma PUT_transaction_error_unchanged session transactionId data db :
  is_error (fst (PUT_transaction session transactionId data db)) = true ->
  snd (PUT_transaction session transactionId data db) = db.
Proof.
  pose proof (PUT_transaction_cases session transactionId data db) as H.
  destruct (PUT_transaction session transactionId data db) as [r db'].
  destruct H as [[_ ->]|(? & ? & ? & ? & ? & ? & ? & _ & _ & _ & _ & _ & _ & _ & _
                         & -> & _)];
    done.
Qed.

(** The checks of a create request, in the order of the handler. *)
Lemma POST_transactions_checks session newId data db uid :
  session_user session = Some uid ->
  let r := fst (POST_transactions session newId data db) in
  (missing_required_fields data = true ->
     r = JsonError 400 "Missing required fields")
  /\ (missing_required_fields data = false ->
      transaction_type_of (body_type data) = None ->
      r = JsonError 400 "Invalid transaction type")
  /\ (forall amt, body_amount data = Some amt -> (amt <= 0)%Q ->
      status_of r = 400%nat /\ is_error r = true)
  /\ (forall amt ty,
        missing_required_fields data = false ->
        transaction_type_of (body_type data) = Some ty ->
        body_amount data = Some amt -> (0 < amt)%Q ->
        (findFirst acc_userId (bankAccount db) (body_accountId data) uid = None ->
           r = JsonError 404 "Account not found")
        /\ (is_Some (findFirst acc_userId (bankAccount db) (body_accountId data) uid) ->
            findFirst cat_userId (category db) (body_categoryId data) uid = None ->
            r = JsonError 404 "Category not found")
        /\ (forall c,
              is_Some (findFirst acc_userId (bankAccount db) (body_accountId data) uid) ->
              findFirst cat_userId (category db) (body_categoryId data) uid = Some c ->
              category_type_mismatch ty c = true ->
              r = JsonError 400 "Category type does not match transaction type")).
Proof.
  intros Hs. unfold POST_transactions. rewrite Hs. cbv zeta.
  split; [by intros ->|]. split.
  { intros -> ->.
    by destruct (body_amount data) as [amt|], (body_date data) as [dt|]. }
  split.
  { intros amt Ha Hle. rewrite Ha.
    destruct (missing_required_fields data); [done|].
    destruct (body_date data) as [dt|],
             (transaction_type_of (body_type data)) as [ty|]; try done.
    unfold Js.leb. rewrite (proj2 (Qle_bool_iff amt 0) Hle). done. }
  intros amt ty Hm Hty Ha Hpos. rewrite Hm, Hty, Ha.
  assert (Hd : exists dt, body_date data = Some dt).
  { unfold missing_required_fields in Hm.
    destruct (body_date data) as [dt|]; [by eexists|].
    by rewrite !orb_true_r in Hm. }
  destruct Hd as [dt ->].
  assert (Js.leb amt 0 = false) as ->.
  { unfold Js.leb. destruct (Qle_bool amt 0) eqn:E; [|done].
    apply Qle_bool_iff in E. lra. }
  split; [by intros ->|]. split.
  - intros [a ->] ->. done.
  - intros c [a ->] -> ->. done.
Qed.

(** A request that is not answered by an error has passed every check. *)
Lemma POST_transactions_success_validated session newId data db :
  is_error (fst (POST_transactions session newId data db)) = false ->
  exists uid amt ty dt,
    session_user session = Some uid /\ validated uid data db amt ty dt.
Proof.
  pose proof (POST_transactions_cases session newId data db) as H.
  destruct (POST_transactions session newId data db) as [r db'].
  destruct H as [[Herr _]|(uid & amt & ty & dt & a & Hs & Hv & _)];
    cbn [fst]; [congruence|]. intros _. by exists uid, amt, ty, dt.
Qed.

Lemma PUT_transaction_success_validated session transactionId data db :
  is_error (fst (PUT_transaction session transactionId data db)) = false ->
  exists uid amt ty dt,
    session_user session = Some uid /\ validated uid data db amt ty dt.
Proof.
  pose proof (PUT_transaction_cases session transactionId data db) as H.
  destruct (PUT_transaction session transactionId data db) as [r db'].
  destruct H as [[Herr _]|(uid & old & amt & ty & dt & a & a' & Hs & _ & Hv & _)];
    cbn [fst]; [congruence|]. intros _. by exists uid, amt, ty, dt.
Qed.

(** What contradicts [validated]. *)
Lemma validated_refutes uid data db amt ty dt :
  validated uid data db amt ty dt ->
  (forall amt', body_amount data = Some amt' -> ~ (amt' <= 0)%Q)
  /\ transaction_type_of (body_type data) <> None
  /\ findFirst acc_userId (bankAccount db) (body_accountId data) uid <> None
  /\ findFirst cat_userId (category db) (body_categoryId data) uid <> None
  /\ (forall ty' c, transaction_type_of (body_type data) = Some ty' ->
        findFirst cat_userId (category db) (body_categoryId data) uid = Some c ->
        ~ direction_differs ty' c).
Proof.
  intros [_ Ha _ Hty Hpos [a Hacc] (c & Hc & Hmis)]. repeat split.
  - intros amt' Ha' Hle. rewrite Ha in Ha'. injection Ha' as <-.
    unfold Js.leb in Hpos. apply Qle_bool_iff in Hle. congruence.
  - congruence.
  - congruence.
  - congruence.
  - intros ty' c' Hty' Hc' Hdiff. rewrite Hty in Hty'. injection Hty' as <-.
    rewrite Hc in Hc'. injection Hc' as <-.
    apply direction_differs_mismatch in Hdiff. congruence.
Qed.

Lemma not_false_is_true_error {A} (r : Response A) :
  (is_error r = false -> False) -> is_error r = true.
Proof. destruct (is_error r); [done|]. intros H. by destruct H. Qed.

(** The direction check of an update request, once it is reached. *)
Lemma PUT_transaction_mismatch session transactionId data db uid amt ty c :
  session_user session = Some uid ->
  is_Some (findFirst userId (transaction db) transactionId uid) ->
  missing_required_fields data = false ->
  transaction_type_of (body_type data) = Some ty ->
  body_amount data = Some amt -> (0 < amt)%Q ->
  is_Some (findFirst acc_userId (bankAccount db) (body_accountId data) uid) ->
  findFirst cat_userId (category db) (body_categoryId data) uid = Some c ->
  category_type_mismatch ty c = true ->
  fst (PUT_transaction session transactionId data db)
  = JsonError 400 "Category type does not match transaction type".
Proof.
  intros Hs [old Hold] Hm Hty Ha Hpos [a Hacc] Hc Hmis.
  unfold PUT_transaction. rewrite Hs, Hold, Hm, Hty, Ha.
  assert (Hd : exists dt, body_date data = Some dt).
  { unfold missing_required_fields in Hm.
    destruct (body_date data) as [dt|]; [by eexists|].
    by rewrite !orb_true_r in Hm. }
  destruct Hd as [dt ->].
  assert (Js.leb amt 0 = false) as ->.
  { unfold Js.leb. destruct (Qle_bool amt 0) eqn:E; [|done].
    apply Qle_bool_iff in E. lra. }
  by rewrite Hacc, Hc, Hmis.
Qed.

(** C7. A create or update request whose type is INCOME or EXPENSE and whose
    category has the other direction is answered by an error and the store
    is left as it was; once the request reaches the direction check the
    error is the 400 response of that check. Every error response leaves the
    store as it was, and a non-positive amount, an invalid type, a missing
    account and a missing category each lead to an error response. *)
Theorem rejected_requests_change_nothing session newId transactionId data db :
  let post := POST_transactions session newId data db in
  let put := PUT_transaction session transactionId data db in
  (forall uid ty c,
     session_user session = Some uid ->
     transaction_type_of (body_type data) = Some ty ->
     findFirst cat_userId (category db) (body_categoryId data) uid = Some c ->
     direction_differs ty c ->
     (is_error (fst post) = true /\ snd post = db)
     /\ (is_error (fst put) = true /\ snd put = db)
     /\ (forall amt,
           missing_required_fields data = false ->
           body_amount data = Some amt -> (0 < amt)%Q ->
           is_Some (findFirst acc_userId (bankAccount db) (body_accountId data) uid) ->
           fst post = JsonError 400 "Category type does not match transaction type"
           /\ (is_Some (findFirst userId (transaction db) transactionId uid) ->
               fst put =
               JsonError 400 "Category type does not match transaction type")))
  /\ (is_error (fst post) = true -> snd post = db)
  /\ (is_error (fst put) = true -> snd put = db)
  /\ (forall amt, body_amount data = Some amt -> (amt <= 0)%Q ->
        is_error (fst post) = true /\ is_error (fst put) = true)
  /\ (transaction_type_of (body_type data) = None ->
        is_error (fst post) = true /\ is_error (fst put) = true)
  /\ (forall uid, session_user session = Some uid ->
        findFirst acc_userId (bankAccount db) (body_accountId data) uid = None ->
        is_error (fst post) = true /\ is_error (fst put) = true)
  /\ (forall uid, session_user session = Some uid ->
        findFirst cat_userId (category db) (body_categoryId data) uid = None ->
        is_error (fst post) = true /\ is_error (fst put) = true).
Proof.
  intros post put.
  assert (Hpost : is_error (fst post) = false ->
    exists uid amt ty dt,
      session_user session = Some uid /\ validated uid data db amt ty dt)
    by apply POST_transactions_success_validated.
  assert (Hput : is_error (fst put) = false ->
    exists uid amt ty dt,
      session_user session = Some uid /\ validated uid data db amt ty dt)
    by apply PUT_transaction_success_validated.
  assert (Hboth : forall P : Prop,
    (forall uid amt ty dt, session_user session = Some uid ->
       validated uid data db amt ty dt -> ~ P) ->
    P -> is_error (fst post) = true /\ is_error (fst put) = true).
  { intros P HP p. split; apply not_false_is_true_error; intros Hok.
    - destruct (Hpost Hok) as (uid & amt & ty & dt & Hs & Hv). by eapply HP.
    - destruct (Hput Hok) as (uid & amt & ty & dt & Hs & Hv). by eapply HP. }
  split; [|split; [apply POST_transactions_error_unchanged|
           split; [apply PUT_transaction_error_unchanged|]]].
  - intros uid ty c Hs Hty Hc Hdiff.
    destruct (Hboth (direction_differs ty c)) as [E1 E2]; [|done|].
    { intros uid' amt' ty' dt' Hs' Hv.
      rewrite Hs in Hs'. injection Hs' as <-.
      destruct (validated_refutes _ _ _ _ _ _ Hv) as (_ & _ & _ & _ & H).
      by apply H. }
    split; [split; [done|by apply POST_transactions_error_unchanged]|].
    split; [split; [done|by apply PUT_transaction_error_unchanged]|].
    intros amt Hm Ha Hpos Hacc. split.
    + destruct (POST_transactions_checks session newId data db uid Hs)
        as (_ & _ & _ & H).
      destruct (H amt ty Hm Hty Ha Hpos) as (_ & _ & H').
      apply (H' c); [done|done|]. by apply direction_differs_mismatch.
    + intros Hold.
      eapply PUT_transaction_mismatch; eauto using direction_differs_mismatch.
  - split; [|split; [|split]].
    + intros amt Ha Hle. apply (Hboth (amt <= 0)%Q); [|done].
      intros uid amt' ty dt _ Hv.
      destruct (validated_refutes _ _ _ _ _ _ Hv) as (H & _). by apply H.
    + intros Hty. apply (Hboth (transaction_type_of (body_type data) = None)); [|done].
      intros uid amt' ty dt _ Hv.
      by destruct (validated_refutes _ _ _ _ _ _ Hv) as (_ & H & _).
    + intros uid Hs Hacc.
      apply (Hboth (findFirst acc_userId (bankAccount db)
                      (body_accountId data) uid = None)); [|done].
      intros uid' amt' ty dt Hs' Hv. rewrite Hs in Hs'. injection Hs' as <-.
      by destruct (validated_refutes _ _ _ _ _ _ Hv) as (_ & _ & H & _).
    + intros uid Hs Hcat.
      apply (Hboth (findFirst cat_userId (category db)
                      (body_categoryId data) uid = None)); [|done].
      intros uid' amt' ty dt Hs' Hv. rewrite Hs in Hs'. injection Hs' as <-.
      by destruct (validated_refutes _ _ _ _ _ _ Hv) as (_ & _ & _ & H & _).
Qed.

(** The mismatch scenario of the specification: an INCOME transaction
    against the EXPENSE category is answered by the 400 response and no
    balance moves. *)
Lemma rejected_requests_change_nothing_witness :
  let data := Scenario.body 150000 "INCOME" "X" "food" in
  fst (POST_transactions Scenario.me "t1" data Scenario.db0)
  = JsonError 400 "Category type does not match transaction type"
  /\ snd (POST_transactions Scenario.me "t1" data Scenario.db0) = Scenario.db0.
Proof.
  intros data.
  destruct (rejected_requests_change_nothing Scenario.me "t1" "t0" data Scenario.db0)
    as (H & _).
  destruct (H "user-1"%string INCOME Scenario.food) as ((_ & Hdb) & _ & Hresp).
  - reflexivity.
  - reflexivity.
  - reflexivity.
  - left. split; reflexivity.
  - split; [|exact Hdb].
    apply (Hresp 150000%Q); [reflexivity|reflexivity|reflexivity|].
    by eexists.
Defined.

Lemma transfer_never_mismatches c : category_type_mismatch TRANSFER c = false.
Proof. reflexivity. Qed.

Lemma positive_not_leb (amt : Q) : (0 < amt)%Q -> Js.leb amt 0 = false.
Proof.
  intros Hpos. unfold Js.leb. destruct (Qle_bool amt 0) eqn:E; [|done].
  apply Qle_bool_iff in E. lra.
Qed.

Lemma required_fields_date data :
  missing_required_fields data = false -> exists dt, body_date data = Some dt.
Proof.
  unfold missing_required_fields. intros Hm.
  destruct (body_date data) as [dt|]; [by eexists|].
  by rewrite !orb_true_r in Hm.
Qed.

(** C10, as amended. For a request of type TRANSFER the direction of the
    category is not looked at. With a positive amount, an account and a
    category of the user (of either direction), a create request under a
    fresh key and an update request of a stored transaction pass every
    check; they are answered by 201 and 200 when what they write fits
    Decimal(12,2), and by 500 with nothing written otherwise. The row holds
    the amount rounded to two decimals, and the balance written for the
    account of the request is its balance less the amount, rounded to two
    decimals, which is what an EXPENSE of that amount writes; with a balance
    and an amount of at most two decimals it is the balance less the
    amount. *)
Theorem transfer_ignores_category_direction session uid data db amt a c :
  session_user session = Some uid ->
  missing_required_fields data = false ->
  body_type data = "TRANSFER"%string ->
  body_amount data = Some amt ->
  (0 < amt)%Q ->
  findFirst acc_userId (bankAccount db) (body_accountId data) uid = Some a ->
  findFirst cat_userId (category db) (body_categoryId data) uid = Some c ->
  effect TRANSFER amt = effect EXPENSE amt
  /\ exists dt, body_date data = Some dt
  /\ (forall newId, transaction db !! newId = None ->
        let post := POST_transactions session newId data db in
        post =
        (if fits amt && fits (balance a - amt)
         then (Json 201 (row_of data (round2 amt) TRANSFER dt uid),
               mkStore
                 (<[body_accountId data := set_balance (round2 (balance a - amt)) a]>
                    (bankAccount db))
                 (category db)
                 (<[newId := row_of data (round2 amt) TRANSFER dt uid]> (transaction db))
                 (budget db))
         else (JsonError 500 "Internal server error", db))
        /\ (two_decimals (balance a) -> two_decimals amt ->
            is_error (fst post) = false ->
            balance_of (snd post) (body_accountId data) == balance a - amt))
  /\ (forall transactionId old b,
        findFirst userId (transaction db) transactionId uid = Some old ->
        bankAccount db !! accountId old = Some b ->
        let reversed :=
          <[accountId old := set_balance (round2 (balance b + reversal old)) b]>
            (bankAccount db) in
        let put := PUT_transaction session transactionId data db in
        exists a',
          reversed !! body_accountId data = Some a'
          /\ put =
             (if fits (balance b + reversal old) && fits amt
                 && fits (balance a' - amt)
              then (Json 200 (row_of data (round2 amt) TRANSFER dt (userId old)),
                    mkStore
                      (<[body_accountId data :=
                           set_balance (round2 (balance a' - amt)) a']> reversed)
                      (category db)
                      (<[transactionId :=
                           row_of data (round2 amt) TRANSFER dt (userId old)]>
                         (transaction db))
                      (budget db))
              else (JsonError 500 "Internal server error", db))
          /\ (decimal_store db -> two_decimals amt -> is_error (fst put) = false ->
              forall acc,
                balance_of (snd put) acc ==
                balance_of db acc
                + (if String.eqb (accountId old) acc then reversal old else 0)
                + (if String.eqb (body_accountId data) acc then - amt else 0))).
Proof.
  intros Hs Hm Hty Ha Hpos Hacc Hcat.
  destruct (required_fields_date data Hm) as [dt Hd].
  pose proof (positive_not_leb amt Hpos) as Hleb.
  pose proof (proj1 (findFirst_Some _ _ _ _ _) Hacc) as [Hlk _].
  assert (Hv : validated uid data db amt TRANSFER dt).
  { split; [done|done|done|by rewrite Hty|done|by eexists|exists c; by split]. }
  split; [reflexivity|]. exists dt. split; [exact Hd|]. split.
  - intros newId Hnew post. subst post.
    rewrite (POST_transactions_validated session newId data db uid amt TRANSFER dt a
               Hs Hv Hnew Hlk).
    split; [reflexivity|].
    intros Hbal Hamt.
    change (effect TRANSFER amt) with (- amt).
    destruct (fits amt && fits (balance a + - amt)); cbn [fst snd is_error];
      [intros _|intros [=]].
    unfold created, balance_of. cbn [bankAccount].
    rewrite lookup_insert_eq. cbn [set_balance balance].
    apply (round2_sum (balance a) (- amt) Hbal). by apply two_decimals_opp.
  - intros transactionId old b Hold Hb reversed put. subst reversed put.
    destruct (reversed_account uid data db amt TRANSFER dt old b
                (round2 (balance b + reversal old)) Hv) as [a' Ha'].
    exists a'. split; [exact Ha'|].
    rewrite (PUT_transaction_validated session transactionId data db uid old amt
               TRANSFER dt b a' Hs Hold Hv Hb Ha').
    split; [reflexivity|].
    intros Hdec Hamt.
    apply findFirst_Some in Hold as [Hold _].
    pose proof (fun acc => updated_balances transactionId data db old amt TRANSFER dt
                             b a' acc Hdec Hamt Hold Hb Ha') as Hmoved.
    change (effect TRANSFER amt) with (- amt) in *.
    destruct (fits (balance b + reversal old) && fits amt
              && fits (balance a' + - amt)); cbn [fst snd is_error];
      [intros _|intros [=]].
    exact Hmoved.
Qed.

Lemma transfer_ignores_category_direction_witness :
  let data := Scenario.body 400000 "TRANSFER" "X" "salary" in
  let post := POST_transactions Scenario.me "t1" data Scenario.db0 in
  status_of (fst post) = 201%nat
  /\ balance_of (snd post) "X" == 1000000 - 400000.
Proof.
  intros data post.
  destruct (transfer_ignores_category_direction Scenario.me "user-1" data
              Scenario.db0 400000 Scenario.account_X Scenario.salary)
    as (_ & dt & _ & Hpost & _); try reflexivity.
  destruct (Hpost "t1"%string eq_refl) as (Heq & Hbal).
  split.
  - vm_compute. reflexivity.
  - apply Hbal; vm_compute; reflexivity.
Defined.

(** C10, as stated, fails twice. A transfer of 10000000000 out of an account
    of 1000000 passes every check and is answered by 500: no row is written
    and the balance is not decremented. A transfer of 10.555 is stored as
    10.56 and leaves the balance 999989.45, which is 10.55 less. *)
Lemma transfer_as_stated_fails :
  let large := Scenario.body 10000000000 "TRANSFER" "X" "salary" in
  let fraction := Scenario.body 10.555 "TRANSFER" "X" "salary" in
  (validated "user-1" large Scenario.db0 10000000000 TRANSFER 1750000000000
   /\ POST_transactions Scenario.me "t1" large Scenario.db0
      = (JsonError 500 "Internal server error", Scenario.db0)
   /\ ~ (balance_of (snd (POST_transactions Scenario.me "t1" large Scenario.db0)) "X"
         == balance_of Scenario.db0 "X" - 10000000000))
  /\ (validated "user-1" fraction Scenario.db0 10.555 TRANSFER 1750000000000
      /\ status_of (fst (POST_transactions Scenario.me "t1" fraction Scenario.db0))
         = 201%nat
      /\ (exists row,
            transaction (snd (POST_transactions Scenario.me "t1" fraction Scenario.db0))
              !! "t1" = Some row /\ amount row == 10.56)
      /\ balance_of (snd (POST_transactions Scenario.me "t1" fraction Scenario.db0)) "X"
         == 999989.45
      /\ ~ (balance_of
              (snd (POST_transactions Scenario.me "t1" fraction Scenario.db0)) "X"
            == balance_of Scenario.db0 "X" - 10.555)).
Proof.
  intros large fraction.
  split; [split; [|split]|split; [|split; [|split; [|split]]]].
  - split; try reflexivity; [by eexists|exists Scenario.salary; by split].
  - vm_compute. reflexivity.
  - vm_compute. discriminate.
  - split; try reflexivity; [by eexists|exists Scenario.salary; by split].
  - vm_compute. reflexivity.
  - eexists. split; [vm_compute; reflexivity|]. vm_compute. reflexivity.
  - vm_compute. reflexivity.
  - vm_compute. discriminate.
Qed.

End LedgerClaims.

(** ** Claims about budgets *)

Module BudgetClaims.

Import Ledger LedgerFacts HandlerFacts.
Local Open Scope Q_scope.

(** C5. For windows [[s1, e1]] and [[s2, e2]] with [s1 <= e1] and
    [s2 <= e2], the three conditions of the overlap query of the create
    handler hold together exactly when [s1 <= e2] and [s2 <= e1]; both ends
    are inclusive, so a window that ends where the other starts overlaps. *)
Theorem overlap_OR_iff (s1 e1 s2 e2 : Z) :
  (s1 <= e1)%Z -> (s2 <= e2)%Z ->
  (overlap_OR s1 e1 s2 e2 = true <-> (s1 <= e2 /\ s2 <= e1)%Z)
  /\ (e1 = s2 -> overlap_OR s1 e1 s2 e2 = true)
  /\ (e2 = s1 -> overlap_OR s1 e1 s2 e2 = true).
Proof.
  intros H1 H2. unfold overlap_OR.
  rewrite !orb_true_iff, !andb_true_iff, !Z.leb_le, !Z.geb_le.
  split; [lia|]. split; intros ->; lia.
Qed.

Lemma overlap_OR_iff_witness :
  (1 <= 15)%Z /\ (15 <= 45)%Z
  /\ (overlap_OR 1 15 15 45 = true <-> (1 <= 45 /\ 15 <= 15)%Z)
  /\ overlap_OR 1 15 15 45 = true.
Proof.
  split; [lia|]. split; [lia|].
  destruct (overlap_OR_iff 1 15 15 45) as (Hiff & Htouch & _); [lia|lia|].
  split; [exact Hiff|]. apply Htouch. reflexivity.
Defined.

(** Without the premises on the windows, the query still finds every pair
    with [s1 <= e2] and [s2 <= e1]. *)
Lemma overlap_OR_complete (s1 e1 s2 e2 : Z) :
  (s1 <= e2 /\ s2 <= e1)%Z -> overlap_OR s1 e1 s2 e2 = true.
Proof.
  unfold overlap_OR.
  rewrite !orb_true_iff, !andb_true_iff, !Z.leb_le, !Z.geb_le. lia.
Qed.

Lemma ltb_lt (x y : Q) : Js.ltb x y = true <-> x < y.
Proof.
  unfold Js.ltb. rewrite negb_true_iff.
  destruct (Qle_bool y x) eqn:E.
  - apply Qle_bool_iff in E. split; [done|lra].
  - split; [|done]. intros _. apply Qnot_le_lt. intros H.
    apply Qle_bool_iff in H. congruence.
Qed.

Lemma ltb_ge (x y : Q) : Js.ltb x y = false <-> y <= x.
Proof.
  unfold Js.ltb. rewrite negb_false_iff. apply Qle_bool_iff.
Qed.

Lemma gtb_lt (x y : Q) : Js.gtb x y = true <-> y < x.
Proof. unfold Js.gtb. apply ltb_lt. Qed.

Lemma gtb_ge (x y : Q) : Js.gtb x y = false <-> x <= y.
Proof. unfold Js.gtb. apply ltb_ge. Qed.

(** The rule on the evaluation the call sites carry out. *)
Lemma status_rule_evaluation (b : Budget) (transactions : list Transaction) :
  status_rule (evaluation b transactions).
Proof.
  unfold status_rule, evaluation.
  cbn [remaining bws_amount totalSpent status].
  split; [reflexivity|].
  destruct (_ <? 0)%float; [by repeat split|].
  destruct (_ <? _ * 0.1)%float; by repeat split.
Qed.

(** C3. Each call site takes the amount of the budget as a binary64 number,
    sets [remaining] to that amount less [totalSpent] and the status by the
    rule: overbudget when [remaining] is negative, else warning when
    [remaining] is strictly below the amount times 0.1, else good. The
    detail view answers 200 with such an evaluation for every budget of the
    user. With an amount of 1000 and 900 spent, [remaining] is 100, which is
    not strictly below 1000 times 0.1, and the status is good. *)
Theorem status_rule_holds session uid id db b :
  (bws_amount (budgets_GET_spending uid db b) = Js.Number (bud_amount b)
   /\ status_rule (budgets_GET_spending uid db b))
  /\ (bws_amount (summary_GET_spending uid db b) = Js.Number (bud_amount b)
      /\ status_rule (summary_GET_spending uid db b))
  /\ (session_user session = Some uid ->
      findFirst bud_userId (budget db) id uid = Some b ->
      exists e txs,
        GET_budget session id db = Json 200 (e, txs)
        /\ bws_budget e = b
        /\ bws_amount e = Js.Number (bud_amount b)
        /\ status_rule e)
  /\ (forall e,
        status_rule e -> bws_amount e = 1000%float -> totalSpent e = 900%float ->
        remaining e = 100%float /\ status e = good).
Proof.
  split; [split; [reflexivity|apply status_rule_evaluation]|].
  split; [split; [reflexivity|apply status_rule_evaluation]|].
  split.
  - intros Hs Hb. unfold GET_budget. rewrite Hs, Hb. cbv zeta.
    eexists _, _. split; [reflexivity|]. cbn [bws_budget bws_amount].
    split; [reflexivity|]. split; [reflexivity|].
    apply (status_rule_evaluation b).
  - intros e (Hrem & _ & _ & Hgood) Ha Hspent.
    rewrite Ha, Hspent in Hrem.
    assert (Hr : remaining e = 100%float) by (rewrite Hrem; reflexivity).
    split; [exact Hr|].
    apply Hgood; rewrite Hr, ?Ha; reflexivity.
Qed.

(** The boundary of the specification, on the list view and on the detail
    view: a budget of 1000 with 900 spent has 100 left and the status is
    good. *)
Lemma status_rule_holds_witness :
  let e := budgets_GET_spending "user-1" Scenario.db_spent_900 Scenario.budget_june in
  (totalSpent e = 900%float /\ remaining e = 100%float /\ status e = good)
  /\ exists d txs,
       GET_budget Scenario.me "b1" Scenario.db_spent_900 = Json 200 (d, txs)
       /\ bws_budget d = Scenario.budget_june
       /\ totalSpent d = 900%float /\ remaining d = 100%float /\ status d = good.
Proof.
  intros e.
  destruct (status_rule_holds Scenario.me "user-1" "b1" Scenario.db_spent_900
              Scenario.budget_june)
    as ((Hamt & Hrule) & _ & Hdetail & Hboundary).
  fold e in Hamt, Hrule.
  assert (Hspent : totalSpent e = 900%float) by (vm_compute; reflexivity).
  assert (Ha : bws_amount e = 1000%float) by (rewrite Hamt; vm_compute; reflexivity).
  split.
  - split; [exact Hspent|]. by apply Hboundary.
  - destruct Hdetail as (d & txs & Hget & Hb & Hamt' & Hrule');
      [reflexivity|reflexivity|].
    exists d, txs. split; [exact Hget|]. split; [exact Hb|].
    assert (Hspent' : totalSpent d = 900%float).
    { revert Hget. vm_compute. intros [= <- _]. reflexivity. }
    split; [exact Hspent'|]. apply Hboundary; [exact Hrule'| |exact Hspent'].
    rewrite Hamt'. vm_compute. reflexivity.
Defined.

(** The other boundary: 1000.01 spent of 1000 is overbudget. *)
Example overbudget_boundary :
  status (budgets_GET_spending "user-1"
            (set_transaction (<["t3" := Scenario.expense 100.01 20]>
                                (transaction Scenario.db_spent_900))
                             Scenario.db_spent_900)
            Scenario.budget_june)
  = overbudget.
Proof. vm_compute. reflexivity. Qed.

(** The comparisons are those of binary64: with 2.7 spent of 3 the
    difference is 0.29999999999999982, which is below 3 times 0.1, and the
    status is warning. *)
Example warning_in_binary64 :
  let e := budgets_GET_spending "user-1" Scenario.db_three Scenario.budget_three in
  bws_amount e = 3%float
  /\ totalSpent e = 2.7%float
  /\ (remaining e <? bws_amount e * 0.1)%float = true
  /\ status e = warning.
Proof. vm_compute. done. Qed.

(** The percentage is rounded from the binary64 product: with 0.09 spent
    of 1.6 the percentage is 5.624999999999999, and 5.62 is reported where
    the fraction 5.625 would round to 5.63. *)
Example percentage_in_binary64 :
  let b := mkBudget "Small" 1.6 MONTHLY None 1 30 "user-1" in
  let db := mkStore (bankAccount Scenario.db0) (category Scenario.db0)
              (<["t1" := Scenario.expense 0.09 3]> ∅) (<["b1" := b]> ∅) in
  percentageUsed (budgets_GET_spending "user-1" db b) = 5.62%float.
Proof. vm_compute. reflexivity. Qed.

(** C8, as amended. The list view and the summary view evaluate a budget on
    the transactions of its query in the order of the store, the detail view
    on the same transactions ordered by date, the latest first; the three
    carry out one evaluation. The list view and the summary view give the
    same result. The detail view agrees with them on [totalSpent],
    [remaining], [percentageUsed] and [status] exactly when summing the
    amounts in the order of the dates gives the same binary64 number as
    summing them in the order of the store, as it does when the query
    returns the transactions latest first. *)
Theorem call_sites_agree session uid id db b :
  session_user session = Some uid ->
  findFirst bud_userId (budget db) id uid = Some b ->
  let listed := List.filter (whereTransactions uid b) (rows (transaction db)) in
  let sum l :=
    fold_left (fun sum t => (sum + Js.Number (amount t))%float) l 0%float in
  budgets_GET_spending uid db b = evaluation b listed
  /\ summary_GET_spending uid db b = evaluation b listed
  /\ GET_budget session id db
     = Json 200 (evaluation b (orderBy_date_desc listed), orderBy_date_desc listed)
  /\ agree (budgets_GET_spending uid db b) (summary_GET_spending uid db b)
  /\ (agree (evaluation b (orderBy_date_desc listed)) (budgets_GET_spending uid db b)
      <-> sum (orderBy_date_desc listed) = sum listed)
  /\ (orderBy_date_desc listed = listed ->
      agree (evaluation b (orderBy_date_desc listed)) (budgets_GET_spending uid db b)
      /\ agree (evaluation b (orderBy_date_desc listed))
           (summary_GET_spending uid db b)).
Proof.
  intros Hs Hb listed sum.
  split; [reflexivity|]. split; [reflexivity|]. split.
  { unfold GET_budget. rewrite Hs, Hb. reflexivity. }
  split; [by repeat split|]. split.
  - split.
    + intros (Hspent & _). exact Hspent.
    + intros Hsum. unfold budgets_GET_spending, evaluation, agree. cbv zeta.
      cbn [totalSpent remaining percentageUsed status].
      fold listed. fold (sum listed). fold (sum (orderBy_date_desc listed)).
      rewrite Hsum. by repeat split.
  - intros ->. split; by repeat split.
Qed.

(** In the scenario, 400 and 500 add up to 900 in both orders and the three
    views agree. *)
Lemma call_sites_agree_witness :
  session_user Scenario.me = Some "user-1"%string
  /\ findFirst bud_userId (budget Scenario.db_spent_900) "b1" "user-1"
     = Some Scenario.budget_june
  /\ exists d txs,
       GET_budget Scenario.me "b1" Scenario.db_spent_900 = Json 200 (d, txs)
       /\ agree d (budgets_GET_spending "user-1" Scenario.db_spent_900
                     Scenario.budget_june)
       /\ agree (budgets_GET_spending "user-1" Scenario.db_spent_900
                   Scenario.budget_june)
                (summary_GET_spending "user-1" Scenario.db_spent_900
                   Scenario.budget_june).
Proof.
  split; [reflexivity|]. split; [reflexivity|].
  destruct (call_sites_agree Scenario.me "user-1" "b1" Scenario.db_spent_900
              Scenario.budget_june) as (_ & _ & Hget & Hsame & Hiff & _);
    [reflexivity|reflexivity|].
  eexists _, _. split; [exact Hget|]. split; [|exact Hsame].
  apply Hiff. vm_compute. reflexivity.
Defined.

(** C8, as stated, fails. With expenses of 0.1, 0.2 and 0.3 under a budget
    of 0.6 the list view and the summary view add 0.3, 0.1 and 0.2, the
    order of the store, up to 0.6000000000000001 and answer overbudget; the
    detail view adds 0.3, 0.2 and 0.1 up to 0.6 and answers warning. Adding
    them in the order of their creation, 0.1, 0.2 and 0.3, gives
    0.6000000000000001 as well. *)
Lemma call_sites_disagree :
  (0 + 0.3 + 0.1 + 0.2)%float = (0 + 0.1 + 0.2 + 0.3)%float
  /\ (0 + 0.3 + 0.2 + 0.1)%float <> (0 + 0.1 + 0.2 + 0.3)%float
  /\ exists d txs,
    GET_budget Scenario.me "b1" Scenario.db_tenths = Json 200 (d, txs)
    /\ txs ≡ₚ List.filter (whereTransactions "user-1" Scenario.budget_tenths)
               (rows (transaction Scenario.db_tenths))
    /\ status d = warning
    /\ status (budgets_GET_spending "user-1" Scenario.db_tenths Scenario.budget_tenths)
       = overbudget
    /\ status (summary_GET_spending "user-1" Scenario.db_tenths Scenario.budget_tenths)
       = overbudget
    /\ totalSpent d
       <> totalSpent (budgets_GET_spending "user-1" Scenario.db_tenths
                        Scenario.budget_tenths)
    /\ ~ agree d (budgets_GET_spending "user-1" Scenario.db_tenths
                    Scenario.budget_tenths)
    /\ ~ agree d (summary_GET_spending "user-1" Scenario.db_tenths
                    Scenario.budget_tenths).
Proof.
  split; [vm_compute; reflexivity|]. split; [vm_compute; discriminate|].
  exists (evaluation Scenario.budget_tenths
            (orderBy_date_desc
               (List.filter (whereTransactions "user-1" Scenario.budget_tenths)
                  (rows (transaction Scenario.db_tenths))))),
         (orderBy_date_desc
            (List.filter (whereTransactions "user-1" Scenario.budget_tenths)
               (rows (transaction Scenario.db_tenths)))).
  split; [reflexivity|].
  split; [apply merge_sort_Permutation|].
  split; [vm_compute; reflexivity|].
  split; [vm_compute; reflexivity|].
  split; [vm_compute; reflexivity|].
  split; [|split].
  - vm_compute. discriminate.
  - intros (_ & _ & _ & H). vm_compute in H. discriminate H.
  - intros (_ & _ & _ & H). vm_compute in H. discriminate H.
Qed.

(** In the scenario the detail view lists the later expense first and the
    three views report 900 spent, 100 left, 90 percent used. *)
Example detail_view_scenario :
  exists d t t',
    GET_budget Scenario.me "b1" Scenario.db_spent_900 = Json 200 (d, [t; t'])
    /\ date t = 17%Z /\ date t' = 3%Z
    /\ totalSpent d = 900%float /\ remaining d = 100%float
    /\ percentageUsed d = 90%float /\ status d = good.
Proof. vm_compute. eexists _, _, _. repeat split. Qed.









(** The percentage is that of binary64: 0.27 of 0.3 is
    90.00000000000001 percent, above 90, and the warning is emitted. *)
Example high_spending_in_binary64 :
  (90 <? overallPercentage 0.27 0.3)%float = true
  /\ In high_spending_recommendation (generateRecommendations [] 0.27 0.3).
Proof. vm_compute. tauto. Qed.

(** ** The overlap validator on the store *)

Lemma option_string_eqb_eq (a b : option string) :
  option_string_eqb a b = true <-> a = b.
Proof.
  destruct a as [x|], b as [y|]; cbn; try (split; congruence).
  rewrite String.eqb_eq. split; congruence.
Qed.

Lemma rows_lookup {A} (t : gmap string A) (i : string) (r : A) :
  t !! i = Some r -> In r (rows t).
Proof.
  intros H. unfold rows. apply list_elem_of_In, list_elem_of_fmap.
  exists (i, r). split; [done|]. by apply elem_of_map_to_list.
Qed.

(** A create request either leaves the budgets as they were, or inserts
    under a fresh key a budget that the overlap query matched with no row. *)
Lemma POST_budgets_cases session newId body db :
  budget (snd (POST_budgets session newId body db)) = budget db
  \/ exists uid b,
       session_user session = Some uid
       /\ bud_userId b = uid
       /\ budget db !! newId = None
       /\ List.find (overlap_where uid (bud_categoryId b) (startDate b) (endDate b))
            (rows (budget db)) = None
       /\ budget (snd (POST_budgets session newId body db))
          = <[newId := b]> (budget db).
Proof.
  unfold POST_budgets.
  destruct (session_user session) as [uid|] eqn:Hs; [|by left].
  destruct (BudgetSchema_parse body) as [[v period]|]; [|by left].
  destruct (match categoryId_or_null (bb_categoryId v) with
            | Some cid => _ | None => _ end); [by left|].
  destruct (List.find _ _) eqn:Hfind; [by left|].
  destruct (budget db !! newId) eqn:Hnew; [by left|].
  destruct (Decimal.write _) as [amt|]; [|by left].
  right. eexists uid, _. repeat split; try done.
Qed.

(** The create handler keeps the windows of one scope apart. *)
Lemma POST_budgets_no_overlap session newId body db :
  no_overlap db -> no_overlap (snd (POST_budgets session newId body db)).
Proof.
  intros Hinv.
  destruct (POST_budgets_cases session newId body db)
    as [Heq|(uid & b & _ & Hu & Hnew & Hfind & Heq)];
    unfold no_overlap; rewrite Heq; [exact Hinv|].
  assert (Hfresh : forall j b', budget db !! j = Some b' ->
            same_scope b b' -> ~ windows_overlap b b').
  { intros j b' Hj [Huid Hcat] [Ho1 Ho2].
    apply rows_lookup in Hj.
    pose proof (find_none _ _ Hfind _ Hj) as Hw.
    unfold overlap_where in Hw.
    rewrite (proj2 (String.eqb_eq _ _)) in Hw by congruence.
    rewrite (proj2 (option_string_eqb_eq _ _)) in Hw by congruence.
    rewrite overlap_OR_complete in Hw by lia. done. }
  intros i j b1 b2 Hij Hi Hj Hscope Hover.
  apply lookup_insert_Some in Hi as [[<- <-]|[Hni Hi]];
    apply lookup_insert_Some in Hj as [[<- <-]|[Hnj Hj]].
  - done.
  - by apply (Hfresh j b2).
  - apply (Hfresh i b1); [done| |].
    + destruct Hscope. by split.
    + destruct Hover. by split.
  - by apply (Hinv i j b1 b2).
Qed.

(** The delete handler keeps the windows of one scope apart. *)
Lemma DELETE_budget_no_overlap session id db :
  no_overlap db -> no_overlap (snd (DELETE_budget session id db)).
Proof.
  intros Hinv. unfold DELETE_budget.
  destruct (session_user session) as [uid|]; [|done].
  destruct (findFirst bud_userId (budget db) id uid); [|done].
  intros i j b1 b2 Hij Hi Hj. cbn in Hi, Hj.
  apply lookup_delete_Some in Hi as [_ Hi].
  apply lookup_delete_Some in Hj as [_ Hj].
  by apply (Hinv i j b1 b2).
Qed.

(** A create request whose window overlaps a budget of its scope is
    answered by the 400 response of the overlap check and writes nothing. *)
Lemma POST_budgets_rejects_overlap session uid newId body db i b :
  session_user session = Some uid ->
  is_Some (BudgetSchema_parse body) ->
  (forall cid, categoryId_or_null (bb_categoryId body) = Some cid ->
     is_Some (findFirst cat_userId (category db) cid uid)) ->
  budget db !! i = Some b ->
  bud_userId b = uid ->
  bud_categoryId b = categoryId_or_null (bb_categoryId body) ->
  (startDate b <= bb_endDate body /\ bb_startDate body <= endDate b)%Z ->
  POST_budgets session newId body db
  = (JsonError 400 "Budget untuk periode dan kategori ini sudah ada", db).
Proof.
  intros Hs [[v period] Hparse] Hcat Hi Hu Hc Hover.
  assert (v = body) as ->.
  { unfold BudgetSchema_parse in Hparse.
    destruct (negb _); [done|]. destruct (negb _); [done|].
    destruct (period_of _); [|done]. congruence. }
  unfold POST_budgets. rewrite Hs, Hparse.
  assert (Hfind : exists b', List.find
            (overlap_where uid (categoryId_or_null (bb_categoryId body))
               (bb_startDate body) (bb_endDate body)) (rows (budget db)) = Some b').
  { destruct (List.find _ _) eqn:Hfind; [by eexists|].
    apply rows_lookup in Hi. pose proof (find_none _ _ Hfind _ Hi) as Hw.
    unfold overlap_where in Hw.
    rewrite (proj2 (String.eqb_eq _ _)) in Hw by congruence.
    rewrite (proj2 (option_string_eqb_eq _ _)) in Hw by congruence.
    rewrite overlap_OR_complete in Hw by lia. done. }
  destruct Hfind as [b' ->].
  destruct (categoryId_or_null (bb_categoryId body)) as [cid|]; [|done].
  by destruct (Hcat cid eq_refl) as [c ->].
Qed.

(** C4 at the failing input. The budgets of June (days 1 to 30) and of July
    (days 31 to 61) of one user, both for all categories, do not overlap;
    the update of the start of July to day 15 is answered by 200, and
    afterwards the two windows overlap. *)
Theorem budget_update_allows_overlap :
  no_overlap Scenario.db_spent_900
  /\ fst (PUT_budget Scenario.me "b2" Scenario.move_july_start Scenario.db_spent_900)
     = Json 200 (mkBudget "July" 1000 MONTHLY None 15 61 "user-1")
  /\ ~ no_overlap
        (snd (PUT_budget Scenario.me "b2" Scenario.move_july_start
                Scenario.db_spent_900)).
Proof.
  split; [|split].
  - intros i j b1 b2 Hij Hi Hj _ [H1 H2]. cbn in Hi, Hj.
    apply lookup_insert_Some in Hi as [[<- <-]|[Hni Hi]];
      apply lookup_insert_Some in Hj as [[<- <-]|[Hnj Hj]]; try done.
    + apply lookup_insert_Some in Hj as [[<- <-]|[_ Hj]]; [cbn in *; lia|done].
    + apply lookup_insert_Some in Hi as [[<- <-]|[_ Hi]]; [cbn in *; lia|done].
    + apply lookup_insert_Some in Hi as [[<- <-]|[_ Hi]]; [|done].
      apply lookup_insert_Some in Hj as [[<- <-]|[_ Hj]]; done.
  - vm_compute. reflexivity.
  - intros H.
    apply (H "b1"%string "b2"%string Scenario.budget_june
             (mkBudget "July" 1000 MONTHLY None 15 61 "user-1")).
    + done.
    + reflexivity.
    + vm_compute. reflexivity.
    + by split.
    + unfold windows_overlap. cbn. lia.
Qed.

End BudgetClaims.

(** ** Claims about the balance outside the ledger *)

Module AccountClaims.

Import Decimal DecimalFacts Ledger HandlerFacts.
Local Open Scope Q_scope.

Lemma balance_of_same_accounts (db db' : Store) (acc : string) :
  bankAccount db' = bankAccount db -> balance_of db' acc = balance_of db acc.
Proof. unfold balance_of. by intros ->. Qed.

Lemma balance_of_replace (db : Store) (id acc : string) (old new : BankAccount) :
  bankAccount db !! id = Some old ->
  balance new = balance old ->
  balance_of (set_bankAccount (<[id := new]> (bankAccount db)) db) acc
  = balance_of db acc.
Proof.
  intros Hold Hbal. unfold balance_of, set_bankAccount. cbn [bankAccount].
  destruct (decide (id = acc)) as [<-|Hne].
  - by rewrite lookup_insert_eq, Hold.
  - by rewrite lookup_insert_ne.
Qed.

Lemma POST_budgets_accounts session newId body db :
  bankAccount (snd (POST_budgets session newId body db)) = bankAccount db.
Proof.
  unfold POST_budgets.
  destruct (session_user session) as [uid|]; [|done].
  destruct (BudgetSchema_parse body) as [[v period]|]; [|done].
  destruct (match categoryId_or_null (bb_categoryId v) with
            | Some cid => _ | None => _ end); [done|].
  destruct (List.find _ _); [done|].
  destruct (budget db !! newId); [done|]. by destruct (Decimal.write _).
Qed.

Lemma PUT_budget_accounts session id body db :
  bankAccount (snd (PUT_budget session id body db)) = bankAccount db.
Proof.
  unfold PUT_budget.
  destruct (session_user session) as [uid|]; [|done].
  destruct (BudgetUpdateSchema_parse body) as [period|]; [|done].
  destruct (findFirst bud_userId (budget db) id uid); [|done].
  destruct (match bu_categoryId body with Some cid => Js.truthy cid && _
            | None => false end); [done|].
  by destruct (_ || _).
Qed.

Lemma DELETE_budget_accounts session id db :
  bankAccount (snd (DELETE_budget session id db)) = bankAccount db.
Proof.
  unfold DELETE_budget.
  destruct (session_user session) as [uid|]; [|done].
  by destruct (findFirst bud_userId (budget db) id uid).
Qed.

Section Categories.

Variable category_conflict : Category -> Category -> bool.
Variable budgets_on_category_delete :
  string -> gmap string Budget -> option (gmap string Budget).

Lemma serve_category_accounts req db :
  bankAccount (serve_category category_conflict budgets_on_category_delete req db)
  = bankAccount db.
Proof.
  destruct req as [session newId data|session id data|session id];
    cbn [serve_category].
  - unfold POST_categories.
    destruct (session_user session) as [uid|]; [|done].
    destruct (negb _ || negb _); [done|].
    destruct (negb (Js.includes _ _)); [done|].
    destruct (category_type_of _); [|done].
    by destruct (category_create _ _ _ _).
  - unfold PUT_category.
    destruct (session_user session) as [uid|]; [|done].
    destruct (negb _ || negb _); [done|].
    destruct (negb (Js.includes _ _)); [done|].
    destruct (findFirst cat_userId (category db) id uid) as [old|]; [|done].
    destruct (isDefault old); [done|].
    destruct (category_type_of _); [|done].
    by destruct (category_update _ _ _ _).
  - unfold DELETE_category.
    destruct (session_user session) as [uid|]; [|done].
    destruct (findFirst cat_userId (category db) id uid) as [old|]; [|done].
    destruct (isDefault old); [done|].
    destruct (0 <? _)%nat; [done|].
    by destruct (budgets_on_category_delete _ _).
Qed.

Lemma serve_auth_accounts req st :
  bankAccount (snd (serve_auth category_conflict req st)) = bankAccount (snd st).
Proof.
  destruct req as [data h tok exp newUserId ids|token now verifiedAt];
    cbn [serve_auth]; [|done].
  unfold POST_register.
  destruct (negb _ || negb _ || negb _); [done|].
  destruct (List.find _ _); [done|].
  destruct (fst st !! newUserId); [done|].
  by destruct (category_createMany _ _ _).
Qed.

(** What the update of an account does when its body carries a [balance]
    field. *)
Lemma PUT_account_balance session id data db b :
  ab_balance data = Some b ->
  let put := PUT_account session id data db in
  (is_error (fst put) = true /\ snd put = db)
  \/ (exists old new,
        bankAccount db !! id = Some old
        /\ fits b = true
        /\ balance new = round2 b
        /\ fst put = Json 200 new
        /\ snd put = set_bankAccount (<[id := new]> (bankAccount db)) db).
Proof.
  intros Hb. unfold PUT_account. rewrite Hb.
  destruct (session_user session) as [uid|]; [|by left].
  destruct (negb _ || negb _); [by left|].
  destruct (negb (Js.includes _ _)); [by left|].
  destruct (findFirst acc_userId (bankAccount db) id uid) as [old|] eqn:Hold;
    [|by left].
  apply findFirst_Some in Hold as [Hold _].
  unfold write. destruct (fits b) eqn:Hf; [|by left].
  right. eexists old, _. by repeat split.
Qed.

(** C6, as amended. Of the requests other than the creation of an account
    and the requests on transactions (the update and the deletion of an
    account, the requests on budgets and on categories, registration and
    the verification of an email), only the update of an account that
    carries a [balance] field changes a balance. When it is not answered by
    an error, that field fits Decimal(12,2) and the balance of the account
    is the field rounded to two decimals; when it is, the store is as it
    was; the other accounts keep their balance either way. Every other
    request leaves every balance as it was. *)
Theorem balance_frame (req : NonLedgerRequest) (st : gmap string User * Store)
    (acc : string) :
  let st' := serve_non_ledger category_conflict budgets_on_category_delete req st in
  (sets_no_balance req -> balance_of (snd st') acc = balance_of (snd st) acc)
  /\ (forall session id data b,
        req = OfOther (UpdateAccount session id data) ->
        ab_balance data = Some b ->
        let put := PUT_account session id data (snd st) in
        snd st' = snd put
        /\ (acc <> id -> balance_of (snd st') acc = balance_of (snd st) acc)
        /\ (is_error (fst put) = false ->
            fits b = true /\ balance_of (snd st') id = round2 b)
        /\ (is_error (fst put) = true -> snd st' = snd st)).
Proof.
  intros st'. subst st'. split.
  - destruct req as [req|req|req]; cbn [sets_no_balance serve_non_ledger snd].
    + destruct req as [session id data|session id|session newId body
                       |session id body|session id];
        cbn [carries_no_balance serve_other].
      * intros Hnone. unfold PUT_account.
        destruct (session_user session) as [uid|]; [|done].
        destruct (negb _ || negb _); [done|].
        destruct (negb (Js.includes _ _)); [done|].
        destruct (findFirst acc_userId (bankAccount (snd st)) id uid)
          as [old|] eqn:Hold; [|done].
        apply findFirst_Some in Hold as [Hold _]. rewrite Hnone. cbn [snd].
        by apply (balance_of_replace (snd st) id acc old).
      * intros _. unfold DELETE_account.
        destruct (session_user session) as [uid|]; [|done].
        destruct (findFirst acc_userId (bankAccount (snd st)) id uid)
          as [old|] eqn:Hold; [|done].
        destruct (0 <? _)%nat; [done|].
        apply findFirst_Some in Hold as [Hold _]. cbn [snd].
        by apply (balance_of_replace (snd st) id acc old).
      * intros _. apply balance_of_same_accounts, POST_budgets_accounts.
      * intros _. apply balance_of_same_accounts, PUT_budget_accounts.
      * intros _. apply balance_of_same_accounts, DELETE_budget_accounts.
    + intros _. apply balance_of_same_accounts, serve_category_accounts.
    + intros _. apply balance_of_same_accounts, serve_auth_accounts.
  - intros session id data b -> Hb put. subst put.
    cbn [serve_non_ledger serve_other snd].
    split; [reflexivity|].
    destruct (PUT_account_balance session id data (snd st) b Hb)
      as [[Herr Hdb]|(old & new & Hold & Hf & Hbal & Hr & Hdb)]; rewrite Hdb.
    + split; [done|]. split; [congruence|done].
    + split; [|split].
      * intros Hne. unfold balance_of, set_bankAccount. cbn [bankAccount].
        by rewrite lookup_insert_ne.
      * intros _. split; [exact Hf|].
        unfold balance_of, set_bankAccount. cbn [bankAccount].
        by rewrite lookup_insert_eq.
      * rewrite Hr. cbn [is_error]. done.
Qed.

End Categories.

(** Renaming account X leaves its balance; setting its balance to 5.555
    makes it 5.56 and leaves the balance of account Y; setting it to
    10000000000 is answered by 500 and changes nothing. *)
Lemma balance_frame_witness :
  let st := ((∅ : gmap string User), Scenario.db0) in
  let serve := serve_non_ledger conflict_by_name cascade_on_delete in
  let rename := OfOther (UpdateAccount Scenario.me "X"
                           (mkAccountBody "Purse" "CASH" None EmptyString None)) in
  let set := OfOther (UpdateAccount Scenario.me "X" Scenario.set_balance_fraction) in
  let large := OfOther (UpdateAccount Scenario.me "X" Scenario.set_balance_large) in
  (sets_no_balance rename
   /\ balance_of (snd (serve rename st)) "X" = balance_of Scenario.db0 "X"
   /\ acc_name <$> bankAccount (snd (serve rename st)) !! "X" = Some "Purse"%string)
  /\ (balance_of (snd (serve set st)) "X" == 5.56
      /\ balance_of (snd (serve set st)) "Y" = balance_of Scenario.db0 "Y")
  /\ snd (serve large st) = Scenario.db0.
Proof.
  intros st serve rename set large. subst serve.
  split; [|split].
  - split; [reflexivity|]. split; [|reflexivity].
    apply (balance_frame conflict_by_name cascade_on_delete rename st "X").
    reflexivity.
  - destruct (balance_frame conflict_by_name cascade_on_delete set st "Y")
      as (_ & H).
    destruct (H Scenario.me "X"%string Scenario.set_balance_fraction 5.555
                eq_refl eq_refl) as (_ & Hother & _).
    destruct (balance_frame conflict_by_name cascade_on_delete set st "X")
      as (_ & H').
    destruct (H' Scenario.me "X"%string Scenario.set_balance_fraction 5.555
                eq_refl eq_refl) as (_ & _ & Hset & _).
    split.
    + destruct Hset as [_ ->]; [reflexivity|]. vm_compute. reflexivity.
    + by apply Hother.
  - destruct (balance_frame conflict_by_name cascade_on_delete large st "X")
      as (_ & H).
    destruct (H Scenario.me "X"%string Scenario.set_balance_large 10000000000
                eq_refl eq_refl) as (_ & _ & _ & Herr).
    apply Herr. reflexivity.
Defined.

(** C6, as stated, fails: the update of account X with [balance: 5] is
    answered by 200 and the balance goes from 1000000 to 5. *)
Lemma account_update_sets_balance :
  let res := PUT_account Scenario.me "X" Scenario.set_balance_5 Scenario.db0 in
  status_of (fst res) = 200%nat
  /\ balance_of Scenario.db0 "X" == 1000000
  /\ balance_of (snd res) "X" == 5
  /\ ~ (balance_of (snd res) "X" == balance_of Scenario.db0 "X").
Proof. vm_compute. repeat split; done. Qed.

End AccountClaims.

(** ** What the handlers of accounts and budgets do to the store *)

Module Footprint.

Import Decimal DecimalFacts HandlerFacts.
Local Open Scope Q_scope.

Lemma POST_accounts_cases session newId data db :
  let (r, db') := POST_accounts session newId data db in
  (is_error r = true /\ db' = db)
  \/ (exists uid new,
        session_user session = Some uid
        /\ bankAccount db !! newId = None
        /\ acc_userId new = uid /\ isActive new = true
        /\ acc_name new = ab_name data /\ acc_type new = ab_type data
        /\ Js.includes validTypes (ab_type data) = true
        /\ fits (match ab_balance data with
                  | Some b => if Js.truthy_num b then b else 0
                  | None => 0
                  end) = true
        /\ balance new = round2 (match ab_balance data with
                                 | Some b => if Js.truthy_num b then b else 0
                                 | None => 0
                                 end)
        /\ r = Json 201 new
        /\ db' = set_bankAccount (<[newId := new]> (bankAccount db)) db).
Proof.
  unfold POST_accounts.
  destruct (session_user session) as [uid|] eqn:Hs; [|by left].
  destruct (negb _ || negb _); [by left|].
  destruct (Js.includes validTypes (ab_type data)) eqn:Hty; cbn [negb]; [|by left].
  cbv zeta. destruct (bankAccount db !! newId) eqn:Hnew; [by left|].
  unfold write. destruct (fits _) eqn:Hf; [|by left].
  right. match goal with |- context [Json 201 ?x] => exists uid, x end.
  repeat (split; [done|]). done.
Qed.

Lemma PUT_account_cases session id data db :
  let (r, db') := PUT_account session id data db in
  (is_error r = true /\ db' = db)
  \/ (exists uid old new,
        session_user session = Some uid
        /\ findFirst acc_userId (bankAccount db) id uid = Some old
        /\ acc_userId new = acc_userId old /\ isActive new = isActive old
        /\ acc_name new = ab_name data /\ acc_type new = ab_type data
        /\ Js.includes validTypes (ab_type data) = true
        /\ (forall b, ab_balance data = Some b -> fits b = true)
        /\ balance new = match ab_balance data with
                         | Some b => round2 b
                         | None => balance old
                         end
        /\ r = Json 200 new
        /\ db' = set_bankAccount (<[id := new]> (bankAccount db)) db).
Proof.
  unfold PUT_account.
  destruct (session_user session) as [uid|] eqn:Hs; [|by left].
  destruct (negb _ || negb _); [by left|].
  destruct (Js.includes validTypes (ab_type data)) eqn:Hty; cbn [negb]; [|by left].
  destruct (findFirst acc_userId (bankAccount db) id uid) as [old|] eqn:Hold;
    [|by left].
  destruct (ab_balance data) as [b|] eqn:Hb.
  - unfold write. destruct (fits b) eqn:Hf; [|by left].
    right. match goal with |- context [Json 200 ?x] => exists uid, old, x end.
    do 7 (split; [done|]). split; [by intros b' [= <-]|]. done.
  - right. match goal with |- context [Json 200 ?x] => exists uid, old, x end.
    do 7 (split; [done|]). done.
Qed.

Lemma DELETE_account_cases session id db :
  let (r, db') := DELETE_account session id db in
  (is_error r = true /\ db' = db)
  \/ (exists uid old new,
        session_user session = Some uid
        /\ findFirst acc_userId (bankAccount db) id uid = Some old
        /\ transaction_count_of_account id db = 0%nat
        /\ acc_userId new = acc_userId old /\ isActive new = false
        /\ acc_name new = acc_name old /\ acc_type new = acc_type old
        /\ balance new = balance old
        /\ r = Json 200 "Account deleted successfully"%string
        /\ db' = set_bankAccount (<[id := new]> (bankAccount db)) db).
Proof.
  unfold DELETE_account.
  destruct (session_user session) as [uid|] eqn:Hs; [|by left].
  destruct (findFirst acc_userId (bankAccount db) id uid) as [old|] eqn:Hold;
    [|by left].
  destruct (0 <? transaction_count_of_account id db)%nat eqn:Hc; [by left|].
  right.
  match goal with |- context [<[id := ?x]> (bankAccount db)] => exists uid, old, x end.
  do 2 (split; [done|]).
  split; [apply Nat.ltb_ge in Hc; lia|]. repeat (split; [done|]). done.
Qed.

Lemma POST_budgets_store session newId body db :
  let (r, db') := POST_budgets session newId body db in
  (is_error r = true /\ db' = db)
  \/ (exists uid period,
        session_user session = Some uid
        /\ BudgetSchema_parse body = Some (body, period)
        /\ budget db !! newId = None
        /\ List.find (overlap_where uid (categoryId_or_null (bb_categoryId body))
                        (bb_startDate body) (bb_endDate body))
             (rows (budget db)) = None
        /\ (forall cid, categoryId_or_null (bb_categoryId body) = Some cid ->
              is_Some (findFirst cat_userId (category db) cid uid))
        /\ fits (bb_amount body) = true
        /\ r = Json 201 (mkBudget (bb_name body) (round2 (bb_amount body)) period
                           (categoryId_or_null (bb_categoryId body))
                           (bb_startDate body) (bb_endDate body) uid)
        /\ db' = set_budget
                   (<[newId := mkBudget (bb_name body) (round2 (bb_amount body)) period
                                 (categoryId_or_null (bb_categoryId body))
                                 (bb_startDate body) (bb_endDate body) uid]>
                      (budget db)) db).
Proof.
  unfold POST_budgets.
  destruct (session_user session) as [uid|] eqn:Hs; [|by left].
  destruct (BudgetSchema_parse body) as [[v period]|] eqn:Hparse; [|by left].
  assert (v = body) as ->.
  { unfold BudgetSchema_parse in Hparse.
    destruct (negb _); [done|]. destruct (negb _); [done|].
    destruct (period_of _); [|done]. congruence. }
  destruct (categoryId_or_null (bb_categoryId body)) as [cid|] eqn:Hcat.
  - destruct (findFirst cat_userId (category db) cid uid) as [c|] eqn:Hc; [|by left].
    destruct (List.find _ _) eqn:Hfind; [by left|].
    destruct (budget db !! newId) eqn:Hnew; [by left|].
    unfold write. destruct (fits (bb_amount body)) eqn:Hf; [|by left].
    right. exists uid, period. do 4 (split; [done|]).
    split; [|done]. intros cid' [= <-]. rewrite Hc. by eexists.
  - destruct (List.find _ _) eqn:Hfind; [by left|].
    destruct (budget db !! newId) eqn:Hnew; [by left|].
    unfold write. destruct (fits (bb_amount body)) eqn:Hf; [|by left].
    right. exists uid, period. do 4 (split; [done|]). split; [|done]. done.
Qed.

Lemma PUT_budget_cases session id body db :
  let (r, db') := PUT_budget session id body db in
  (is_error r = true /\ db' = db)
  \/ (exists uid old period,
        session_user session = Some uid
        /\ BudgetUpdateSchema_parse body = Some period
        /\ findFirst bud_userId (budget db) id uid = Some old
        /\ (forall cid, bu_categoryId body = Some cid -> is_Some (category db !! cid))
        /\ (forall x, bu_amount body = Some x -> fits x = true)
        /\ r = Json 200 (budget_update_data body period old)
        /\ db' = set_budget (<[id := budget_update_data body period old]> (budget db))
                   db).
Proof.
  unfold PUT_budget.
  destruct (session_user session) as [uid|] eqn:Hs; [|by left].
  destruct (BudgetUpdateSchema_parse body) as [period|] eqn:Hparse; [|by left].
  destruct (findFirst bud_userId (budget db) id uid) as [old|] eqn:Hold; [|by left].
  assert (Hamt : match bu_amount body with
                 | Some x => negb (fits x)
                 | None => false
                 end = false -> forall x, bu_amount body = Some x -> fits x = true).
  { intros H x Hx. rewrite Hx in H. by apply negb_false_iff in H. }
  destruct (match bu_amount body with Some x => negb (fits x) | None => false end);
    [rewrite orb_true_r|rewrite orb_false_r].
  { by destruct (match bu_categoryId body with Some cid => Js.truthy cid && _
                 | None => false end); left. }
  specialize (Hamt eq_refl).
  destruct (bu_categoryId body) as [cid|] eqn:Hcat.
  - destruct (Js.truthy cid && _); [by left|].
    destruct (category db !! cid) eqn:Hc; [|by left].
    right. exists uid, old, period. do 3 (split; [done|]).
    split; [|done]. intros cid' [= <-]. by eexists.
  - right. exists uid, old, period. do 3 (split; [done|]). split; [|done]. done.
Qed.

Lemma DELETE_budget_cases session id db :
  let (r, db') := DELETE_budget session id db in
  (is_error r = true /\ db' = db)
  \/ (exists uid old,
        session_user session = Some uid
        /\ findFirst bud_userId (budget db) id uid = Some old
        /\ r = Json 200 "Budget berhasil dihapus"%string
        /\ db' = set_budget (delete id (budget db)) db).
Proof.
  unfold DELETE_budget.
  destruct (session_user session) as [uid|] eqn:Hs; [|by left].
  destruct (findFirst bud_userId (budget db) id uid) as [old|] eqn:Hold; [|by left].
  right. by exists uid, old.
Qed.

End Footprint.

(** ** Integrity of the store and isolation of the users *)

Module StoreIntegrity.

Import Decimal DecimalFacts HandlerFacts Footprint.
Local Open Scope Q_scope.

Lemma same_owners_refl db : same_owners db db.
Proof. intros id a Ha. by exists a. Qed.

Lemma same_owners_trans db1 db2 db3 :
  same_owners db1 db2 -> same_owners db2 db3 -> same_owners db1 db3.
Proof.
  intros H12 H23 id a Ha.
  destruct (H12 id a Ha) as (a' & Ha' & Ho).
  destruct (H23 id a' Ha') as (a'' & Ha'' & Ho').
  exists a''. split; [done|congruence].
Qed.

Lemma same_owners_insert (db db' : Store) (k : string) (old new : BankAccount) :
  bankAccount db' = <[k := new]> (bankAccount db) ->
  bankAccount db !! k = Some old -> acc_userId new = acc_userId old ->
  same_owners db db'.
Proof.
  intros Hdb Hk Ho id a Ha. rewrite Hdb.
  destruct (decide (k = id)) as [->|Hne].
  - exists new. rewrite lookup_insert_eq. split; [done|]. congruence.
  - exists a. by rewrite lookup_insert_ne.
Qed.

Lemma same_owners_fresh (db : Store) (k : string) (new : BankAccount) :
  bankAccount db !! k = None ->
  same_owners db (set_bankAccount (<[k := new]> (bankAccount db)) db).
Proof.
  intros Hk id a Ha. exists a. split; [|done]. cbn.
  rewrite lookup_insert_ne; [done|]. congruence.
Qed.

Lemma same_owners_replace (db : Store) (k : string) (old new : BankAccount) :
  bankAccount db !! k = Some old -> acc_userId new = acc_userId old ->
  same_owners db (set_bankAccount (<[k := new]> (bankAccount db)) db).
Proof. intros Hk Ho. by eapply same_owners_insert. Qed.

Lemma same_owners_same_accounts (db db' : Store) :
  bankAccount db' = bankAccount db -> same_owners db db'.
Proof. intros H id a Ha. exists a. by rewrite H. Qed.

Lemma serve_same_owners req db : same_owners db (serve req db).
Proof.
  destruct req as [session newId data|session tid data|session tid]; cbn [serve].
  - pose proof (POST_transactions_cases session newId data db) as H.
    destruct (POST_transactions session newId data db) as [r db'].
    destruct H as [[_ ->]|(uid & amt & ty & dt & a & _ & _ & _ & Ha & _ & _ & _ & ->)];
      [apply same_owners_refl|].
    by eapply same_owners_insert.
  - pose proof (PUT_transaction_cases session tid data db) as H.
    destruct (PUT_transaction session tid data db) as [r db'].
    destruct H as [[_ ->]|(uid & old & amt & ty & dt & a & a' & _ & _ & _ & Ha & Ha'
                            & _ & _ & _ & _ & ->)]; [apply same_owners_refl|].
    eapply (same_owners_trans _
              (set_bankAccount
                 (<[accountId old :=
                      set_balance (round2 (balance a + reversal old)) a]>
                    (bankAccount db)) db)).
    + by eapply same_owners_replace.
    + eapply (same_owners_insert _ _ (body_accountId data) a');
        [reflexivity|exact Ha'|reflexivity].
  - pose proof (DELETE_transaction_cases session tid db) as H.
    destruct (DELETE_transaction session tid db) as [r db'].
    destruct H as [[_ ->]|(uid & old & a & _ & _ & Ha & _ & _ & ->)];
      [apply same_owners_refl|].
    by eapply same_owners_insert.
Qed.

Lemma serve_other_same_owners req db : same_owners db (serve_other req db).
Proof.
  destruct req as [session id data|session id|session newId body
                   |session id body|session id]; cbn [serve_other].
  - pose proof (PUT_account_cases session id data db) as H.
    destruct (PUT_account session id data db) as [r db'].
    destruct H as [[_ ->]|(uid & old & new & _ & Hold & Ho & _ & _ & _ & _ & _ & _ & _
                            & ->)];
      [apply same_owners_refl|].
    apply findFirst_Some in Hold as [Hold _]. by eapply same_owners_replace.
  - pose proof (DELETE_account_cases session id db) as H.
    destruct (DELETE_account session id db) as [r db'].
    destruct H as [[_ ->]|(uid & old & new & _ & Hold & _ & Ho & _ & _ & _ & _ & _ & ->)];
      [apply same_owners_refl|].
    apply findFirst_Some in Hold as [Hold _]. by eapply same_owners_replace.
  - pose proof (POST_budgets_store session newId body db) as H.
    destruct (POST_budgets session newId body db) as [r db'].
    destruct H as [[_ ->]|(uid & period & _ & _ & _ & _ & _ & _ & _ & ->)];
      [apply same_owners_refl|]. by apply same_owners_same_accounts.
  - pose proof (PUT_budget_cases session id body db) as H.
    destruct (PUT_budget session id body db) as [r db'].
    destruct H as [[_ ->]|(uid & old & period & _ & _ & _ & _ & _ & _ & ->)];
      [apply same_owners_refl|]. by apply same_owners_same_accounts.
  - pose proof (DELETE_budget_cases session id db) as H.
    destruct (DELETE_budget session id db) as [r db'].
    destruct H as [[_ ->]|(uid & old & _ & _ & _ & ->)];
      [apply same_owners_refl|]. by apply same_owners_same_accounts.
Qed.

Lemma serve_any_same_owners req db : same_owners db (serve_any req db).
Proof.
  destruct req as [r|r|session newId data]; cbn [serve_any].
  - apply serve_same_owners.
  - apply serve_other_same_owners.
  - pose proof (POST_accounts_cases session newId data db) as H.
    destruct (POST_accounts session newId data db) as [r db'].
    destruct H as [[_ ->]|(uid & new & _ & Hnew & _ & _ & _ & _ & _ & _ & _ & _ & ->)];
      [apply same_owners_refl|]. by apply same_owners_fresh.
Qed.

(** No request removes an account or hands it to another user: after any
    sequence of requests every account of the store is still a row, with
    the owner it had. *)
Theorem accounts_keep_their_owner (reqs : list Request) (db : Store) :
  same_owners db (serve_any_all reqs db).
Proof.
  revert db. induction reqs as [|req reqs IH]; intros db; cbn.
  - apply same_owners_refl.
  - eapply same_owners_trans; [apply serve_any_same_owners|apply IH].
Qed.

Lemma serve_any_category req db : category (serve_any req db) = category db.
Proof.
  destruct req as [[session newId data|session tid data|session tid]
                  |[session id data|session id|session newId body
                   |session id body|session id]
                  |session newId data]; cbn [serve_any serve serve_other].
  - pose proof (POST_transactions_cases session newId data db) as H.
    destruct (POST_transactions session newId data db) as [r db'].
    by destruct H as [[_ ->]|(? & ? & ? & ? & ? & _ & _ & _ & _ & _ & _ & _ & ->)].
  - pose proof (PUT_transaction_cases session tid data db) as H.
    destruct (PUT_transaction session tid data db) as [r db'].
    by destruct H as [[_ ->]|(? & ? & ? & ? & ? & ? & ? & _ & _ & _ & _ & _ & _ & _ & _
                            & _ & ->)].
  - pose proof (DELETE_transaction_cases session tid db) as H.
    destruct (DELETE_transaction session tid db) as [r db'].
    by destruct H as [[_ ->]|(? & ? & ? & _ & _ & _ & _ & _ & ->)].
  - pose proof (PUT_account_cases session id data db) as H.
    destruct (PUT_account session id data db) as [r db'].
    by destruct H as [[_ ->]|(? & ? & ? & _ & _ & _ & _ & _ & _ & _ & _ & _ & _ & ->)].
  - pose proof (DELETE_account_cases session id db) as H.
    destruct (DELETE_account session id db) as [r db'].
    by destruct H as [[_ ->]|(? & ? & ? & _ & _ & _ & _ & _ & _ & _ & _ & _ & ->)].
  - pose proof (POST_budgets_store session newId body db) as H.
    destruct (POST_budgets session newId body db) as [r db'].
    by destruct H as [[_ ->]|(? & ? & _ & _ & _ & _ & _ & _ & _ & ->)].
  - pose proof (PUT_budget_cases session id body db) as H.
    destruct (PUT_budget session id body db) as [r db'].
    by destruct H as [[_ ->]|(? & ? & ? & _ & _ & _ & _ & _ & _ & ->)].
  - pose proof (DELETE_budget_cases session id db) as H.
    destruct (DELETE_budget session id db) as [r db'].
    by destruct H as [[_ ->]|(? & ? & _ & _ & _ & ->)].
  - pose proof (POST_accounts_cases session newId data db) as H.
    destruct (POST_accounts session newId data db) as [r db'].
    by destruct H as [[_ ->]|(? & ? & _ & _ & _ & _ & _ & _ & _ & _ & _ & _ & ->)].
Qed.

Lemma transaction_ok_mono db db' t :
  same_owners db db' -> category db' = category db ->
  transaction_ok db t -> transaction_ok db' t.
Proof.
  intros Hown Hcat (Hpos & (a & Ha & Hu) & Hc). split; [done|]. split.
  - destruct (Hown _ _ Ha) as (a' & Ha' & Ho). exists a'. split; [done|congruence].
  - by rewrite Hcat.
Qed.

Lemma integrity_step db db' :
  integrity db -> same_owners db db' -> category db' = category db ->
  (forall id t, transaction db' !! id = Some t ->
                transaction db !! id = Some t \/ transaction_ok db t) ->
  integrity db'.
Proof.
  intros Hint Hown Hcat Hrows id t Ht.
  apply (transaction_ok_mono db db'); [done|done|].
  destruct (Hrows id t Ht) as [Hold|Hok]; [by apply (Hint id)|done].
Qed.

(** The row a validated request writes is in order: the amount is
    positive, and what is stored of it is not negative. *)
Lemma validated_row_ok uid data db amt ty dt :
  validated uid data db amt ty dt ->
  transaction_ok db (row_of data (round2 amt) ty dt uid).
Proof.
  intros [_ _ _ _ Hpos [a Hacc] (c & Hc & Hmis)].
  apply findFirst_Some in Hacc as [Hacc Hu].
  apply findFirst_Some in Hc as [Hc Hcu].
  unfold transaction_ok, row_of. cbn [amount accountId categoryId userId type].
  split; [|split].
  - apply round2_nonneg. apply Qlt_le_weak, Qnot_le_lt. intros Hle.
    unfold Js.leb in Hpos. apply Qle_bool_iff in Hle. congruence.
  - by exists a.
  - by exists c.
Qed.

Lemma serve_integrity req db : integrity db -> integrity (serve req db).
Proof.
  intros Hint.
  apply (integrity_step db); [done|apply serve_same_owners
                             |apply (serve_any_category (OnLedger req))|].
  destruct req as [session newId data|session tid data|session tid]; cbn [serve].
  - pose proof (POST_transactions_cases session newId data db) as H.
    destruct (POST_transactions session newId data db) as [r db'].
    destruct H as [[_ ->]|(uid & amt & ty & dt & a & _ & Hv & _ & _ & _ & _ & _ & ->)];
      [by left|].
    intros id t Ht. cbn in Ht.
    apply lookup_insert_Some in Ht as [[_ <-]|[_ Ht]]; [right|by left].
    by apply validated_row_ok.
  - pose proof (PUT_transaction_cases session tid data db) as H.
    destruct (PUT_transaction session tid data db) as [r db'].
    destruct H as [[_ ->]|(uid & old & amt & ty & dt & a & a' & _ & Hold & Hv & _ & _
                            & _ & _ & _ & _ & ->)]; [by left|].
    intros id t Ht. cbn in Ht.
    apply lookup_insert_Some in Ht as [[_ <-]|[_ Ht]]; [right|by left].
    apply findFirst_Some in Hold as [_ ->]. by apply validated_row_ok.
  - pose proof (DELETE_transaction_cases session tid db) as H.
    destruct (DELETE_transaction session tid db) as [r db'].
    destruct H as [[_ ->]|(uid & old & a & _ & _ & _ & _ & _ & ->)]; [by left|].
    intros id t Ht. cbn in Ht. apply lookup_delete_Some in Ht as [_ Ht]. by left.
Qed.

Lemma serve_other_transaction req db :
  transaction (serve_other req db) = transaction db.
Proof.
  destruct req as [session id data|session id|session newId body
                   |session id body|session id]; cbn [serve_other].
  - pose proof (PUT_account_cases session id data db) as H.
    destruct (PUT_account session id data db) as [r db'].
    by destruct H as [[_ ->]|(? & ? & ? & _ & _ & _ & _ & _ & _ & _ & _ & _ & _ & ->)].
  - pose proof (DELETE_account_cases session id db) as H.
    destruct (DELETE_account session id db) as [r db'].
    by destruct H as [[_ ->]|(? & ? & ? & _ & _ & _ & _ & _ & _ & _ & _ & _ & ->)].
  - pose proof (POST_budgets_store session newId body db) as H.
    destruct (POST_budgets session newId body db) as [r db'].
    by destruct H as [[_ ->]|(? & ? & _ & _ & _ & _ & _ & _ & _ & ->)].
  - pose proof (PUT_budget_cases session id body db) as H.
    destruct (PUT_budget session id body db) as [r db'].
    by destruct H as [[_ ->]|(? & ? & ? & _ & _ & _ & _ & _ & _ & ->)].
  - pose proof (DELETE_budget_cases session id db) as H.
    destruct (DELETE_budget session id db) as [r db'].
    by destruct H as [[_ ->]|(? & ? & _ & _ & _ & ->)].
Qed.

Lemma serve_any_integrity req db : integrity db -> integrity (serve_any req db).
Proof.
  intros Hint. destruct req as [r|r|session newId data].
  - by apply serve_integrity.
  - apply (integrity_step db); [done|apply (serve_any_same_owners (OnOther r))
                               |apply (serve_any_category (OnOther r))|].
    intros id t Ht. left. cbn [serve_any] in Ht.
    by rewrite serve_other_transaction in Ht.
  - apply (integrity_step db);
      [done|apply (serve_any_same_owners (CreateAccount session newId data))
      |apply (serve_any_category (CreateAccount session newId data))|].
    intros id t Ht. left. cbn [serve_any] in Ht.
    pose proof (POST_accounts_cases session newId data db) as H.
    destruct (POST_accounts session newId data db) as [r db'].
    by destruct H as [[_ ->]|(? & ? & _ & _ & _ & _ & _ & _ & _ & _ & _ & _ & ->)].
Qed.

(** The requests keep the store in order: when every stored transaction
    has an amount that is not negative, an account and a category of its own
    user and a category of the fitting direction, the same holds after any
    sequence of requests on accounts, transactions and budgets. A stored
    amount can be zero: a request of 0.004 passes the check of the amount
    and is stored as 0.00. *)
Theorem integrity_preserved (reqs : list Request) (db : Store) :
  integrity db -> integrity (serve_any_all reqs db).
Proof.
  revert db. induction reqs as [|req reqs IH]; intros db Hint; cbn.
  - exact Hint.
  - apply IH. by apply serve_any_integrity.
Qed.

Lemma integrity_preserved_witness :
  integrity Scenario.db0
  /\ integrity
       (serve_any_all
          [ OnLedger (CreateTransaction Scenario.me "t1"
                        (Scenario.body 150000 "EXPENSE" "X" "food"));
            OnOther (UpdateAccount Scenario.me "X" Scenario.set_balance_5);
            OnLedger (CreateTransaction Scenario.me "t2"
                        (Scenario.body 0.004 "EXPENSE" "X" "food"));
            OnLedger (UpdateTransaction Scenario.me "t1"
                        (Scenario.body 70000 "INCOME" "Y" "salary")) ]
          Scenario.db0).
Proof.
  assert (H0 : integrity Scenario.db0) by (intros id t Ht; by cbn in Ht).
  split; [exact H0|]. by apply integrity_preserved.
Defined.

(** A request of 0.004 is answered by 201 and stored as 0. *)
Example amount_stored_as_zero :
  let post := POST_transactions Scenario.me "t1"
                (Scenario.body 0.004 "EXPENSE" "X" "food") Scenario.db0 in
  status_of (fst post) = 201%nat
  /\ exists t, transaction (snd post) !! "t1" = Some t /\ amount t == 0.
Proof.
  split; [vm_compute; reflexivity|].
  eexists. split; [vm_compute; reflexivity|]. vm_compute. reflexivity.
Qed.

Section Foreign.
Context {A : Type} (owner : A -> string) (u : string).

(** Writing or removing a row of user [u] is not seen on the rows of the
    other users. *)
Lemma insert_foreign (m : gmap string A) (k : string) (new : A) :
  owner new = u ->
  (forall old, m !! k = Some old -> owner old = u) ->
  forall id x, owner x <> u -> (<[k := new]> m !! id = Some x <-> m !! id = Some x).
Proof.
  intros Hnew Hold id x Hx. destruct (decide (k = id)) as [->|Hne].
  - rewrite lookup_insert_eq. split.
    + intros [= <-]. done.
    + intros H. by apply Hold in H.
  - by rewrite lookup_insert_ne.
Qed.

Lemma delete_foreign (m : gmap string A) (k : string) :
  (forall old, m !! k = Some old -> owner old = u) ->
  forall id x, owner x <> u -> (delete k m !! id = Some x <-> m !! id = Some x).
Proof.
  intros Hold id x Hx. rewrite lookup_delete_Some. split; [by intros [_ ?]|].
  intros H. split; [|done]. intros ->. by apply Hold in H.
Qed.
End Foreign.

(** A request made for user [u] neither changes, removes nor creates a row
    of another user: the accounts, transactions and budgets of the others
    are the same before and after, and the categories are untouched. For
    the reversal of an update or a delete this rests on the integrity of
    the store. *)
Theorem users_are_isolated (req : Request) (db : Store) (u : string) :
  integrity db ->
  requester req = Some u ->
  (forall id a, acc_userId a <> u ->
     (bankAccount (serve_any req db) !! id = Some a <-> bankAccount db !! id = Some a))
  /\ (forall id t, userId t <> u ->
        (transaction (serve_any req db) !! id = Some t <-> transaction db !! id = Some t))
  /\ (forall id b, bud_userId b <> u ->
        (budget (serve_any req db) !! id = Some b <-> budget db !! id = Some b))
  /\ category (serve_any req db) = category db.
Proof.
  intros Hint Hreq.
  split; [|split; [|split; [|apply serve_any_category]]].
  - destruct req as [[session newId data|session tid data|session tid]
                    |[session id data|session id|session newId body
                     |session id body|session id]
                    |session newId data];
      cbn [serve_any serve serve_other];
      change (session_user session = Some u) in Hreq.
    + pose proof (POST_transactions_cases session newId data db) as H.
      destruct (POST_transactions session newId data db) as [r db'].
      destruct H as [[_ ->]|(uid & amt & ty & dt & a & Hs & Hv & _ & Ha & _ & _ & _ & ->)];
        [done|]. cbn [snd bankAccount created updated deleted].
      assert (uid = u) as -> by congruence.
      destruct Hv as [_ _ _ _ _ [a0 Hacc] _].
      apply findFirst_Some in Hacc as [Hacc Ho].
      apply (insert_foreign acc_userId u); [cbn; congruence|]. intros old0 ?. congruence.
    + pose proof (PUT_transaction_cases session tid data db) as H.
      destruct (PUT_transaction session tid data db) as [r db'].
      destruct H as [[_ ->]|(uid & old & amt & ty & dt & a & a' & Hs & Hold & Hv & Ha
                            & Ha' & _ & _ & _ & _ & ->)]; [done|]. cbn [snd bankAccount created updated deleted].
      assert (uid = u) as -> by congruence.
      apply findFirst_Some in Hold as [Hold Hou].
      destruct (Hint _ _ Hold) as (_ & (a1 & Ha1 & Ha1u) & _).
      assert (Hau : acc_userId a = u) by congruence.
      destruct Hv as [_ _ _ _ _ [a0 Hacc] _].
      apply findFirst_Some in Hacc as [Hacc Ho].
      assert (Ha'u : acc_userId a' = u).
      { destruct (decide (accountId old = body_accountId data)) as [Heq|Hne].
        - rewrite Heq, lookup_insert_eq in Ha'. by injection Ha' as <-.
        - rewrite lookup_insert_ne in Ha' by done. congruence. }
      intros id x Hx.
      rewrite (insert_foreign acc_userId u) by (try done; intros; congruence).
      apply (insert_foreign acc_userId u); [cbn; congruence| |done].
      intros; congruence.
    + pose proof (DELETE_transaction_cases session tid db) as H.
      destruct (DELETE_transaction session tid db) as [r db'].
      destruct H as [[_ ->]|(uid & old & a & Hs & Hold & Ha & _ & _ & ->)]; [done|].
      cbn [snd bankAccount created updated deleted].
      assert (uid = u) as -> by congruence.
      apply findFirst_Some in Hold as [Hold Hou].
      destruct (Hint _ _ Hold) as (_ & (a1 & Ha1 & Ha1u) & _).
      apply (insert_foreign acc_userId u); [cbn; congruence|]. intros; congruence.
    + pose proof (PUT_account_cases session id data db) as H.
      destruct (PUT_account session id data db) as [r db'].
      destruct H as [[_ ->]|(uid & old & new & Hs & Hold & Ho & _ & _ & _ & _ & _ & _ & _
                            & ->)]; [done|]. cbn [snd set_bankAccount bankAccount].
      assert (uid = u) as -> by congruence.
      apply findFirst_Some in Hold as [Hold Hou].
      apply (insert_foreign acc_userId u); [cbn; congruence|]. intros; congruence.
    + pose proof (DELETE_account_cases session id db) as H.
      destruct (DELETE_account session id db) as [r db'].
      destruct H as [[_ ->]|(uid & old & new & Hs & Hold & _ & Ho & _ & _ & _ & _ & _
                              & ->)]; [done|]. cbn [snd set_bankAccount bankAccount].
      assert (uid = u) as -> by congruence.
      apply findFirst_Some in Hold as [Hold Hou].
      apply (insert_foreign acc_userId u); [cbn; congruence|]. intros; congruence.
    + intros k a _.
      by rewrite (AccountClaims.POST_budgets_accounts session newId body db).
    + intros k a _.
      by rewrite (AccountClaims.PUT_budget_accounts session id body db).
    + intros k a _.
      by rewrite (AccountClaims.DELETE_budget_accounts session id db).
    + pose proof (POST_accounts_cases session newId data db) as H.
      destruct (POST_accounts session newId data db) as [r db'].
      destruct H as [[_ ->]|(uid & new & Hs & Hnew & Ho & _ & _ & _ & _ & _ & _ & _ & ->)];
        [done|]. cbn [snd set_bankAccount bankAccount].
      assert (uid = u) as -> by congruence.
      apply (insert_foreign acc_userId u); [cbn; congruence|]. intros; congruence.
  - destruct req as [[session newId data|session tid data|session tid]|r
                    |session newId data];
      cbn [serve_any serve];
      try change (session_user session = Some u) in Hreq.
    + pose proof (POST_transactions_cases session newId data db) as H.
      destruct (POST_transactions session newId data db) as [r db'].
      destruct H as [[_ ->]|(uid & amt & ty & dt & a & Hs & _ & Hnew & _ & _ & _ & _ & ->)];
        [done|]. cbn [snd transaction created updated deleted].
      assert (uid = u) as -> by congruence.
      apply (insert_foreign userId u); [cbn; congruence|]. intros; congruence.
    + pose proof (PUT_transaction_cases session tid data db) as H.
      destruct (PUT_transaction session tid data db) as [r db'].
      destruct H as [[_ ->]|(uid & old & amt & ty & dt & a & a' & Hs & Hold & _ & _ & _
                            & _ & _ & _ & _ & ->)]; [done|]. cbn [snd transaction created updated deleted].
      assert (uid = u) as -> by congruence.
      apply findFirst_Some in Hold as [Hold Hou].
      apply (insert_foreign userId u); [cbn; congruence|]. intros; congruence.
    + pose proof (DELETE_transaction_cases session tid db) as H.
      destruct (DELETE_transaction session tid db) as [r db'].
      destruct H as [[_ ->]|(uid & old & a & Hs & Hold & _ & _ & _ & ->)]; [done|].
      cbn [snd transaction created updated deleted].
      assert (uid = u) as -> by congruence.
      apply findFirst_Some in Hold as [Hold Hou].
      apply (delete_foreign userId u). intros; congruence.
    + intros k t _. by rewrite serve_other_transaction.
    + intros k t _.
      pose proof (POST_accounts_cases session newId data db) as H.
      destruct (POST_accounts session newId data db) as [r db'].
      by destruct H as [[_ ->]|(? & ? & _ & _ & _ & _ & _ & _ & _ & _ & _ & _ & ->)].
  - destruct req as [[session newId data|session tid data|session tid]
                    |[session id data|session id|session newId body
                     |session id body|session id]
                    |session newId data];
      cbn [serve_any serve serve_other];
      change (session_user session = Some u) in Hreq.
    + pose proof (POST_transactions_cases session newId data db) as H.
      destruct (POST_transactions session newId data db) as [r db'].
      by destruct H as [[_ ->]|(? & ? & ? & ? & ? & _ & _ & _ & _ & _ & _ & _ & ->)].
    + pose proof (PUT_transaction_cases session tid data db) as H.
      destruct (PUT_transaction session tid data db) as [r db'].
      by destruct H as [[_ ->]|(? & ? & ? & ? & ? & ? & ? & _ & _ & _ & _ & _ & _ & _ & _
                            & _ & ->)].
    + pose proof (DELETE_transaction_cases session tid db) as H.
      destruct (DELETE_transaction session tid db) as [r db'].
      by destruct H as [[_ ->]|(? & ? & ? & _ & _ & _ & _ & _ & ->)].
    + pose proof (PUT_account_cases session id data db) as H.
      destruct (PUT_account session id data db) as [r db'].
      by destruct H as [[_ ->]|(? & ? & ? & _ & _ & _ & _ & _ & _ & _ & _ & _ & _ & ->)].
    + pose proof (DELETE_account_cases session id db) as H.
      destruct (DELETE_account session id db) as [r db'].
      by destruct H as [[_ ->]|(? & ? & ? & _ & _ & _ & _ & _ & _ & _ & _ & _ & ->)].
    + pose proof (POST_budgets_store session newId body db) as H.
      destruct (POST_budgets session newId body db) as [r db'].
      destruct H as [[_ ->]|(uid & period & Hs & _ & Hnew & _ & _ & _ & _ & ->)]; [done|].
      cbn [snd set_budget budget].
      assert (uid = u) as -> by congruence.
      apply (insert_foreign bud_userId u); [cbn; congruence|]. intros; congruence.
    + pose proof (PUT_budget_cases session id body db) as H.
      destruct (PUT_budget session id body db) as [r db'].
      destruct H as [[_ ->]|(uid & old & period & Hs & _ & Hold & _ & _ & _ & ->)]; [done|].
      cbn [snd set_budget budget].
      assert (uid = u) as -> by congruence.
      apply findFirst_Some in Hold as [Hold Hou].
      apply (insert_foreign bud_userId u); [cbn; congruence|]. intros; congruence.
    + pose proof (DELETE_budget_cases session id db) as H.
      destruct (DELETE_budget session id db) as [r db'].
      destruct H as [[_ ->]|(uid & old & Hs & Hold & _ & ->)]; [done|].
      cbn [snd set_budget budget].
      assert (uid = u) as -> by congruence.
      apply findFirst_Some in Hold as [Hold Hou].
      apply (delete_foreign bud_userId u). intros; congruence.
    + pose proof (POST_accounts_cases session newId data db) as H.
      destruct (POST_accounts session newId data db) as [r db'].
      by destruct H as [[_ ->]|(? & ? & _ & _ & _ & _ & _ & _ & _ & _ & _ & _ & ->)].
Qed.

Lemma TwoUsers_integrity : integrity TwoUsers.db.
Proof.
  intros id t Ht. cbn in Ht.
  apply lookup_insert_Some in Ht as [[_ <-]|[_ Ht]];
    [|apply lookup_insert_Some in Ht as [[_ <-]|[_ Ht]];
      [|apply lookup_insert_Some in Ht as [[_ <-]|[_ Ht]]; [|done]]];
    (split; [done|]); split; eexists; (split; [reflexivity|done]).
Qed.

(** User 1 updates a transaction and moves it to another account; the
    account, the transaction and the budget of user 2 are as before. *)
Lemma users_are_isolated_witness :
  let req := OnLedger (UpdateTransaction Scenario.me "t1"
                         (Scenario.body 70000 "INCOME" "Y" "salary")) in
  bankAccount (serve_any req TwoUsers.db) !! "Z" = Some TwoUsers.account_Z
  /\ transaction (serve_any req TwoUsers.db) !! "t9" = Some TwoUsers.other_expense
  /\ budget (serve_any req TwoUsers.db) !! "b9" = Some TwoUsers.other_budget.
Proof.
  intros req.
  destruct (users_are_isolated req TwoUsers.db "user-1" TwoUsers_integrity eq_refl)
    as (Ha & Ht & Hb & _).
  split; [|split].
  - apply Ha; [done|reflexivity].
  - apply Ht; [done|reflexivity].
  - apply Hb; [done|reflexivity].
Defined.

End StoreIntegrity.

(** ** How the requests on transactions compose *)

Module LedgerComposition.

Import Decimal DecimalFacts Ledger LedgerFacts HandlerFacts LedgerInvariant.
Local Open Scope Q_scope.

(** The reversal of the row a request writes undoes its effect. *)
Lemma reversal_row_of data amt ty dt uid :
  reversal (row_of data amt ty dt uid) == - effect ty amt.
Proof.
  unfold reversal, effect, row_of. cbn [type amount]. destruct (is_INCOME ty); ring.
Qed.

Lemma effect_comp ty (x y : Q) : x == y -> effect ty x == effect ty y.
Proof. intros H. unfold effect. destruct (is_INCOME ty); by rewrite H. Qed.

(** Creating a transaction and deleting it again is a round trip when
    nothing is lost to rounding: in a store that holds values of its
    columns, after a create request with an amount of at most two decimals
    that is not answered by an error, the delete is answered by 200, the
    table of transactions is the one before the create, and every balance
    is back at its value. *)
Theorem create_then_delete session newId data db :
  decimal_store db ->
  (forall amt, body_amount data = Some amt -> two_decimals amt) ->
  is_error (fst (POST_transactions session newId data db)) = false ->
  let db1 := snd (POST_transactions session newId data db) in
  fst (DELETE_transaction session newId db1)
  = Json 200 "Transaction deleted successfully"%string
  /\ transaction (snd (DELETE_transaction session newId db1)) = transaction db
  /\ category (snd (DELETE_transaction session newId db1)) = category db
  /\ budget (snd (DELETE_transaction session newId db1)) = budget db
  /\ forall acc,
       balance_of (snd (DELETE_transaction session newId db1)) acc
       == balance_of db acc.
Proof.
  intros Hdec Hcents Hok db1. subst db1.
  pose proof (POST_transactions_cases session newId data db) as H.
  destruct (POST_transactions session newId data db) as [r db'].
  cbn [fst snd] in *.
  destruct H as [[Herr _]|(uid & amt & ty & dt & a & Hs & Hv & Hnew & Ha & Hf1 & Hf2
                            & _ & ->)];
    [congruence|].
  pose proof (Hcents amt (v_amount _ _ _ _ _ _ Hv)) as Hamt.
  destruct Hdec as (Hdeca & _ & _). destruct (Hdeca _ _ Ha) as [Hfa Hbal].
  set (a1 := set_balance (round2 (balance a + effect ty amt)) a).
  set (old := row_of data (round2 amt) ty dt uid).
  assert (Hback : balance a1 + reversal old == balance a).
  { unfold a1, old. cbn [set_balance balance]. rewrite reversal_row_of.
    rewrite (effect_comp ty (round2 amt) amt Hamt).
    rewrite (round2_sum (balance a) (effect ty amt) Hbal
               (two_decimals_effect ty amt Hamt)). ring. }
  rewrite (DELETE_transaction_found session newId
             (created newId data db amt ty dt uid a) uid old a1 Hs).
  - rewrite (fits_comp _ _ Hback), Hfa. cbn [fst snd].
    unfold deleted, created. cbn [transaction category budget bankAccount].
    split; [done|]. split; [by apply delete_insert_id|]. do 2 (split; [done|]).
    intros acc. unfold balance_of. cbn [bankAccount].
    unfold old at 1. cbn [row_of accountId].
    destruct (String.eqb_spec (body_accountId data) acc) as [<-|Hne].
    + rewrite lookup_insert_eq, Ha. cbn [set_balance balance].
      rewrite (round2_proper _ _ Hback). exact Hbal.
    + rewrite !lookup_insert_ne by done. reflexivity.
  - apply findFirst_Some. unfold created. cbn [transaction].
    rewrite lookup_insert_eq. by split.
  - unfold created, old. cbn [bankAccount accountId row_of].
    apply lookup_insert_eq.
Qed.

Lemma create_then_delete_witness :
  let data := Scenario.body 150000 "EXPENSE" "X" "food" in
  let db1 := snd (POST_transactions Scenario.me "t1" data Scenario.db0) in
  transaction (snd (DELETE_transaction Scenario.me "t1" db1)) = ∅
  /\ balance_of (snd (DELETE_transaction Scenario.me "t1" db1)) "X" == 1000000.
Proof.
  intros data db1.
  destruct (create_then_delete Scenario.me "t1" data Scenario.db0)
    as (_ & Ht & _ & _ & Hb).
  - exact db0_decimal.
  - intros amt [= <-]. reflexivity.
  - reflexivity.
  - split; [exact Ht|]. exact (Hb "X"%string).
Defined.

(** With an amount of 10.555 the round trip loses a cent: the create
    leaves 999989.45, the delete reverses the stored 10.56 and leaves
    1000000.01. *)
Example create_then_delete_rounds :
  let data := Scenario.body 10.555 "EXPENSE" "X" "food" in
  let db1 := snd (POST_transactions Scenario.me "t1" data Scenario.db0) in
  balance_of db1 "X" == 999989.45
  /\ fst (DELETE_transaction Scenario.me "t1" db1)
     = Json 200 "Transaction deleted successfully"%string
  /\ balance_of (snd (DELETE_transaction Scenario.me "t1" db1)) "X" == 1000000.01.
Proof. vm_compute. done. Qed.

(** In a store in order, deleting a stored transaction of the user takes
    effect exactly once. When the balance with the reversal fits
    Decimal(12,2), the first request is answered by 200, removes the row
    and writes that balance, rounded to two decimals, to the account of the
    row, which in a store of column values moves it by the reversal; the
    same request again is answered by 404 and changes nothing. When it does
    not fit, the request is answered by 500 and changes nothing. *)
Theorem delete_takes_effect_once session tid db uid old :
  integrity db ->
  session_user session = Some uid ->
  findFirst userId (transaction db) tid uid = Some old ->
  let del := DELETE_transaction session tid db in
  exists a,
    bankAccount db !! accountId old = Some a
    /\ (fits (balance a + reversal old) = true ->
        fst del = Json 200 "Transaction deleted successfully"%string
        /\ transaction (snd del) = delete tid (transaction db)
        /\ bankAccount (snd del)
           = <[accountId old := set_balance (round2 (balance a + reversal old)) a]>
               (bankAccount db)
        /\ (decimal_store db ->
            forall acc,
              balance_of (snd del) acc ==
              balance_of db acc
              + (if String.eqb (accountId old) acc then reversal old else 0))
        /\ DELETE_transaction session tid (snd del)
           = (JsonError 404 "Transaction not found", snd del))
    /\ (fits (balance a + reversal old) = false ->
        del = (JsonError 500 "Internal server error", db)).
Proof.
  intros Hint Hs Hold del. subst del.
  pose proof (proj1 (findFirst_Some _ _ _ _ _) Hold) as [Hlk _].
  destruct (Hint _ _ Hlk) as (_ & (a & Ha & _) & _).
  exists a. split; [exact Ha|].
  rewrite (DELETE_transaction_found session tid db uid old a Hs Hold Ha).
  split; intros Hf; rewrite Hf; [|reflexivity].
  cbn [fst snd]. unfold deleted. cbn [transaction bankAccount].
  do 3 (split; [done|]). split.
  - intros (Hdeca & Hdect & _) acc.
    destruct (Hdeca _ _ Ha) as [_ Hbal]. destruct (Hdect _ _ Hlk) as [_ Hamt].
    rewrite (balance_of_set _ _ _ _ _ _ _
               (category db) (transaction db) (budget db)) by done.
    pose proof (round2_sum (balance a) (reversal old) Hbal
                  (two_decimals_reversal old Hamt)) as Hr.
    unfold balance_of. cbn [bankAccount].
    destruct (String.eqb (accountId old) acc); lra.
  - unfold DELETE_transaction. rewrite Hs. unfold findFirst. cbn [transaction].
    by rewrite lookup_delete_eq.
Qed.

Lemma delete_takes_effect_once_witness :
  let del := DELETE_transaction TwoUsers.them "t9" TwoUsers.db in
  status_of (fst del) = 200%nat
  /\ balance_of (snd del) "Z" == 340
  /\ status_of (fst (DELETE_transaction TwoUsers.them "t9" (snd del))) = 404%nat.
Proof.
  intros del.
  destruct (delete_takes_effect_once TwoUsers.them "t9" TwoUsers.db "user-2"
              TwoUsers.other_expense StoreIntegrity.TwoUsers_integrity
              eq_refl eq_refl) as (a & Ha & Hfits & _).
  injection Ha as <-.
  destruct (Hfits eq_refl) as (Hr & _ & _ & Hb & H404).
  fold del in Hr, Hb, H404. split; [by rewrite Hr|]. split.
  - rewrite (Hb TwoUsers_decimal "Z"%string). vm_compute. reflexivity.
  - by rewrite H404.
Defined.

(** At a balance of 9999999999.99 the reversal of an expense of 40 does not
    fit: the delete is answered by 500 and the row stays. *)
Example delete_overflows :
  let db := set_bankAccount
              (<["Z" := set_balance 9999999999.99 TwoUsers.account_Z]>
                 (bankAccount TwoUsers.db)) TwoUsers.db in
  DELETE_transaction TwoUsers.them "t9" db
  = (JsonError 500 "Internal server error", db).
Proof. vm_compute. reflexivity. Qed.



End LedgerComposition.

(** ** Accounts *)

Module AccountFacts.

Import Decimal DecimalFacts Ledger HandlerFacts LedgerInvariant Footprint.
Local Open Scope Q_scope.

Lemma truthy_not_empty (s : string) : Js.truthy s = true <-> s <> EmptyString.
Proof.
  unfold Js.truthy. rewrite negb_true_iff.
  destruct (String.eqb_spec s EmptyString); split; congruence.
Qed.

(** The account has a transaction exactly when the count of the delete
    handler is positive. *)
Lemma transaction_count_positive (id : string) (db : Store) :
  (0 <? transaction_count_of_account id db)%nat = true
  <-> exists tid t, transaction db !! tid = Some t /\ accountId t = id.
Proof.
  unfold transaction_count_of_account. rewrite Nat.ltb_lt. split.
  - destruct (filter _ _) as [|t l] eqn:E; [cbn; lia|]. intros _.
    assert (Hin : t ∈ filter (fun t => accountId t = id) (rows (transaction db)))
      by (rewrite E; left).
    apply list_elem_of_filter in Hin as [Hacc Hin].
    unfold rows in Hin. apply list_elem_of_fmap in Hin as ([tid t'] & -> & Hin).
    apply elem_of_map_to_list in Hin. by exists tid, t'.
  - intros (tid & t & Ht & Hacc).
    assert (Hin : t ∈ filter (fun t => accountId t = id) (rows (transaction db))).
    { apply list_elem_of_filter. split; [done|].
      unfold rows. apply list_elem_of_fmap. exists (tid, t). split; [done|].
      by apply elem_of_map_to_list. }
    destruct (filter _ _); [by apply elem_of_nil in Hin|cbn; lia].
Qed.

(** The delete of an account of the user is refused with 400, and nothing
    is written, as long as a transaction names the account; otherwise it is
    a soft delete: the row stays, inactive, with its balance, name, type
    and owner, and the other accounts are not touched. *)
Theorem account_delete_is_guarded_and_soft session id db uid old :
  session_user session = Some uid ->
  findFirst acc_userId (bankAccount db) id uid = Some old ->
  ((exists tid t, transaction db !! tid = Some t /\ accountId t = id) ->
   status_of (fst (DELETE_account session id db)) = 400%nat
   /\ snd (DELETE_account session id db) = db)
  /\ ((forall tid t, transaction db !! tid = Some t -> accountId t <> id) ->
      fst (DELETE_account session id db) = Json 200 "Account deleted successfully"%string
      /\ (exists new,
            bankAccount (snd (DELETE_account session id db)) !! id = Some new
            /\ isActive new = false /\ balance new = balance old
            /\ acc_name new = acc_name old /\ acc_type new = acc_type old
            /\ acc_userId new = acc_userId old)
      /\ (forall k, k <> id ->
            bankAccount (snd (DELETE_account session id db)) !! k
            = bankAccount db !! k)
      /\ transaction (snd (DELETE_account session id db)) = transaction db).
Proof.
  intros Hs Hold. unfold DELETE_account. rewrite Hs, Hold. split.
  - intros Hex. apply transaction_count_positive in Hex. by rewrite Hex.
  - intros Hnone.
    assert ((0 <? transaction_count_of_account id db)%nat = false) as ->.
    { destruct (0 <? _)%nat eqn:E; [|done].
      apply transaction_count_positive in E as (tid & t & Ht & Hacc).
      by destruct (Hnone tid t Ht). }
    cbn [fst snd set_bankAccount bankAccount transaction]. split; [done|]. split.
    + eexists. rewrite lookup_insert_eq. split; [done|]. by repeat split.
    + split; [|done]. intros k Hk. by rewrite lookup_insert_ne.
Qed.

Lemma account_delete_is_guarded_and_soft_witness :
  status_of (fst (DELETE_account Scenario.me "X" Scenario.db_spent_900)) = 400%nat
  /\ fst (DELETE_account Scenario.me "Y" Scenario.db_spent_900)
     = Json 200 "Account deleted successfully"%string.
Proof.
  split.
  - destruct (account_delete_is_guarded_and_soft Scenario.me "X"
                Scenario.db_spent_900 "user-1" Scenario.account_X eq_refl eq_refl)
      as [H _].
    apply H. exists "t1"%string, (Scenario.expense 400 3). by split.
  - destruct (account_delete_is_guarded_and_soft Scenario.me "Y"
                Scenario.db_spent_900 "user-1" Scenario.account_Y eq_refl eq_refl)
      as [_ H].
    apply H. intros tid t Ht. cbn in Ht.
    apply lookup_insert_Some in Ht as [[_ <-]|[_ Ht]]; [done|].
    apply lookup_insert_Some in Ht as [[_ <-]|[_ Ht]]; done.
Defined.

(** The create handler of transactions does not look at [isActive]: after
    the soft delete of an account, a request on that account that passes
    the checks is answered by 201 and writes the balance of the inactive
    account, incremented by its effect and rounded to two decimals; when
    the amount or that balance does not fit Decimal(12,2) it is answered by
    500 and writes nothing. *)
Theorem inactive_account_accepts_transactions session id db newId data
    uid amt ty dt :
  session_user session = Some uid ->
  validated uid data db amt ty dt ->
  body_accountId data = id ->
  transaction db !! newId = None ->
  is_error (fst (DELETE_account session id db)) = false ->
  let db1 := snd (DELETE_account session id db) in
  let post := POST_transactions session newId data db1 in
  (fits amt && fits (balance_of db id + effect ty amt) = true ->
   fst post = Json 201 (row_of data (round2 amt) ty dt uid)
   /\ exists a,
        bankAccount (snd post) !! id = Some a
        /\ isActive a = false
        /\ balance a = round2 (balance_of db id + effect ty amt))
  /\ (fits amt && fits (balance_of db id + effect ty amt) = false ->
      post = (JsonError 500 "Internal server error", db1)).
Proof.
  intros Hs Hv Hid Hnew Hok db1 post.
  pose proof (DELETE_account_cases session id db) as H.
  subst post db1. destruct (DELETE_account session id db) as [r db1].
  cbn [fst snd] in *.
  destruct H as [[Herr _]|(uid' & old & new & Hs' & Hold & _ & Ho & Hact & _ & _ & Hbal
                           & _ & ->)]; [congruence|].
  assert (uid' = uid) as -> by congruence.
  apply findFirst_Some in Hold as [Hold Hou].
  assert (Hv1 : validated uid data
                  (set_bankAccount (<[id := new]> (bankAccount db)) db) amt ty dt).
  { destruct Hv as [? ? ? ? ? _ ?]. split; try done.
    rewrite Hid. exists new. apply findFirst_Some. cbn.
    rewrite lookup_insert_eq. split; [done|congruence]. }
  assert (Hnew1 : bankAccount (set_bankAccount (<[id := new]> (bankAccount db)) db)
                    !! body_accountId data = Some new).
  { rewrite Hid. cbn. apply lookup_insert_eq. }
  rewrite (POST_transactions_validated session newId data _ uid amt ty dt new
             Hs Hv1 Hnew Hnew1).
  assert (Hb : balance_of db id = balance new).
  { unfold balance_of. by rewrite Hold, Hbal. }
  rewrite Hb. split; intros ->; [|reflexivity].
  cbn [fst snd]. split; [done|].
  unfold created. cbn [bankAccount set_bankAccount]. rewrite Hid.
  eexists. rewrite lookup_insert_eq. split; [done|]. by split.
Qed.

Lemma inactive_account_accepts_transactions_witness :
  let data := Scenario.body 25 "INCOME" "Y" "salary" in
  let db1 := snd (DELETE_account Scenario.me "Y" Scenario.db0) in
  status_of (fst (POST_transactions Scenario.me "t1" data db1)) = 201%nat
  /\ exists a,
       bankAccount (snd (POST_transactions Scenario.me "t1" data db1)) !! "Y" = Some a
       /\ isActive a = false /\ balance a == 25.
Proof.
  intros data db1.
  destruct (inactive_account_accepts_transactions Scenario.me "Y" Scenario.db0 "t1"
              data "user-1" 25 INCOME 1750000000000)
    as (Hfits & _); try reflexivity.
  - split; try reflexivity; [by eexists|].
    exists Scenario.salary. by split.
  - destruct (Hfits eq_refl) as (Hr & a & Ha & Hact & Hbal).
    fold db1 in Hr, Ha. split; [by rewrite Hr|].
    exists a. split; [exact Ha|]. split; [exact Hact|].
    rewrite Hbal. vm_compute. reflexivity.
Defined.

Lemma includes_validTypes_valid (data : AccountBody) new :
  acc_name new = ab_name data -> acc_type new = ab_type data ->
  negb (Js.truthy (ab_name data)) || negb (Js.truthy (ab_type data)) = false ->
  Js.includes validTypes (ab_type data) = true ->
  valid_account new.
Proof.
  intros Hn Ht Hreq Hinc. apply orb_false_iff in Hreq as [Hname _].
  apply negb_false_iff, truthy_not_empty in Hname.
  split; congruence.
Qed.

Lemma POST_accounts_valid session newId data db new :
  fst (POST_accounts session newId data db) = Json 201 new -> valid_account new.
Proof.
  unfold POST_accounts.
  destruct (session_user session) as [uid|]; [|done].
  destruct (negb _ || negb _) eqn:Hreq; [done|].
  destruct (Js.includes validTypes (ab_type data)) eqn:Hty; cbn [negb]; [|done].
  cbv zeta. destruct (bankAccount db !! newId); [done|].
  destruct (write _); [|done].
  cbn [fst]. intros [= <-]. by eapply includes_validTypes_valid.
Qed.

Lemma PUT_account_valid session id data db new :
  fst (PUT_account session id data db) = Json 200 new -> valid_account new.
Proof.
  unfold PUT_account.
  destruct (session_user session) as [uid|]; [|done].
  destruct (negb _ || negb _) eqn:Hreq; [done|].
  destruct (Js.includes validTypes (ab_type data)) eqn:Hty; cbn [negb]; [|done].
  destruct (findFirst acc_userId (bankAccount db) id uid); [|done].
  destruct (match ab_balance data with Some b => write b | None => _ end); [|done].
  cbn [fst]. intros [= <-]. by eapply includes_validTypes_valid.
Qed.

Lemma BudgetSchema_parse_valid body v period :
  BudgetSchema_parse body = Some (v, period) ->
  v = body /\ bb_name body <> EmptyString /\ 0 < bb_amount body.
Proof.
  unfold BudgetSchema_parse.
  destruct (negb (Js.truthy (bb_name body))) eqn:Hn; [done|].
  destruct (negb (Js.gtb (bb_amount body) 0)) eqn:Ha; [done|].
  destruct (period_of _); [|done]. intros [= <- _].
  apply negb_false_iff in Hn, Ha. apply truthy_not_empty in Hn.
  apply BudgetClaims.gtb_lt in Ha. done.
Qed.

Lemma BudgetUpdateSchema_parse_valid body period old :
  BudgetUpdateSchema_parse body = Some period ->
  valid_budget old -> valid_budget (budget_update_data body period old).
Proof.
  unfold BudgetUpdateSchema_parse, valid_budget, budget_update_data.
  cbn [bud_name bud_amount]. intros Hparse [Hn Ha].
  destruct (bu_name body) as [n|]; cbn [default].
  - destruct (negb (Js.truthy n)) eqn:En; [done|].
    apply negb_false_iff, truthy_not_empty in En.
    destruct (bu_amount body) as [a|]; cbn [default]; [|done].
    destruct (negb (Js.gtb a 0)) eqn:Ea; [done|].
    apply negb_false_iff, BudgetClaims.gtb_lt in Ea.
    split; [done|]. apply round2_nonneg. lra.
  - destruct (bu_amount body) as [a|]; cbn [default]; [|done].
    destruct (negb (Js.gtb a 0)) eqn:Ea; [done|].
    apply negb_false_iff, BudgetClaims.gtb_lt in Ea.
    split; [done|]. apply round2_nonneg. lra.
Qed.

Lemma valid_insert {A} (P : A -> Prop) (m : gmap string A) (k : string) (x : A) :
  (forall id a, m !! id = Some a -> P a) -> P x ->
  forall id a, <[k := x]> m !! id = Some a -> P a.
Proof.
  intros Hm Hx id a Ha.
  apply lookup_insert_Some in Ha as [[_ <-]|[_ Ha]]; [done|by apply (Hm id)].
Qed.

Lemma serve_any_valid_rows req db : valid_rows db -> valid_rows (serve_any req db).
Proof.
  intros [Hacc Hbud].
  destruct req as [[session newId data|session tid data|session tid]
                  |[session id data|session id|session newId body
                   |session id body|session id]
                  |session newId data]; cbn [serve_any serve serve_other].
  - pose proof (POST_transactions_cases session newId data db) as H.
    destruct (POST_transactions session newId data db) as [r db'].
    destruct H as [[_ ->]|(uid & amt & ty & dt & a & _ & _ & _ & Ha & _ & _ & _ & ->)]; [done|].
    split; [|done]. cbn [snd bankAccount created updated deleted].
    apply valid_insert; [done|]. exact (Hacc _ _ Ha).
  - pose proof (PUT_transaction_cases session tid data db) as H.
    destruct (PUT_transaction session tid data db) as [r db'].
    destruct H as [[_ ->]|(uid & old & amt & ty & dt & a & a' & _ & _ & _ & Ha & Ha'
                            & _ & _ & _ & _ & ->)]; [done|].
    split; [|done]. cbn [snd bankAccount created updated deleted].
    assert (Hrev : forall id x,
              <[accountId old := set_balance (round2 (balance a + reversal old)) a]>
                (bankAccount db) !! id = Some x -> valid_account x).
    { apply valid_insert; [done|]. exact (Hacc _ _ Ha). }
    apply valid_insert; [done|]. exact (Hrev _ _ Ha').
  - pose proof (DELETE_transaction_cases session tid db) as H.
    destruct (DELETE_transaction session tid db) as [r db'].
    destruct H as [[_ ->]|(uid & old & a & _ & _ & Ha & _ & _ & ->)]; [done|].
    split; [|done]. cbn [snd bankAccount created updated deleted].
    apply valid_insert; [done|]. exact (Hacc _ _ Ha).
  - pose proof (PUT_account_cases session id data db) as H.
    pose proof (PUT_account_valid session id data db) as Hval.
    destruct (PUT_account session id data db) as [r db'].
    destruct H as [[_ ->]|(uid & old & new & _ & _ & _ & _ & _ & _ & _ & _ & _ & ->
                            & ->)];
      [done|].
    split; [|done]. cbn [snd set_bankAccount bankAccount].
    apply valid_insert; [done|]. by apply Hval.
  - pose proof (DELETE_account_cases session id db) as H.
    destruct (DELETE_account session id db) as [r db'].
    destruct H as [[_ ->]|(uid & old & new & _ & Hold & _ & _ & _ & Hn & Ht & _ & _
                            & ->)]; [done|].
    split; [|done]. cbn [snd set_bankAccount bankAccount].
    apply findFirst_Some in Hold as [Hold _].
    apply valid_insert; [done|].
    destruct (Hacc _ _ Hold) as [H1 H2]. split; congruence.
  - pose proof (POST_budgets_store session newId body db) as H.
    destruct (POST_budgets session newId body db) as [r db'].
    destruct H as [[_ ->]|(uid & period & _ & Hparse & _ & _ & _ & _ & _ & ->)]; [done|].
    split; [done|]. cbn [snd set_budget budget].
    apply valid_insert; [done|].
    apply BudgetSchema_parse_valid in Hparse as (_ & ? & ?).
    split; [done|]. cbn [bud_amount]. apply round2_nonneg. lra.
  - pose proof (PUT_budget_cases session id body db) as H.
    destruct (PUT_budget session id body db) as [r db'].
    destruct H as [[_ ->]|(uid & old & period & _ & Hparse & Hold & _ & _ & _ & ->)];
      [done|].
    split; [done|]. cbn [snd set_budget budget].
    apply findFirst_Some in Hold as [Hold _].
    apply valid_insert; [done|].
    apply BudgetUpdateSchema_parse_valid; [done|]. exact (Hbud _ _ Hold).
  - pose proof (DELETE_budget_cases session id db) as H.
    destruct (DELETE_budget session id db) as [r db'].
    destruct H as [[_ ->]|(uid & old & _ & _ & _ & ->)]; [done|].
    split; [done|]. cbn [snd set_budget budget].
    intros k b Hb. apply lookup_delete_Some in Hb as [_ Hb]. exact (Hbud _ _ Hb).
  - pose proof (POST_accounts_cases session newId data db) as H.
    pose proof (POST_accounts_valid session newId data db) as Hval.
    destruct (POST_accounts session newId data db) as [r db'].
    destruct H as [[_ ->]|(uid & new & _ & _ & _ & _ & _ & _ & _ & _ & _ & -> & ->)];
      [done|].
    split; [|done]. cbn [snd set_bankAccount bankAccount].
    apply valid_insert; [done|]. by apply Hval.
Qed.

(** What the handlers check on the way in stays true of the store as far
    as the columns keep it: after any sequence of requests every account
    has a name and one of the six types, and every budget has a name and an
    amount that is not negative. The amount of a budget can be zero: 0.004
    passes the check of the schema and is stored as 0.00. *)
Theorem rows_stay_valid (reqs : list Request) (db : Store) :
  valid_rows db -> valid_rows (serve_any_all reqs db).
Proof.
  revert db. induction reqs as [|req reqs IH]; intros db Hv; cbn.
  - exact Hv.
  - apply IH. by apply serve_any_valid_rows.
Qed.

Lemma rows_stay_valid_witness :
  valid_rows
    (serve_any_all
       [ CreateAccount Scenario.me "W" (mkAccountBody "New" "LOAN" None "USD" None);
         OnOther (UpdateAccount Scenario.me "W"
                    (mkAccountBody "New" "MORTGAGE" None "USD" None));
         OnOther (UpdateBudget Scenario.me "b1"
                    (mkBudgetUpdateBody None (Some (-5)) None None None None));
         OnOther (UpdateBudget Scenario.me "b2"
                    (mkBudgetUpdateBody None (Some 0.004) None None None None)) ]
       Scenario.db_spent_900).
Proof.
  apply rows_stay_valid. split.
  - intros id a Ha. cbn in Ha.
    apply lookup_insert_Some in Ha as [[_ <-]|[_ Ha]]; [done|].
    apply lookup_insert_Some in Ha as [[_ <-]|[_ Ha]]; done.
  - intros id b Hb. cbn in Hb.
    apply lookup_insert_Some in Hb as [[_ <-]|[_ Hb]]; [done|].
    apply lookup_insert_Some in Hb as [[_ <-]|[_ Hb]]; done.
Defined.

(** A budget amount of 0.004 passes the schema and is stored as 0. *)
Example budget_amount_stored_as_zero :
  let put := PUT_budget Scenario.me "b2"
               (mkBudgetUpdateBody None (Some 0.004) None None None None)
               Scenario.db_spent_900 in
  status_of (fst put) = 200%nat
  /\ exists b, budget (snd put) !! "b2" = Some b /\ bud_amount b == 0.
Proof.
  split; [vm_compute; reflexivity|].
  eexists. split; [vm_compute; reflexivity|]. vm_compute. reflexivity.
Qed.

Lemma serve_any_decimal req db : decimal_store db -> decimal_store (serve_any req db).
Proof.
  intros Hdec.
  destruct req as [req
                  |[session id data|session id|session newId body
                   |session id body|session id]
                  |session newId data]; cbn [serve_any serve_other].
  - by apply serve_decimal.
  - destruct Hdec as (Ha & Ht & Hb).
    pose proof (PUT_account_cases session id data db) as H.
    destruct (PUT_account session id data db) as [r db'].
    destruct H as [[_ ->]|(uid & old & new & _ & Hold & _ & _ & _ & _ & _ & Hf & Hbal
                            & _ & ->)]; [done|].
    apply findFirst_Some in Hold as [Hold _].
    split; [|done]. cbn [snd set_bankAccount bankAccount].
    apply valid_insert; [done|]. rewrite Hbal.
    destruct (ab_balance data) as [b|]; [|by eapply Ha].
    apply value_round2. by apply Hf.
  - destruct Hdec as (Ha & Ht & Hb).
    pose proof (DELETE_account_cases session id db) as H.
    destruct (DELETE_account session id db) as [r db'].
    destruct H as [[_ ->]|(uid & old & new & _ & Hold & _ & _ & _ & _ & _ & Hbal & _
                            & ->)]; [done|].
    apply findFirst_Some in Hold as [Hold _].
    split; [|done]. cbn [snd set_bankAccount bankAccount].
    apply valid_insert; [done|]. rewrite Hbal. by eapply Ha.
  - destruct Hdec as (Ha & Ht & Hb).
    pose proof (POST_budgets_store session newId body db) as H.
    destruct (POST_budgets session newId body db) as [r db'].
    destruct H as [[_ ->]|(uid & period & _ & _ & _ & _ & _ & Hf & _ & ->)]; [done|].
    split; [done|]. split; [done|]. cbn [snd set_budget budget].
    apply valid_insert; [done|]. cbn [bud_amount]. by apply value_round2.
  - destruct Hdec as (Ha & Ht & Hb).
    pose proof (PUT_budget_cases session id body db) as H.
    destruct (PUT_budget session id body db) as [r db'].
    destruct H as [[_ ->]|(uid & old & period & _ & _ & Hold & _ & Hf & _ & ->)];
      [done|].
    apply findFirst_Some in Hold as [Hold _].
    split; [done|]. split; [done|]. cbn [snd set_budget budget].
    apply valid_insert; [done|]. unfold budget_update_data. cbn [bud_amount].
    destruct (bu_amount body) as [x|]; [|by eapply Hb].
    apply value_round2. by apply Hf.
  - destruct Hdec as (Ha & Ht & Hb).
    pose proof (DELETE_budget_cases session id db) as H.
    destruct (DELETE_budget session id db) as [r db'].
    destruct H as [[_ ->]|(uid & old & _ & _ & _ & ->)]; [done|].
    split; [done|]. split; [done|]. cbn [snd set_budget budget].
    intros k b Hk. apply lookup_delete_Some in Hk as [_ Hk]. by eapply Hb.
  - destruct Hdec as (Ha & Ht & Hb).
    pose proof (POST_accounts_cases session newId data db) as H.
    destruct (POST_accounts session newId data db) as [r db'].
    destruct H as [[_ ->]|(uid & new & _ & _ & _ & _ & _ & _ & _ & Hf & Hbal & _ & ->)];
      [done|].
    split; [|done]. cbn [snd set_bankAccount bankAccount].
    apply valid_insert; [done|]. rewrite Hbal. by apply value_round2.
Qed.

(** Every stored balance and amount is a value of its Decimal(12,2) column
    after any sequence of requests on accounts, transactions and budgets,
    when it is before: it has at most two decimals and is below 10^10 in
    absolute value. *)
Theorem stored_values_fit_their_columns (reqs : list Request) (db : Store) :
  decimal_store db -> decimal_store (serve_any_all reqs db).
Proof.
  revert db. induction reqs as [|req reqs IH]; intros db Hv; cbn.
  - exact Hv.
  - apply IH. by apply serve_any_decimal.
Qed.

Lemma stored_values_fit_their_columns_witness :
  let db := serve_any_all
              [ OnLedger (CreateTransaction Scenario.me "t1"
                            (Scenario.body 10.555 "EXPENSE" "X" "food"));
                OnOther (UpdateAccount Scenario.me "Y" Scenario.set_balance_fraction);
                CreateAccount Scenario.me "W"
                  (mkAccountBody "New" "LOAN" (Some 0.125) "USD" None) ]
              Scenario.db0 in
  decimal_store db
  /\ balance_of db "X" == 999989.45
  /\ balance_of db "Y" == 5.56
  /\ balance_of db "W" == 0.13.
Proof.
  intros db. split.
  - apply stored_values_fit_their_columns. exact db0_decimal.
  - vm_compute. done.
Defined.

End AccountFacts.

(** ** Budget evaluation *)

Module EvaluationFacts.

Import Decimal HandlerFacts BudgetClaims.
Local Open Scope Q_scope.

(** The [where] clause of the transactions of a budget, condition by
    condition. *)
Lemma whereTransactions_spec (uid : string) (b : Budget) (t : Transaction) :
  whereTransactions uid b t = true
  <-> userId t = uid
      /\ type t = EXPENSE
      /\ (startDate b <= date t <= endDate b)%Z
      /\ (forall cid, bud_categoryId b = Some cid -> cid <> EmptyString ->
            categoryId t = cid).
Proof.
  unfold whereTransactions.
  rewrite !andb_true_iff, String.eqb_eq, !Z.leb_le.
  assert (Hty : is_EXPENSE (type t) = true <-> type t = EXPENSE)
    by (by destruct (type t)).
  assert (Hcat : match categoryId_or_null (bud_categoryId b) with
                 | Some cid => String.eqb (categoryId t) cid
                 | None => true
                 end = true
                 <-> (forall cid, bud_categoryId b = Some cid -> cid <> EmptyString ->
                        categoryId t = cid)).
  { unfold categoryId_or_null, or_null, Js.truthy.
    destruct (bud_categoryId b) as [cid|]; [|by split].
    destruct (String.eqb_spec cid EmptyString) as [->|Hne]; cbn [negb].
    - split; [|done]. by intros _ cid [= <-] ?.
    - rewrite String.eqb_eq. split.
      + by intros -> cid' [= <-] _.
      + intros H. by apply H. }
  rewrite Hty, Hcat. tauto.
Qed.

Lemma filter_rows_insert {A} (p : A -> bool) (t : gmap string A) (k : string)
    (x : A) :
  t !! k = None ->
  List.filter p (rows (<[k := x]> t))
  ≡ₚ (if p x then [x] else []) ++ List.filter p (rows t).
Proof.
  intros Hk.
  assert (Hp : rows (<[k := x]> t) ≡ₚ x :: rows t).
  { unfold rows. by rewrite map_to_list_insert. }
  assert (Hfilter : forall l l' : list A, l ≡ₚ l' -> List.filter p l ≡ₚ List.filter p l').
  { induction 1 as [|y l l' _ IH|y z l|l l' l'' _ IH1 _ IH2]; cbn [List.filter].
    - done.
    - destruct (p y); by rewrite IH.
    - destruct (p y), (p z); (done || apply perm_swap).
    - by rewrite IH1. }
  rewrite (Hfilter _ _ Hp). cbn [List.filter]. by destruct (p x).
Qed.

(** The transactions of a budget after a create request that is not
    answered by an error. The three views query them with one [where]
    clause; the created row is among them exactly when it is a row of the
    user of the evaluation, of type EXPENSE, dated within the window of the
    budget, both ends included, and of the category of the budget when the
    budget has one. The other transactions of the budget are those of
    before, and the detail view lists them all. *)
Theorem budget_sees_created_transaction session newId data db uid b :
  is_error (fst (POST_transactions session newId data db)) = false ->
  let db' := snd (POST_transactions session newId data db) in
  let query (db : Store) :=
    List.filter (whereTransactions uid b) (rows (transaction db)) in
  exists row,
    fst (POST_transactions session newId data db) = Json 201 row
    /\ transaction db' !! newId = Some row
    /\ (In row (query db')
        <-> userId row = uid
            /\ type row = EXPENSE
            /\ (startDate b <= date row <= endDate b)%Z
            /\ (forall cid, bud_categoryId b = Some cid -> cid <> EmptyString ->
                  categoryId row = cid))
    /\ (In row (query db') -> query db' ≡ₚ row :: query db)
    /\ (~ In row (query db') -> query db' ≡ₚ query db)
    /\ (forall session' id,
          session_user session' = Some uid ->
          findFirst bud_userId (budget db') id uid = Some b ->
          exists e txs,
            GET_budget session' id db' = Json 200 (e, txs) /\ txs ≡ₚ query db').
Proof.
  intros Hok db' query. subst db'.
  pose proof (POST_transactions_cases session newId data db) as H.
  destruct (POST_transactions session newId data db) as [r db'].
  cbn [fst snd] in *.
  destruct H as [[Herr _]|(u & amt & ty & dt & a & _ & Hv & Hnew & _ & _ & _ & -> & ->)];
    [congruence|].
  set (row := row_of data (round2 amt) ty dt u).
  exists row. split; [done|].
  assert (Hstored : transaction (created newId data db amt ty dt u a) !! newId
                    = Some row) by apply lookup_insert_eq.
  split; [exact Hstored|].
  assert (Hin : In row (query (created newId data db amt ty dt u a))
                <-> whereTransactions uid b row = true).
  { unfold query. rewrite filter_In. split; [by intros [_ ?]|].
    intros Hw. split; [|done]. by apply (rows_lookup _ newId). }
  assert (Hperm : query (created newId data db amt ty dt u a)
                  ≡ₚ (if whereTransactions uid b row then [row] else []) ++ query db).
  { unfold query, created. cbn [transaction]. by apply filter_rows_insert. }
  split; [by rewrite Hin, whereTransactions_spec|]. split; [|split].
  - intros Hw%Hin. by rewrite Hw in Hperm.
  - intros Hw. destruct (whereTransactions uid b row) eqn:E; [|done].
    destruct Hw. by apply Hin.
  - intros session' id Hs Hb. unfold GET_budget. rewrite Hs, Hb. cbv zeta.
    eexists _, _. split; [reflexivity|]. apply merge_sort_Permutation.
Qed.

(** An expense of 150 on day 20 is among the transactions of the budget of
    June, and not among those of the budget of July. *)
Lemma budget_sees_created_transaction_witness :
  let data := mkTransactionBody (Some 150) "EXPENSE" EmptyString EmptyString
                (Some 20%Z) "X" "food" in
  let db' := snd (POST_transactions Scenario.me "t3" data Scenario.db_spent_900) in
  (exists row,
     transaction db' !! "t3" = Some row
     /\ In row (List.filter (whereTransactions "user-1" Scenario.budget_june)
                  (rows (transaction db')))
     /\ ~ In row (List.filter (whereTransactions "user-1" Scenario.budget_july)
                    (rows (transaction db'))))
  /\ length (List.filter (whereTransactions "user-1" Scenario.budget_june)
               (rows (transaction db'))) = 3%nat.
Proof.
  intros data db'.
  destruct (budget_sees_created_transaction Scenario.me "t3" data
              Scenario.db_spent_900 "user-1" Scenario.budget_june eq_refl)
    as (row & Hr & Hrow & Hin & Hperm & _).
  destruct (budget_sees_created_transaction Scenario.me "t3" data
              Scenario.db_spent_900 "user-1" Scenario.budget_july eq_refl)
    as (row' & Hr' & _ & Hin' & _).
  assert (row' = row) as -> by congruence.
  fold db' in Hrow, Hin, Hin', Hperm.
  assert (Hrow2 : row = row_of data (round2 150) EXPENSE 20 "user-1").
  { revert Hr. vm_compute. by intros [= <-]. }
  assert (Hjune : In row (List.filter (whereTransactions "user-1" Scenario.budget_june)
                            (rows (transaction db')))).
  { apply (proj2 Hin). rewrite Hrow2. cbn. repeat split; try done; lia. }
  split.
  - exists row. split; [exact Hrow|]. split; [exact Hjune|].
    intros H. destruct (proj1 Hin' H) as (_ & _ & Hw & _). rewrite Hrow2 in Hw.
    cbn in Hw. lia.
  - rewrite (Permutation_length (Hperm Hjune)). reflexivity.
Defined.

End EvaluationFacts.

(** ** The budget handlers *)

Module BudgetFacts.

Import HandlerFacts Footprint BudgetClaims.
Local Open Scope Q_scope.

(** The scenario store keeps June and July apart. *)
Lemma scenario_no_overlap : no_overlap Scenario.db_spent_900.
Proof.
  intros i j b1 b2 Hij Hi Hj _ [H1 H2]. cbn in Hi, Hj.
  apply lookup_insert_Some in Hi as [[<- <-]|[Hni Hi]];
    apply lookup_insert_Some in Hj as [[<- <-]|[Hnj Hj]]; try done.
  - apply lookup_insert_Some in Hj as [[<- <-]|[_ Hj]]; [cbn in *; lia|done].
  - apply lookup_insert_Some in Hi as [[<- <-]|[_ Hi]]; [cbn in *; lia|done].
  - apply lookup_insert_Some in Hi as [[<- <-]|[_ Hi]]; [|done].
    apply lookup_insert_Some in Hj as [[<- <-]|[_ Hj]]; done.
Qed.

(** A budget for August next to June and July. *)
Lemma POST_budgets_no_overlap_witness :
  let body := mkBudgetBody "August" 700 "MONTHLY" None 62 92 in
  no_overlap Scenario.db_spent_900
  /\ status_of (fst (POST_budgets Scenario.me "b3" body Scenario.db_spent_900))
     = 201%nat
  /\ no_overlap (snd (POST_budgets Scenario.me "b3" body Scenario.db_spent_900)).
Proof.
  intros body. split; [exact scenario_no_overlap|]. split; [reflexivity|].
  apply POST_budgets_no_overlap. exact scenario_no_overlap.
Defined.

(** A budget that starts on the last day of June. *)
Lemma POST_budgets_rejects_overlap_witness :
  let body := mkBudgetBody "Late June" 700 "MONTHLY" None 30 40 in
  POST_budgets Scenario.me "b3" body Scenario.db_spent_900
  = (JsonError 400 "Budget untuk periode dan kategori ini sudah ada",
     Scenario.db_spent_900).
Proof.
  intros body.
  apply (POST_budgets_rejects_overlap Scenario.me "user-1" "b3" body
           Scenario.db_spent_900 "b1" Scenario.budget_june).
  - reflexivity.
  - by eexists.
  - intros cid Hcid. discriminate Hcid.
  - reflexivity.
  - reflexivity.
  - reflexivity.
  - cbn. lia.
Defined.




End BudgetFacts.

(** ** The budget summary *)

Module SummaryFacts.

Import HandlerFacts BudgetClaims.
Local Open Scope Q_scope.

Lemma fold_left_counts (l : list BudgetWithSpending) (acc : BudgetStatus -> nat)
    (st : BudgetStatus) :
  fold_left
    (fun (acc : BudgetStatus -> nat) b =>
       fun st => if status_eqb st (status b) then S (acc st) else acc st) l acc st
  = (acc st + length (List.filter (fun b => status_eqb st (status b)) l))%nat.
Proof.
  revert acc. induction l as [|b l IH]; intros acc; cbn [fold_left List.filter].
  - cbn. lia.
  - rewrite IH. destruct (status_eqb st (status b)); cbn [length]; lia.
Qed.

Lemma counts_partition (l : list BudgetWithSpending) :
  (length (List.filter (fun b => status_eqb good (status b)) l)
   + length (List.filter (fun b => status_eqb warning (status b)) l)
   + length (List.filter (fun b => status_eqb overbudget (status b)) l))%nat
  = length l.
Proof.
  induction l as [|b l IH]; [done|]. cbn [List.filter].
  destruct (status b); cbn [status_eqb length] in *; lia.
Qed.


Lemma rows_In {A} (t : gmap string A) (r : A) :
  In r (rows t) -> exists id, t !! id = Some r.
Proof.
  intros Hr. unfold rows in Hr.
  apply list_elem_of_In, list_elem_of_fmap in Hr as ([id r'] & -> & Hr).
  apply elem_of_map_to_list in Hr. by exists id.
Qed.

(** The overview of the summary is consistent with the budgets it lists.
    The list holds the evaluations of the budgets of the user that have the
    period asked for and are active at the time of the request, and of no
    other. The number of budgets is the length of the list; the counts by
    status are the numbers of budgets of each status and add up to that
    length; the two totals are the binary64 sums of the amounts and of the
    spending over the list, from left to right; the total remaining is
    their difference, the percentage is theirs, rounded to two decimals;
    and the recommendations are those of the list and the totals. *)
Theorem summary_overview_is_consistent session period now db ov bs recs :
  GET_budgets_summary session period now db = Json 200 (ov, bs, recs) ->
  totalBudgets ov = length bs
  /\ (forall st, budgetsByStatus ov st
                 = length (List.filter (fun b => status_eqb st (status b)) bs))
  /\ (budgetsByStatus ov good + budgetsByStatus ov warning
      + budgetsByStatus ov overbudget)%nat = length bs
  /\ totalBudgetAmount ov
     = fold_left (fun sum b => (sum + bws_amount b)%float) bs 0%float
  /\ ov_totalSpent ov
     = fold_left (fun sum b => (sum + totalSpent b)%float) bs 0%float
  /\ totalRemaining ov = (totalBudgetAmount ov - ov_totalSpent ov)%float
  /\ overallPercentageUsed ov
     = (Js.Math_round
          (overallPercentage (ov_totalSpent ov) (totalBudgetAmount ov) * 100)
        / 100)%float
  /\ recs = generateRecommendations bs (ov_totalSpent ov) (totalBudgetAmount ov)
  /\ (exists uid,
        session_user session = Some uid
        /\ (forall e, In e bs ->
              e = summary_GET_spending uid db (bws_budget e)
              /\ bud_userId (bws_budget e) = uid
              /\ bud_period (bws_budget e) = period
              /\ (startDate (bws_budget e) <= now <= endDate (bws_budget e))%Z
              /\ exists id, budget db !! id = Some (bws_budget e))
        /\ (forall id b,
              budget db !! id = Some b ->
              bud_userId b = uid -> bud_period b = period ->
              (startDate b <= now <= endDate b)%Z ->
              In (summary_GET_spending uid db b) bs)).
Proof.
  unfold GET_budgets_summary.
  destruct (session_user session) as [uid|]; [|done].
  cbv zeta. intros [= <- <- <-].
  cbn [totalBudgets budgetsByStatus totalBudgetAmount ov_totalSpent totalRemaining
       overallPercentageUsed].
  set (active := List.filter _ (rows (budget db))).
  split; [by rewrite length_map|].
  assert (Hcount : forall st,
    fold_left
      (fun (acc : BudgetStatus -> nat) b =>
         fun st => if status_eqb st (status b) then S (acc st) else acc st)
      (List.map (summary_GET_spending uid db) active) (fun _ => 0%nat) st
    = length (List.filter (fun b => status_eqb st (status b))
                (List.map (summary_GET_spending uid db) active))).
  { intros st. by rewrite fold_left_counts. }
  split; [exact Hcount|]. split; [rewrite !Hcount; apply counts_partition|].
  do 5 (split; [reflexivity|]).
  exists uid. split; [done|]. split.
  - intros e He. apply in_map_iff in He as (b & <- & Hb).
    subst active. apply filter_In in Hb as [Hb Hp].
    cbn [summary_GET_spending bws_budget].
    apply andb_true_iff in Hp as [Hp Hend].
    apply andb_true_iff in Hp as [Hp Hstart].
    apply andb_true_iff in Hp as [Hu Hper].
    apply String.eqb_eq in Hu. apply Z.leb_le in Hstart, Hend.
    split; [done|]. split; [done|]. split; [by destruct (bud_period b), period|].
    split; [lia|]. by apply rows_In.
  - intros id b Hb Hu Hp Hnow. apply in_map. subst active. apply filter_In.
    split; [by apply (rows_lookup _ id)|].
    rewrite !andb_true_iff, String.eqb_eq, !Z.leb_le.
    repeat split; [done| |lia|lia]. subst period. by destruct (bud_period b).
Qed.

Lemma summary_overview_is_consistent_witness :
  exists ov bs recs,
    GET_budgets_summary Scenario.me MONTHLY 10 Scenario.db_spent_900
    = Json 200 (ov, bs, recs)
    /\ totalBudgets ov = 1%nat /\ budgetsByStatus ov good = 1%nat
    /\ totalRemaining ov = 100%float.
Proof.
  destruct (GET_budgets_summary Scenario.me MONTHLY 10 Scenario.db_spent_900)
    as [s [[ov bs] recs]|] eqn:E; [|vm_compute in E; discriminate E].
  assert (s = 200%nat) as -> by (vm_compute in E; by injection E).
  exists ov, bs, recs. split; [done|].
  destruct (summary_overview_is_consistent _ _ _ _ _ _ _ E)
    as (Hn & Hc & _ & Hamt & Hspent & Hrem & _).
  assert (Hbs : bs = [summary_GET_spending "user-1" Scenario.db_spent_900
                        Scenario.budget_june]).
  { unfold GET_budgets_summary in E. cbn [session_user Scenario.me] in E.
    vm_compute in E. injection E as _ <- _. vm_compute. reflexivity. }
  split; [by rewrite Hn, Hbs|]. split; [by rewrite Hc, Hbs|].
  rewrite Hrem, Hamt, Hspent, Hbs. vm_compute. reflexivity.
Defined.

(** The totals are sums in binary64: budgets of 0.1 and 0.2 add up to
    0.30000000000000004. *)
Example summary_totals_in_binary64 :
  let db := mkStore ∅ ∅ ∅
              (<["b1" := mkBudget "A" 0.1 MONTHLY (Some "food"%string) 1 30 "user-1"]>
                 (<["b2" := mkBudget "B" 0.2 MONTHLY (Some "fun"%string) 1 30
                              "user-1"]> ∅)) in
  exists ov bs recs,
    GET_budgets_summary Scenario.me MONTHLY 10 db = Json 200 (ov, bs, recs)
    /\ totalBudgets ov = 2%nat
    /\ totalBudgetAmount ov = (0.1 + 0.2)%float
    /\ totalBudgetAmount ov <> 0.3%float.
Proof.
  eexists _, _, _. split; [vm_compute; reflexivity|].
  split; [reflexivity|]. split; [vm_compute; reflexivity|].
  vm_compute. discriminate.
Qed.



(** The period of the request: absent, it is MONTHLY; outside the
    enumeration, the query throws and the answer is 500. *)
Example summary_period_parameter :
  GET_budgets_summary_of_param Scenario.me EmptyString 10 Scenario.db_spent_900
  = GET_budgets_summary Scenario.me MONTHLY 10 Scenario.db_spent_900
  /\ GET_budgets_summary_of_param Scenario.me "DAILY" 10 Scenario.db_spent_900
     = JsonError 500 "Internal server error".
Proof. split; reflexivity. Qed.

End SummaryFacts.

(** ** Listing transactions *)

Module ListingFacts.

Import HandlerFacts SummaryFacts.

#[local] Instance date_desc_trans : Transitive date_desc.
Proof. intros x y z. unfold date_desc. lia. Qed.

#[local] Instance date_desc_total : Total date_desc.
Proof. intros x y. unfold date_desc. lia. Qed.






(** A [type] parameter that is none of INCOME, EXPENSE and TRANSFER does
    not filter: the response is that of the request without the parameter. *)
Theorem unknown_type_filter_is_ignored session q db :
  transaction_type_of (q_type q) = None ->
  GET_transactions session q db
  = GET_transactions session
      (mkTransactionQuery EmptyString (q_categoryId q) (q_accountId q)
         (q_startDate q) (q_endDate q) (q_page q) (q_limit q)) db.
Proof.
  intros Hty. unfold GET_transactions.
  destruct (session_user session) as [uid|]; [|done].
  assert (Hw : forall t,
    transactions_where uid q t
    = transactions_where uid
        (mkTransactionQuery EmptyString (q_categoryId q) (q_accountId q)
           (q_startDate q) (q_endDate q) (q_page q) (q_limit q)) t).
  { intros t. unfold transactions_where.
    cbn [q_type q_categoryId q_accountId q_startDate q_endDate].
    rewrite Hty. by destruct (Js.truthy (q_type q) && _). }
  cbv zeta. cbn [q_page q_limit].
  assert (Hf : List.filter (transactions_where uid q) (rows (transaction db))
               = List.filter
                   (transactions_where uid
                      (mkTransactionQuery EmptyString (q_categoryId q) (q_accountId q)
                         (q_startDate q) (q_endDate q) (q_page q) (q_limit q)))
                   (rows (transaction db))).
  { apply filter_ext. exact Hw. }
  by rewrite Hf.
Qed.

Lemma unknown_type_filter_is_ignored_witness :
  GET_transactions Scenario.me
    (mkTransactionQuery "income" EmptyString EmptyString None None 1 10)
    Scenario.db_spent_900
  = GET_transactions Scenario.me
      (mkTransactionQuery EmptyString EmptyString EmptyString None None 1 10)
      Scenario.db_spent_900.
Proof.
  apply (unknown_type_filter_is_ignored Scenario.me
           (mkTransactionQuery "income" EmptyString EmptyString None None 1 10)).
  reflexivity.
Defined.

End ListingFacts.

(** ** Listing budgets *)

Module BudgetListFacts.

Import HandlerFacts SummaryFacts.

(** The list of budgets holds, for each budget of the user that passes the
    filters, its evaluation, and nothing else. The [status] parameter
    filters only for the values active (the window contains the time of
    the request) and completed (the window has ended); any other value,
    overbudget included, lets every budget through. *)
Theorem budgets_list createdAt session q now db bs :
  GET_budgets createdAt session q now db = Json 200 bs ->
  exists uid,
    session_user session = Some uid
    /\ (forall e, In e bs <->
          exists id b,
            budget db !! id = Some b
            /\ e = budgets_GET_spending uid db b
            /\ bud_userId b = uid
            /\ (Js.truthy (bq_period q) = true ->
                period_of (bq_period q) = Some (bud_period b))
            /\ (Js.truthy (bq_categoryId q) = true ->
                bud_categoryId b = Some (bq_categoryId q))
            /\ (bq_status q = "active"%string ->
                (startDate b <= now <= endDate b)%Z)
            /\ (bq_status q = "completed"%string -> (endDate b < now)%Z))
    /\ length bs <= size (budget db).
Proof.
  unfold GET_budgets.
  destruct (session_user session) as [uid|]; [|done].
  destruct (if Js.truthy (bq_period q) then _ else _) as [period|] eqn:Hp; [|done].
  cbv zeta. intros [= <-]. exists uid. split; [done|]. split.
  - intros e. rewrite in_map_iff. split.
    + intros ([id b] & <- & Hin). cbn [snd].
      apply list_elem_of_In in Hin. rewrite merge_sort_Permutation in Hin.
      apply list_elem_of_In, filter_In in Hin as [Hin Hw]. cbn [snd] in Hw.
      apply list_elem_of_In, elem_of_map_to_list in Hin.
      exists id, b. split; [done|]. split; [done|].
      unfold budgets_where in Hw.
      apply andb_true_iff in Hw as [Hw Hst].
      apply andb_true_iff in Hw as [Hw Hcat].
      apply andb_true_iff in Hw as [Hu Hper].
      apply String.eqb_eq in Hu. split; [done|]. split; [|split; [|split]].
      * intros Ht. rewrite Ht in Hp.
        destruct (period_of (bq_period q)) as [p|]; [|done].
        injection Hp as <-. f_equal. by destruct (bud_period b), p.
      * intros Ht. rewrite Ht in Hcat. by apply BudgetClaims.option_string_eqb_eq.
      * intros Hs. rewrite Hs in Hst. cbn in Hst.
        apply andb_true_iff in Hst as [H1 H2]. apply Z.leb_le in H1, H2. lia.
      * intros Hs. rewrite Hs in Hst. cbn in Hst. by apply Z.ltb_lt.
    + intros (id & b & Hb & -> & Hu & Hper & Hcat & Hact & Hcomp).
      exists (id, b). split; [done|].
      apply list_elem_of_In. rewrite merge_sort_Permutation.
      apply list_elem_of_In, filter_In. split.
      { by apply list_elem_of_In, elem_of_map_to_list. }
      cbn [snd]. unfold budgets_where.
      rewrite (proj2 (String.eqb_eq _ _) Hu). cbn [andb].
      apply andb_true_iff. split; [apply andb_true_iff; split|].
      * destruct (Js.truthy (bq_period q)); [|by injection Hp as <-].
        rewrite (Hper eq_refl) in Hp. injection Hp as <-.
        by destruct (bud_period b).
      * destruct (Js.truthy (bq_categoryId q)); [|done].
        by apply BudgetClaims.option_string_eqb_eq, Hcat.
      * destruct (String.eqb_spec (bq_status q) "active") as [Hs|_].
        { specialize (Hact Hs). apply andb_true_iff.
          split; apply Z.leb_le; lia. }
        destruct (String.eqb_spec (bq_status q) "completed") as [Hs|_]; [|done].
        apply Z.ltb_lt. by apply Hcomp.
  - rewrite length_map, merge_sort_Permutation.
    rewrite <- length_map_to_list.
    induction (map_to_list (budget db)) as [|r l IH]; [done|].
    cbn. destruct (budgets_where _ _ _ _ _); cbn; lia.
Qed.

Lemma budgets_list_witness :
  exists bs,
    GET_budgets (fun _ => 0%Z) Scenario.me
      (mkBudgetQuery EmptyString EmptyString "overbudget") 10 Scenario.db_spent_900
    = Json 200 bs
    /\ In (budgets_GET_spending "user-1" Scenario.db_spent_900 Scenario.budget_june) bs
    /\ status (budgets_GET_spending "user-1" Scenario.db_spent_900
                 Scenario.budget_june) = good.
Proof.
  destruct (GET_budgets (fun _ => 0%Z) Scenario.me
              (mkBudgetQuery EmptyString EmptyString "overbudget") 10
              Scenario.db_spent_900) as [s bs|] eqn:E;
    [|vm_compute in E; discriminate E].
  assert (s = 200) as -> by (vm_compute in E; by injection E).
  exists bs. split; [done|].
  destruct (budgets_list _ _ _ _ _ _ E) as (uid & Hs & Hin & _).
  injection Hs as <-. split; [|vm_compute; reflexivity].
  apply Hin. exists "b1"%string, Scenario.budget_june.
  split; [reflexivity|]. split; [reflexivity|]. split; [reflexivity|].
  split; [intros H; discriminate H|]. split; [intros H; discriminate H|].
  split; intros H; discriminate H.
Defined.

End BudgetListFacts.

(** ** The dashboard *)

Module DashboardFacts.

Import Decimal DecimalFacts Ledger LedgerFacts HandlerFacts LedgerInvariant.
Local Open Scope Q_scope.

Lemma toNumber_or_0_sum {A} (f : A -> Q) (l : list A) :
  toNumber_or_0 (aggregate_sum f l) == Qsum (f <$> l).
Proof.
  destruct l as [|x l]; [reflexivity|].
  unfold aggregate_sum, toNumber_or_0, Js.truthy_num.
  destruct (Qeq_bool _ 0) eqn:E; cbn [negb]; [|reflexivity].
  apply Qeq_bool_iff in E. by rewrite E.
Qed.

Lemma Qsum_filter {A} (p : A -> bool) (f : A -> Q) (l : list A) :
  Qsum (f <$> List.filter p l) == Qsum ((fun x => if p x then f x else 0) <$> l).
Proof.
  induction l as [|x l IH]; [reflexivity|].
  cbn [List.filter fmap list_fmap Qsum foldr].
  destruct (p x); cbn [fmap list_fmap Qsum foldr];
    change (foldr Qplus 0) with Qsum; rewrite IH; [reflexivity|ring].
Qed.

(** An aggregate over the rows of a table that pass a filter, as a sum
    over the table. *)
Lemma aggregate_as_sum {A} (p : A -> bool) (f : A -> Q) (t : gmap string A) :
  toNumber_or_0 (aggregate_sum f (List.filter p (rows t)))
  == sum_rows (fun x => if p x then f x else 0) t.
Proof. rewrite toNumber_or_0_sum. apply Qsum_filter. Qed.

Lemma length_filter_Permutation {A} (p : A -> bool) (l l' : list A) :
  l ≡ₚ l' -> length (List.filter p l) = length (List.filter p l').
Proof.
  induction 1 as [|x l l' _ IH|x y l|l l' l'' _ IH1 _ IH2]; cbn [List.filter].
  - done.
  - destruct (p x); cbn [length]; lia.
  - destruct (p x), (p y); reflexivity.
  - lia.
Qed.

Lemma count_insert_None {A} (p : A -> bool) (t : gmap string A) (id : string) (r : A) :
  t !! id = None ->
  length (List.filter p (rows (<[id := r]> t)))
  = ((if p r then 1 else 0) + length (List.filter p (rows t)))%nat.
Proof.
  intros Hid. unfold rows.
  rewrite (length_filter_Permutation p _ (((id, r) :: map_to_list t).*2)).
  - cbn [fmap list_fmap snd List.filter]. destruct (p r); reflexivity.
  - apply fmap_Permutation. by apply map_to_list_insert.
Qed.

(** What a created transaction does to the dashboard of its user, asked
    for the same period at the same instant. The totals of the period see
    it only if its date lies from the start date up to, but not at, the
    end date (24 hours after the instant): then an INCOME adds its stored
    amount to the total income, an EXPENSE to the total expense, a TRANSFER
    to neither, and the count grows by one whatever the type. The total
    balance moves by what the create did to the balance of the account,
    whatever the date, but only if that account is active: the new balance
    is the old one with the effect of the requested amount, rounded to two
    decimals, and when the old balance and the requested amount have at
    most two decimals the total balance moves by the effect of the stored
    amount. *)
Theorem dashboard_after_create week year month session newId data db row db'
    period now s s' :
  POST_transactions session newId data db = (Json 201 row, db') ->
  GET_dashboard_summary week year month session period now db = Json 200 s ->
  GET_dashboard_summary week year month session period now db' = Json 200 s' ->
  exists a amt,
    bankAccount db !! accountId row = Some a
    /\ body_amount data = Some amt
    /\ amount row = round2 amt
    /\ ds_startDate s' = ds_startDate s
    /\ ds_endDate s' = ds_endDate s
    /\ ds_endDate s = (now + 86400000)%Z
    /\ let counted := (ds_startDate s <=? date row)%Z && (date row <? ds_endDate s)%Z in
       ds_totalIncome s'
       == ds_totalIncome s
          + (if counted && is_INCOME (type row) then amount row else 0)
       /\ ds_totalExpense s'
          == ds_totalExpense s
             + (if counted && is_EXPENSE (type row) then amount row else 0)
       /\ ds_transactionCount s'
          = (ds_transactionCount s + (if counted then 1 else 0))%nat
       /\ ds_totalBalance s'
          == ds_totalBalance s
             + (if isActive a
                then round2 (balance a + effect (type row) amt) - balance a
                else 0)
       /\ (two_decimals (balance a) -> two_decimals amt ->
           ds_totalBalance s'
           == ds_totalBalance s
              + (if isActive a then effect (type row) (amount row) else 0)).
Proof.
  intros Hpost Hs Hs'.
  pose proof (POST_transactions_cases session newId data db) as Hc.
  rewrite Hpost in Hc.
  destruct Hc as [[He _]|(uid & amt & ty & dt & a & Hu & Hv & Hnew & Ha & _ & _ & Hr
                          & ->)];
    [done|].
  injection Hr as ->.
  unfold GET_dashboard_summary in Hs, Hs'. rewrite Hu in Hs, Hs'.
  cbv zeta in Hs, Hs'. injection Hs as <-. injection Hs' as <-.
  unfold created.
  cbn [ds_startDate ds_endDate ds_totalIncome ds_totalExpense ds_transactionCount
       ds_totalBalance transaction bankAccount row_of accountId date type amount].
  exists a, amt. split; [done|]. split; [exact (v_amount _ _ _ _ _ _ Hv)|].
  do 4 (split; [done|]).
  destruct Hv as [_ _ _ _ _ [a0 Hacc] _].
  apply findFirst_Some in Hacc as [Ha0 Hown]. rewrite Ha in Ha0. injection Ha0 as <-.
  set (start := dashboard_startDate _ _ _ _ _).
  set (stop := (now + 24 * 60 * 60 * 1000)%Z).
  assert (Hbalance :
    toNumber_or_0
      (aggregate_sum balance
         (List.filter (fun a => String.eqb (acc_userId a) uid && isActive a)
            (rows (<[body_accountId data :=
                       set_balance (round2 (balance a + effect ty amt)) a]>
                     (bankAccount db)))))
    == toNumber_or_0
         (aggregate_sum balance
            (List.filter (fun a => String.eqb (acc_userId a) uid && isActive a)
               (rows (bankAccount db))))
       + (if isActive a then round2 (balance a + effect ty amt) - balance a else 0)).
  { rewrite !aggregate_as_sum.
    rewrite (sum_rows_insert_Some _ _ _ a) by done.
    unfold set_balance. cbn [acc_userId isActive balance].
    rewrite Hown, String.eqb_refl. cbn [andb].
    destruct (isActive a); ring. }
  cbv zeta. split; [|split; [|split; [|split]]].
  - rewrite !aggregate_as_sum.
    rewrite sum_rows_insert_None by done.
    unfold dashboard_where at 1. cbn [row_of userId date type amount].
    rewrite String.eqb_refl. cbn [andb].
    destruct ty; cbn [type_eqb is_INCOME andb];
      destruct (start <=? dt)%Z, (dt <? stop)%Z; cbn [andb]; ring.
  - rewrite !aggregate_as_sum.
    rewrite sum_rows_insert_None by done.
    unfold dashboard_where at 1. cbn [row_of userId date type amount].
    rewrite String.eqb_refl. cbn [andb].
    destruct ty; cbn [type_eqb is_EXPENSE andb];
      destruct (start <=? dt)%Z, (dt <? stop)%Z; cbn [andb]; ring.
  - rewrite count_insert_None by done.
    unfold dashboard_where at 1. cbn [row_of userId date type amount].
    rewrite String.eqb_refl. cbn [andb].
    destruct (start <=? dt)%Z, (dt <? stop)%Z; cbn [andb]; lia.
  - exact Hbalance.
  - intros Hbal Hamt. rewrite Hbalance.
    pose proof (round2_sum (balance a) (effect ty amt) Hbal
                  (two_decimals_effect ty amt Hamt)) as Hsum.
    pose proof (LedgerComposition.effect_comp ty (round2 amt) amt Hamt) as Heff.
    destruct (isActive a); lra.
Qed.

#[local] Instance sum_desc_trans : Transitive sum_desc.
Proof. intros x y z Hxy Hyz. unfold sum_desc in *. by eapply Qle_trans. Qed.

#[local] Instance sum_desc_total : Total sum_desc.
Proof.
  intros x y. unfold sum_desc.
  destruct (Qlt_le_dec (snd x) (snd y)); [right; by apply Qlt_le_weak|by left].
Qed.









Lemma rows_elem_of {A} (t : gmap string A) (r : A) :
  r ∈ rows t <-> exists id, t !! id = Some r.
Proof.
  unfold rows. rewrite list_elem_of_fmap. split.
  - intros ([id r'] & -> & Hr). apply elem_of_map_to_list in Hr. by exists id.
  - intros [id Hr]. exists (id, r). split; [done|]. by apply elem_of_map_to_list.
Qed.



Lemma dashboard_after_create_witness :
  let week := fun now => (now - 604800000)%Z in
  let year := fun now => 1735689600000%Z in
  let month := fun now => 1748736000000%Z in
  let db' := snd (POST_transactions Scenario.me "t1"
                    (Scenario.body 400000 "TRANSFER" "X" "food") Scenario.db0) in
  exists s s',
    GET_dashboard_summary week year month Scenario.me EmptyString
      1750000000000 Scenario.db0 = Json 200 s
    /\ GET_dashboard_summary week year month Scenario.me EmptyString
         1750000000000 db' = Json 200 s'
    /\ ds_totalIncome s' == ds_totalIncome s
    /\ ds_totalExpense s' == ds_totalExpense s
    /\ ds_transactionCount s' = S (ds_transactionCount s)
    /\ ds_totalBalance s' == ds_totalBalance s - 400000.
Proof.
  intros week year month db'.
  eexists _, _. split; [reflexivity|]. split; [reflexivity|].
  destruct (dashboard_after_create week year month Scenario.me "t1"
              (Scenario.body 400000 "TRANSFER" "X" "food") Scenario.db0
              (row_of (Scenario.body 400000 "TRANSFER" "X" "food") (round2 400000)
                 TRANSFER 1750000000000 "user-1")
              db' EmptyString 1750000000000 _ _ eq_refl eq_refl eq_refl)
    as (a & amt & Ha & Hamt & _ & _ & _ & _ & Hi & He & Hc & Hb & _).
  vm_compute in Ha. injection Ha as <-. injection Hamt as <-.
  split; [rewrite Hi; vm_compute; reflexivity|].
  split; [rewrite He; vm_compute; reflexivity|].
  split; [rewrite Hc; vm_compute; reflexivity|].
  rewrite Hb. vm_compute. reflexivity.
Defined.

(** With an amount of 10.555 the total expense grows by the stored 10.56
    and the total balance goes down by 10.55. *)
Example dashboard_after_rounding :
  let week := fun now => (now - 604800000)%Z in
  let year := fun now => 1735689600000%Z in
  let month := fun now => 1748736000000%Z in
  let db' := snd (POST_transactions Scenario.me "t1"
                    (Scenario.body 10.555 "EXPENSE" "X" "food") Scenario.db0) in
  exists s s',
    GET_dashboard_summary week year month Scenario.me EmptyString
      1750000000000 Scenario.db0 = Json 200 s
    /\ GET_dashboard_summary week year month Scenario.me EmptyString
         1750000000000 db' = Json 200 s'
    /\ ds_totalExpense s' == ds_totalExpense s + 10.56
    /\ ds_totalBalance s' == ds_totalBalance s - 10.55.
Proof.
  intros week year month db'.
  eexists _, _. split; [reflexivity|]. split; [reflexivity|].
  vm_compute. done.
Qed.

End DashboardFacts.

(** ** Listing accounts *)

Module AccountListFacts.

Import Ledger LedgerFacts HandlerFacts Footprint DashboardFacts.
Local Open Scope Q_scope.

Section Listing.
Context (name_asc : relation string) `{!RelDecision name_asc}.

(** The listing holds the active accounts of the user and nothing else. *)
Lemma GET_accounts_elem session db uid l :
  session_user session = Some uid ->
  GET_accounts name_asc session db = Json 200 l ->
  forall k a, (k, a) ∈ l <->
    bankAccount db !! k = Some a /\ acc_userId a = uid /\ isActive a = true.
Proof.
  intros Hu Hl k a. unfold GET_accounts in Hl. rewrite Hu in Hl.
  injection Hl as <-. rewrite merge_sort_Permutation.
  rewrite list_elem_of_In, filter_In, <- list_elem_of_In, elem_of_map_to_list.
  cbn [snd]. rewrite andb_true_iff, String.eqb_eq. tauto.
Qed.

(** Deleting an account hides it: a request that is answered by success
    removes the account, and no other, from the listing of its user, and
    takes its balance out of the total balance of the dashboard if the
    account was active; the totals of the transactions stay as they were. *)
Theorem deleted_account_is_hidden week year month session id db m db' l l'
    period now s s' :
  DELETE_account session id db = (Json 200 m, db') ->
  GET_accounts name_asc session db = Json 200 l ->
  GET_accounts name_asc session db' = Json 200 l' ->
  GET_dashboard_summary week year month session period now db = Json 200 s ->
  GET_dashboard_summary week year month session period now db' = Json 200 s' ->
  exists old,
    bankAccount db !! id = Some old
    /\ (forall k a, (k, a) ∈ l' <-> (k, a) ∈ l /\ k <> id)
    /\ ds_totalBalance s'
       == ds_totalBalance s - (if isActive old then balance old else 0)
    /\ ds_totalIncome s' = ds_totalIncome s
    /\ ds_totalExpense s' = ds_totalExpense s
    /\ ds_transactionCount s' = ds_transactionCount s.
Proof.
  intros Hdel Hl Hl' Hs Hs'.
  pose proof (DELETE_account_cases session id db) as Hc. rewrite Hdel in Hc.
  destruct Hc as [[He _]|(uid & old & new & Hu & Hold & _ & Hown & Hact & _ & _
                           & Hbal & _ & ->)]; [done|].
  apply findFirst_Some in Hold as [Hold Howner].
  exists old. split; [done|]. split; [|split].
  - intros k a.
    rewrite (GET_accounts_elem _ _ _ _ Hu Hl' k a).
    rewrite (GET_accounts_elem _ _ _ _ Hu Hl k a).
    cbn [set_bankAccount bankAccount]. rewrite lookup_insert_Some. split.
    + intros ([[-> <-]|[Hne Hk]] & Ho & Ha); [congruence|done].
    + intros ((Hk & Ho & Ha) & Hne). split; [|done]. right. done.
  - unfold GET_dashboard_summary in Hs, Hs'. rewrite Hu in Hs, Hs'.
    cbv zeta in Hs, Hs'. injection Hs as <-. injection Hs' as <-.
    cbn [ds_totalBalance set_bankAccount bankAccount].
    rewrite !aggregate_as_sum.
    rewrite (sum_rows_insert_Some _ _ _ old) by done.
    rewrite Hown, Howner, Hact, String.eqb_refl, andb_false_r. cbn [andb].
    destruct (isActive old); ring.
  - unfold GET_dashboard_summary in Hs, Hs'. rewrite Hu in Hs, Hs'.
    cbv zeta in Hs, Hs'. injection Hs as <-. injection Hs' as <-.
    done.
Qed.

End Listing.

Lemma deleted_account_is_hidden_witness :
  let week := fun now => (now - 7)%Z in
  let year := fun now => 0%Z in
  let month := fun now => 0%Z in
  let db' := snd (DELETE_account Scenario.me "X" Scenario.db0) in
  exists l l' s s',
    GET_accounts byte_order Scenario.me Scenario.db0 = Json 200 l
    /\ GET_accounts byte_order Scenario.me db' = Json 200 l'
    /\ GET_dashboard_summary week year month Scenario.me EmptyString 20
         Scenario.db0 = Json 200 s
    /\ GET_dashboard_summary week year month Scenario.me EmptyString 20 db'
       = Json 200 s'
    /\ (forall k a, (k, a) ∈ l' -> k <> "X"%string)
    /\ ds_totalBalance s' == ds_totalBalance s - 1000000.
Proof.
  intros week year month db'.
  eexists _, _, _, _.
  split; [reflexivity|]. split; [reflexivity|].
  split; [reflexivity|]. split; [reflexivity|].
  destruct (deleted_account_is_hidden byte_order week year month Scenario.me "X"
              Scenario.db0 "Account deleted successfully"%string db'
              _ _ EmptyString 20 _ _ eq_refl eq_refl eq_refl eq_refl eq_refl)
    as (old & Hold & Hlist & Hbal & _).
  vm_compute in Hold. injection Hold as <-. split.
  - intros k a Hk. by apply Hlist in Hk as [_ Hne].
  - rewrite Hbal. vm_compute. reflexivity.
Defined.

End AccountListFacts.

(** ** Categories *)

Module CategoryFacts.

Import HandlerFacts StoreIntegrity SummaryFacts.

Section Handlers.

Variable cc : Category -> Category -> bool.
Variable bd : string -> gmap string Budget -> option (gmap string Budget).

Lemma POST_categories_cases session newId data db :
  let (r, db') := POST_categories cc session newId data db in
  (is_error r = true /\ db' = db)
  \/ (exists uid row,
        session_user session = Some uid
        /\ category db !! newId = None
        /\ cat_userId row = uid /\ isDefault row = false
        /\ r = Json 201 row
        /\ db' = set_category (<[newId := row]> (category db)) db).
Proof.
  unfold POST_categories.
  destruct (session_user session) as [uid|] eqn:Hs; [|by left].
  destruct (negb _ || negb _); [by left|].
  destruct (negb (Js.includes _ _)); [by left|].
  destruct (category_type_of _) as [ty|]; [|by left].
  cbv zeta. unfold category_create.
  destruct (category db !! newId) eqn:Hnew; [by left|].
  destruct (existsb _ _); [by left|].
  right.
  match goal with |- context [Json 201 ?x] => exists uid, x end.
  repeat (split; [done|]). done.
Qed.

Lemma PUT_category_cases session id data db :
  let (r, db') := PUT_category cc session id data db in
  (is_error r = true /\ db' = db)
  \/ (exists uid old row,
        session_user session = Some uid
        /\ category db !! id = Some old
        /\ cat_userId old = uid /\ isDefault old = false
        /\ cat_userId row = uid /\ isDefault row = false
        /\ r = Json 200 row
        /\ db' = set_category (<[id := row]> (category db)) db).
Proof.
  unfold PUT_category.
  destruct (session_user session) as [uid|] eqn:Hs; [|by left].
  destruct (negb _ || negb _); [by left|].
  destruct (negb (Js.includes _ _)); [by left|].
  destruct (findFirst cat_userId (category db) id uid) as [old|] eqn:Hold;
    [|by left].
  destruct (isDefault old) eqn:Hdef; [by left|].
  destruct (category_type_of _) as [ty|]; [|by left].
  cbv zeta. unfold category_update.
  destruct (existsb _ _); [by left|].
  apply findFirst_Some in Hold as [Hold Hown].
  right.
  match goal with |- context [Json 200 ?x] => exists uid, old, x end.
  repeat (split; [done|]). done.
Qed.

Lemma DELETE_category_cases session id db :
  let (r, db') := DELETE_category bd session id db in
  (is_error r = true /\ db' = db)
  \/ (exists uid old budgets,
        session_user session = Some uid
        /\ category db !! id = Some old
        /\ cat_userId old = uid /\ isDefault old = false
        /\ transaction_count_of_category id db = 0
        /\ bd id (budget db) = Some budgets
        /\ r = Json 200 "Category deleted successfully"%string
        /\ db' = mkStore (bankAccount db) (delete id (category db))
                         (transaction db) budgets).
Proof.
  unfold DELETE_category.
  destruct (session_user session) as [uid|] eqn:Hs; [|by left].
  destruct (findFirst cat_userId (category db) id uid) as [old|] eqn:Hold;
    [|by left].
  destruct (isDefault old) eqn:Hdef; [by left|].
  destruct (0 <? transaction_count_of_category id db) eqn:Hc; [by left|].
  destruct (bd id (budget db)) as [budgets|] eqn:Hb; [|by left].
  apply findFirst_Some in Hold as [Hold Hown]. apply Nat.ltb_ge in Hc.
  right. exists uid, old, budgets. repeat (split; [done || lia|]). done.
Qed.

Lemma serve_app_default req db id c :
  category db !! id = Some c -> isDefault c = true ->
  category (serve_app cc bd req db) !! id = Some c.
Proof.
  intros Hc Hdef. destruct req as [[session newId data|session k data|session k]|req];
    cbn [serve_app serve_category].
  - pose proof (POST_categories_cases session newId data db) as H.
    destruct (POST_categories cc session newId data db) as [r db'].
    destruct H as [[_ ->]|(uid & row & _ & Hnew & _ & _ & _ & ->)]; [done|].
    cbn [snd set_category category]. rewrite lookup_insert_ne; [done|].
    intros ->. congruence.
  - pose proof (PUT_category_cases session k data db) as H.
    destruct (PUT_category cc session k data db) as [r db'].
    destruct H as [[_ ->]|(uid & old & row & _ & Hold & _ & Hd & _ & _ & _ & ->)];
      [done|].
    cbn [snd set_category category]. rewrite lookup_insert_ne; [done|].
    intros ->. congruence.
  - pose proof (DELETE_category_cases session k db) as H.
    destruct (DELETE_category bd session k db) as [r db'].
    destruct H as [[_ ->]|(uid & old & b & _ & Hold & _ & Hd & _ & _ & _ & ->)];
      [done|].
    cbn [snd category]. rewrite lookup_delete_ne; [done|].
    intros ->. congruence.
  - by rewrite serve_any_category.
Qed.

(** No request of the application changes or removes a default category,
    whoever sends it: after any sequence of requests on categories,
    accounts, transactions and budgets the row is stored as before. *)
Theorem default_categories_are_frozen reqs db id c :
  category db !! id = Some c -> isDefault c = true ->
  category (serve_app_all cc bd reqs db) !! id = Some c.
Proof.
  revert db. induction reqs as [|req reqs IH]; intros db Hc Hdef; [done|].
  cbn [serve_app_all foldl]. apply IH; [|done]. by apply serve_app_default.
Qed.

Lemma count_zero id db tid t :
  transaction_count_of_category id db = 0 ->
  transaction db !! tid = Some t -> categoryId t <> id.
Proof.
  unfold transaction_count_of_category. intros Hc Ht Heq.
  apply length_zero_iff_nil in Hc.
  assert (Hin : In t (List.filter (fun t => String.eqb (categoryId t) id)
                        (rows (transaction db)))).
  { apply filter_In. split; [|by apply String.eqb_eq].
    apply list_elem_of_In, DashboardFacts.rows_elem_of. by exists tid. }
  rewrite Hc in Hin. destruct Hin.
Qed.

(** A delete request on a category, answered by success or not, leaves
    the transactions and the accounts as they were and every stored
    transaction with the category row it had: a category that a
    transaction refers to is never removed. Of the categories it can only
    remove the one it names. *)
Theorem category_delete_strands_no_transaction session id db :
  let db' := snd (DELETE_category bd session id db) in
  transaction db' = transaction db
  /\ bankAccount db' = bankAccount db
  /\ (forall tid t, transaction db !! tid = Some t ->
        category db' !! categoryId t = category db !! categoryId t)
  /\ (forall k, k <> id -> category db' !! k = category db !! k).
Proof.
  pose proof (DELETE_category_cases session id db) as H.
  destruct (DELETE_category bd session id db) as [r db'].
  destruct H as [[_ ->]|(uid & old & b & _ & _ & _ & _ & Hc & _ & _ & ->)];
    cbn [snd]; [done|].
  cbn [transaction bankAccount category]. split; [done|]. split; [done|]. split.
  - intros tid t Ht. apply lookup_delete_ne. intros Heq.
    by eapply count_zero.
  - intros k Hk. by apply lookup_delete_ne.
Qed.

(** An update of a category does not look at the transactions that use
    it. A request of the owner on a category that is not a default one,
    with a name, a type of the two and no clash on the unique index, is
    answered by success even when it turns the direction of the category
    against a stored transaction; that transaction then contradicts its
    category, which the handlers of transactions would have refused. *)
Theorem category_update_ignores_transactions session uid id data db old ty tid t :
  session_user session = Some uid ->
  category db !! id = Some old -> cat_userId old = uid -> isDefault old = false ->
  cb_name data <> EmptyString ->
  category_type_of (cb_type data) = Some ty ->
  is_Some (category_update cc id
             (mkCategory (cb_name data) ty (or_null (cb_icon data))
                (or_null (cb_color data)) false uid) (category db)) ->
  transaction db !! tid = Some t -> categoryId t = id ->
  (type t = INCOME /\ ty = CategoryEXPENSE)
  \/ (type t = EXPENSE /\ ty = CategoryINCOME) ->
  exists row db',
    PUT_category cc session id data db = (Json 200 row, db')
    /\ transaction db' !! tid = Some t
    /\ category db' !! id = Some row
    /\ cat_type row = ty
    /\ category_type_mismatch (type t) row = true
    /\ ~ integrity db'.
Proof.
  intros Hs Hold Hown Hdef Hname Hty [t' Hupd] Ht Hcat Hdir.
  assert (Hfind : findFirst cat_userId (category db) id uid = Some old)
    by (by apply findFirst_Some).
  assert (Hn : Js.truthy (cb_name data) = true).
  { unfold Js.truthy. by destruct (String.eqb_spec (cb_name data) EmptyString). }
  assert (Hinc : Js.includes ["INCOME"; "EXPENSE"]%string (cb_type data) = true
                 /\ Js.truthy (cb_type data) = true).
  { unfold category_type_of in Hty.
    destruct (String.eqb_spec (cb_type data) "INCOME") as [->|_]; [done|].
    destruct (String.eqb_spec (cb_type data) "EXPENSE") as [->|_]; [done|].
    discriminate Hty. }
  destruct Hinc as [Hinc Htt].
  unfold PUT_category. rewrite Hs, Hn, Htt, Hinc, Hfind, Hdef, Hty.
  cbn [negb orb]. cbv zeta. rewrite Hown, Hupd.
  unfold category_update in Hupd. destruct (existsb _ _); [done|].
  injection Hupd as <-.
  eexists _, _. split; [reflexivity|].
  cbn [set_category transaction category]. split; [done|].
  split; [apply lookup_insert_eq|]. split; [done|].
  assert (Hmis : category_type_mismatch (type t)
                   (mkCategory (cb_name data) ty (or_null (cb_icon data))
                      (or_null (cb_color data)) false uid) = true).
  { unfold category_type_mismatch, category_is_INCOME, category_is_EXPENSE.
    cbn [cat_type]. by destruct Hdir as [[-> ->]|[-> ->]]. }
  split; [done|].
  intros Hint. destruct (Hint tid t Ht) as (_ & _ & c & Hc & _ & Hok).
  cbn [set_category category] in Hc. rewrite Hcat, lookup_insert_eq in Hc.
  injection Hc as <-. congruence.
Qed.

End Handlers.

Lemma default_categories_are_frozen_witness :
  category
    (serve_app_all conflict_by_name cascade_on_delete
       [ OnCategory (UpdateCategory Scenario.me "food"
                       (mkCategoryBody "Meals" "EXPENSE" EmptyString EmptyString));
         OnCategory (DeleteCategory Scenario.me "food");
         OnCategory (CreateCategory Scenario.me "food"
                       (mkCategoryBody "Meals" "INCOME" EmptyString EmptyString)) ]
       Scenario.db0) !! "food"
  = Some Scenario.food.
Proof.
  apply (default_categories_are_frozen conflict_by_name cascade_on_delete _
           Scenario.db0 "food" Scenario.food); reflexivity.
Defined.

Lemma category_update_ignores_transactions_witness :
  exists row db',
    PUT_category conflict_by_name Scenario.me "pets"
      (mkCategoryBody "Pets" "INCOME" EmptyString EmptyString) Pets.db
    = (Json 200 row, db')
    /\ cat_type row = CategoryINCOME
    /\ transaction db' !! "t5" = Some Pets.vet
    /\ ~ integrity db'.
Proof.
  destruct (category_update_ignores_transactions conflict_by_name Scenario.me
              "user-1" "pets"
              (mkCategoryBody "Pets" "INCOME" EmptyString EmptyString)
              Pets.db Pets.pets CategoryINCOME "t5" Pets.vet)
    as (row & db' & Hput & Ht & _ & Hty & _ & Hint).
  - reflexivity.
  - reflexivity.
  - reflexivity.
  - reflexivity.
  - discriminate.
  - reflexivity.
  - eexists. vm_compute. reflexivity.
  - reflexivity.
  - reflexivity.
  - right. split; reflexivity.
  - exists row, db'. repeat (split; [assumption|]). assumption.
Defined.

(** The foreign key of the schema: deleting a category deletes its
    budgets and leaves the others. *)
Example category_delete_cascades :
  let db := mkStore (bankAccount Scenario.db0)
              (<["pets" := Pets.pets]> (category Scenario.db0)) ∅
              (<["b1" := mkBudget "Pets" 100 MONTHLY (Some "pets"%string) 1 30 "user-1"]>
                 (<["b2" := Scenario.budget_july]> ∅)) in
  let del := DELETE_category cascade_on_delete Scenario.me "pets" db in
  fst del = Json 200 "Category deleted successfully"%string
  /\ category (snd del) !! "pets" = None
  /\ budget (snd del) !! "b1" = None
  /\ budget (snd del) !! "b2" = Some Scenario.budget_july.
Proof. vm_compute. done. Qed.

End CategoryFacts.

(** ** Registration and the verification of the email *)

Module AuthFacts.

Import HandlerFacts.

Lemma find_in_table {A} (p : string * A -> bool) (m : gmap string A) (k : string)
    (x : A) :
  m !! k = Some x -> p (k, x) = true ->
  (forall k' x', m !! k' = Some x' -> p (k', x') = true -> k' = k) ->
  List.find p (map_to_list m) = Some (k, x).
Proof.
  intros Hk Hp Huniq. destruct (List.find p (map_to_list m)) as [[k' x']|] eqn:E.
  - apply find_some in E as [Hin Hp'].
    apply list_elem_of_In, elem_of_map_to_list in Hin.
    pose proof (Huniq k' x' Hin Hp') as ->. congruence.
  - pose proof (find_none _ _ E (k, x)) as Hf.
    rewrite Hf in Hp; [done|]. by apply list_elem_of_In, elem_of_map_to_list.
Qed.

Lemma find_not_in_table {A} (p : string * A -> bool) (m : gmap string A) :
  (forall k x, m !! k = Some x -> p (k, x) = false) ->
  List.find p (map_to_list m) = None.
Proof.
  intros Hnone. destruct (List.find p (map_to_list m)) as [[k x]|] eqn:E; [|done].
  apply find_some in E as [Hin Hp].
  apply list_elem_of_In, elem_of_map_to_list in Hin.
  rewrite (Hnone k x Hin) in Hp. done.
Qed.

Lemma option_string_eqb_Some (o : option string) (s : string) :
  option_string_eqb o (Some s) = true <-> o = Some s.
Proof. apply BudgetClaims.option_string_eqb_eq. Qed.

Section Register.

Variable cc : Category -> Category -> bool.

(** What a successful registration stores. *)
Lemma POST_register_created data h tok exp newUserId ids users db ru users' db' :
  POST_register cc data h tok exp newUserId ids users db
  = (Json 201 ru, (users', db')) ->
  users !! newUserId = None
  /\ (forall k u, users !! k = Some u -> email u <> rb_email data)
  /\ users' = <[newUserId := mkUser (Some (rb_name data)) (rb_email data) (Some h)
                               (Some tok) (Some exp) false None]> users
  /\ ru = mkUserWithoutPassword newUserId (Some (rb_name data)) (rb_email data)
            (Some tok) (Some exp) false None.
Proof.
  unfold POST_register.
  destruct (negb _ || negb _ || negb _); [done|].
  destruct (List.find _ (rows users)) eqn:Hfind; [done|].
  destruct (users !! newUserId) eqn:Hnew; [done|].
  cbv zeta. destruct (category_createMany _ _ _); [|done].
  intros [= <- <- <-]. split; [done|]. split; [|done].
  intros k u Hk Heq.
  pose proof (find_none _ _ Hfind u) as Hf. cbv beta in Hf.
  rewrite Heq, String.eqb_refl in Hf. discriminate Hf.
  apply list_elem_of_In, DashboardFacts.rows_elem_of. by exists k.
Qed.

(** A registration followed by the verification of the email. The
    response of a successful registration carries the verification token
    of the new user. If no other user holds that token, a verification
    with it at an instant before the expiry marks the user as verified,
    records the instant and clears the token and the expiry, and changes
    no other user; a second verification with the same token is then
    refused. A verification at the expiry or later is refused and changes
    nothing. *)
Theorem register_then_verify data h tok exp newUserId ids users db ru users' db' :
  POST_register cc data h tok exp newUserId ids users db
  = (Json 201 ru, (users', db')) ->
  tok <> EmptyString ->
  (forall k u, users !! k = Some u -> emailVerificationToken u <> Some tok) ->
  ru_emailVerificationToken ru = Some tok
  /\ (forall now verifiedAt, (exp <= now)%Z ->
        GET_verify_email tok now verifiedAt users'
        = (JsonError 400 "Invalid or expired verification token", users'))
  /\ (forall now verifiedAt, (now < exp)%Z ->
        exists users'',
          GET_verify_email tok now verifiedAt users'
          = (Json 200 "Email verified successfully! You can now sign in."%string,
             users'')
          /\ users'' !! newUserId
             = Some (mkUser (Some (rb_name data)) (rb_email data) (Some h)
                            None None true (Some verifiedAt))
          /\ (forall k, k <> newUserId -> users'' !! k = users !! k)
          /\ (forall now2 verifiedAt2,
                GET_verify_email tok now2 verifiedAt2 users''
                = (JsonError 400 "Invalid or expired verification token", users''))).
Proof.
  intros Hreg Htok Hother.
  apply POST_register_created in Hreg as (Hnew & _ & -> & ->).
  assert (Ht : Js.truthy tok = true).
  { unfold Js.truthy. by destruct (String.eqb_spec tok EmptyString). }
  split; [done|]. split.
  - intros now verifiedAt Hexp. unfold GET_verify_email. rewrite Ht. cbn [negb].
    rewrite find_not_in_table; [done|].
    intros k u Hk. cbn [snd].
    apply lookup_insert_Some in Hk as [[_ <-]|[_ Hk]].
    + cbn [emailVerificationToken emailVerificationExpires].
      apply andb_false_iff. right. apply Z.ltb_ge. lia.
    + apply andb_false_iff. left.
      destruct (option_string_eqb _ _) eqn:E; [|done].
      apply option_string_eqb_Some in E. by apply Hother in Hk.
  - intros now verifiedAt Hexp. unfold GET_verify_email. rewrite Ht. cbn [negb].
    erewrite find_in_table; cycle 1.
    + apply lookup_insert_eq.
    + cbn [snd emailVerificationToken emailVerificationExpires].
      apply andb_true_iff. split; [by apply option_string_eqb_Some|].
      apply Z.ltb_lt. lia.
    + intros k' u' Hk' Hp. cbn [snd] in Hp.
      apply lookup_insert_Some in Hk' as [[<- _]|[_ Hk']]; [done|].
      apply andb_true_iff in Hp as [Hp _].
      apply option_string_eqb_Some in Hp. by apply Hother in Hk'.
    + cbn [usr_name email password]. eexists. split; [reflexivity|].
      split; [apply lookup_insert_eq|]. split.
      * intros k Hk. by rewrite !lookup_insert_ne.
      * intros now2 verifiedAt2. rewrite find_not_in_table; [done|].
        intros k u Hk. cbn [snd]. apply andb_false_iff. left.
        apply lookup_insert_Some in Hk as [[_ <-]|[Hne Hk]]; [done|].
        apply lookup_insert_Some in Hk as [[Heq _]|[_ Hk]]; [done|].
        destruct (option_string_eqb _ _) eqn:E; [|done].
        apply option_string_eqb_Some in E. by apply Hother in Hk.
Qed.

(** What a registration does to the table of users: nothing, or one new
    row under a fresh key with an email no user has. *)
Lemma POST_register_users data h tok exp newUserId ids users db :
  let users' := fst (snd (POST_register cc data h tok exp newUserId ids users db)) in
  users' = users
  \/ (users !! newUserId = None
      /\ (forall k u, users !! k = Some u -> email u <> rb_email data)
      /\ exists u, email u = rb_email data /\ users' = <[newUserId := u]> users).
Proof.
  unfold POST_register.
  destruct (negb _ || negb _ || negb _); [by left|].
  destruct (List.find _ (rows users)) eqn:Hfind; [by left|].
  destruct (users !! newUserId) eqn:Hnew; [by left|].
  cbv zeta.
  assert (Hfresh : forall k u, users !! k = Some u -> email u <> rb_email data).
  { intros k u Hk Heq.
    pose proof (find_none _ _ Hfind u) as Hf. cbv beta in Hf.
    rewrite Heq, String.eqb_refl in Hf. discriminate Hf.
    apply list_elem_of_In, DashboardFacts.rows_elem_of. by exists k. }
  destruct (category_createMany _ _ _); cbn [fst snd]; right;
    (split; [done|]); (split; [done|]); eexists; (split; [|reflexivity]); done.
Qed.

(** What a verification does to the table of users: nothing, or it
    rewrites the verification columns of one row. *)
Lemma GET_verify_email_users token now verifiedAt users :
  let users' := snd (GET_verify_email token now verifiedAt users) in
  users' = users
  \/ (exists id u,
        users !! id = Some u
        /\ users' = <[id := mkUser (usr_name u) (email u) (password u) None None
                               true (Some verifiedAt)]> users).
Proof.
  unfold GET_verify_email.
  destruct (negb (Js.truthy token)); [by left|].
  destruct (List.find _ (map_to_list users)) as [[id u]|] eqn:Hfind; [|by left].
  apply find_some in Hfind as [Hin _].
  apply list_elem_of_In, elem_of_map_to_list in Hin.
  right. by exists id, u.
Qed.

Lemma serve_auth_step req users db :
  unique_emails users ->
  unique_emails (fst (serve_auth cc req (users, db)))
  /\ persists users (fst (serve_auth cc req (users, db))).
Proof.
  intros Huniq.
  destruct req as [data h tok exp newUserId ids|token now verifiedAt];
    cbn [serve_auth fst snd].
  - destruct (POST_register_users data h tok exp newUserId ids users db)
      as [->|(Hnew & Hfresh & u & Hu & ->)].
    { split; [done|]. intros k x Hk. by exists x. }
    split.
    + intros k1 k2 u1 u2 H1 H2 Heq.
      apply lookup_insert_Some in H1 as [[<- <-]|[Hne1 H1]];
        apply lookup_insert_Some in H2 as [[<- <-]|[Hne2 H2]].
      * done.
      * exfalso. apply (Hfresh k2 u2 H2). congruence.
      * exfalso. apply (Hfresh k1 u1 H1). congruence.
      * by eapply Huniq.
    + intros k x Hk. exists x. rewrite lookup_insert_ne by congruence. done.
  - destruct (GET_verify_email_users token now verifiedAt users)
      as [->|(id & u & Hid & ->)].
    { split; [done|]. intros k x Hk. by exists x. }
    split.
    + intros k1 k2 u1 u2 H1 H2 Heq.
      apply lookup_insert_Some in H1 as [[<- <-]|[Hne1 H1]];
        apply lookup_insert_Some in H2 as [[<- <-]|[Hne2 H2]].
      * done.
      * cbn [email] in Heq. by eapply Huniq.
      * cbn [email] in Heq. by eapply Huniq.
      * by eapply Huniq.
    + intros k x Hk. destruct (decide (k = id)) as [->|Hne].
      * rewrite Hid in Hk. injection Hk as <-.
        eexists. split; [apply lookup_insert_eq|]. done.
      * exists x. rewrite lookup_insert_ne by done. done.
Qed.

(** Whatever registrations and verifications are served, in any order, no
    two users ever have the same email if none had before, and a user
    that is stored stays stored with the email and the password it had,
    and stays verified once it is. *)
Theorem users_are_kept reqs users db :
  unique_emails users ->
  unique_emails (fst (serve_auth_all cc reqs (users, db)))
  /\ forall k u, users !! k = Some u ->
       exists u', fst (serve_auth_all cc reqs (users, db)) !! k = Some u'
                  /\ email u' = email u /\ password u' = password u
                  /\ (isEmailVerified u = true -> isEmailVerified u' = true).
Proof.
  revert users db. induction reqs as [|req reqs IH]; intros users db Huniq.
  - split; [done|]. intros k u Hk. by exists u.
  - cbn [serve_auth_all foldl].
    destruct (serve_auth_step req users db Huniq) as [Huniq' Hpers].
    destruct (serve_auth cc req (users, db)) as [users1 db1] eqn:E.
    cbn [fst] in Huniq', Hpers.
    destruct (IH users1 db1 Huniq') as [Hu Hp]. split; [exact Hu|].
    intros k u Hk. destruct (Hpers k u Hk) as (u1 & Hk1 & He1 & Hp1 & Hv1).
    destruct (Hp k u1 Hk1) as (u' & Hk' & He' & Hp' & Hv').
    exists u'. split; [done|]. split; [congruence|]. split; [congruence|].
    tauto.
Qed.

End Register.

Lemma unique_emails_singleton (k : string) (u : User) :
  unique_emails {[k := u]}.
Proof.
  intros k1 k2 u1 u2 H1 H2 _.
  apply lookup_singleton_Some in H1 as [<- _].
  apply lookup_singleton_Some in H2 as [<- _]. done.
Qed.

Lemma register_then_verify_witness :
  let st := snd (POST_register conflict_by_name bob_body "$2a$12$hash-of-bob"
                   "token-of-bob" 2000 "u2" (category_key "u2")
                   {["u1" := ann]} Scenario.db0) in
  GET_verify_email "token-of-bob" 2000 2001 (fst st)
  = (JsonError 400 "Invalid or expired verification token", fst st)
  /\ exists users'',
       GET_verify_email "token-of-bob" 1999 2000 (fst st)
       = (Json 200 "Email verified successfully! You can now sign in."%string,
          users'')
       /\ isEmailVerified <$> users'' !! "u2" = Some true
       /\ users'' !! "u1" = Some ann.
Proof.
  intros st.
  assert (Hreg : POST_register conflict_by_name bob_body "$2a$12$hash-of-bob"
                   "token-of-bob" 2000 "u2" (category_key "u2")
                   {["u1" := ann]} Scenario.db0
                 = (Json 201 (mkUserWithoutPassword "u2" (Some "Bob"%string)
                                "bob@example.org" (Some "token-of-bob"%string)
                                (Some 2000%Z) false None),
                    (fst st, snd st)))
    by (vm_compute; reflexivity).
  destruct (register_then_verify conflict_by_name bob_body "$2a$12$hash-of-bob"
              "token-of-bob" 2000 "u2" (category_key "u2") {["u1" := ann]}
              Scenario.db0 _ (fst st) (snd st) Hreg)
    as (_ & Hlate & Hgood).
  - discriminate.
  - intros k u Hk. apply lookup_singleton_Some in Hk as [_ <-]. discriminate.
  - split; [apply Hlate; lia|].
    destruct (Hgood 1999%Z 2000%Z) as (users'' & Hv & Hu2 & Hrest & _); [lia|].
    exists users''. split; [exact Hv|]. split; [by rewrite Hu2|].
    rewrite Hrest by discriminate. reflexivity.
Defined.

Lemma users_are_kept_witness :
  let users' :=
    fst (serve_auth_all conflict_by_name
           [ Register bob_body "$2a$12$hash-of-bob" "token-of-bob" 2000 "u2"
               (category_key "u2");
             Register (mkRegisterBody "Ann again" "ann@example.org" "other")
               "$2a$12$hash-of-other" "token-of-other" 2000 "u3"
               (category_key "u3");
             VerifyEmail "token-of-ann" 500 501 ]
           ({["u1" := ann]}, Scenario.db0)) in
  unique_emails users'
  /\ exists u', users' !! "u1" = Some u' /\ password u' = password ann.
Proof.
  intros users'.
  destruct (users_are_kept conflict_by_name
              [ Register bob_body "$2a$12$hash-of-bob" "token-of-bob" 2000 "u2"
                  (category_key "u2");
                Register (mkRegisterBody "Ann again" "ann@example.org" "other")
                  "$2a$12$hash-of-other" "token-of-other" 2000 "u3"
                  (category_key "u3");
                VerifyEmail "token-of-ann" 500 501 ]
              {["u1" := ann]} Scenario.db0 (unique_emails_singleton "u1" ann))
    as [Hu Hp].
  split; [exact Hu|].
  destruct (Hp "u1" ann (lookup_singleton_eq _ _)) as (u' & Hk & _ & Hpw & _).
  exists u'. split; [exact Hk|exact Hpw].
Defined.

End AuthFacts.

(** ** Reading a transaction back *)

Module ReadBack.

Import Decimal HandlerFacts.
Local Open Scope Q_scope.

(** What the request for one transaction answers after a write. After a
    create or an update that succeeded, the user reads back the very row
    of the response under the key of the write, and any other user is told
    that there is no such transaction; after a delete that succeeded,
    every user is. *)
Theorem transaction_read_back session db :
  (forall newId data row db',
      POST_transactions session newId data db = (Json 201 row, db') ->
      GET_transaction session newId db' = Json 200 row
      /\ forall session' uid',
           session_user session' = Some uid' ->
           session_user session <> Some uid' ->
           GET_transaction session' newId db'
           = JsonError 404 "Transaction not found")
  /\ (forall id data row db',
        PUT_transaction session id data db = (Json 200 row, db') ->
        GET_transaction session id db' = Json 200 row
        /\ forall session' uid',
             session_user session' = Some uid' ->
             session_user session <> Some uid' ->
             GET_transaction session' id db'
             = JsonError 404 "Transaction not found")
  /\ (forall id m db',
        DELETE_transaction session id db = (Json 200 m, db') ->
        forall session' uid',
          session_user session' = Some uid' ->
          GET_transaction session' id db'
          = JsonError 404 "Transaction not found").
Proof.
  split; [|split].
  - intros newId data row db' Hpost.
    pose proof (POST_transactions_cases session newId data db) as Hc.
    rewrite Hpost in Hc.
    destruct Hc as [[He _]|(uid & amt & ty & dt & a & Hu & _ & _ & _ & _ & _ & Hr
                            & ->)];
      [done|].
    injection Hr as ->. unfold GET_transaction, findFirst.
    cbn [transaction created updated deleted]. rewrite Hu, lookup_insert_eq. cbn [row_of userId].
    rewrite String.eqb_refl. split; [done|].
    intros session' uid' Hu' Hne. rewrite Hu'.
    destruct (String.eqb_spec uid uid') as [->|_]; [congruence|done].
  - intros id data row db' Hput.
    pose proof (PUT_transaction_cases session id data db) as Hc.
    rewrite Hput in Hc.
    destruct Hc as [[He _]|(uid & old & amt & ty & dt & a & a' & Hu & Hold & _ & _
                             & _ & _ & _ & _ & Hr & ->)]; [done|].
    injection Hr as ->. apply findFirst_Some in Hold as [_ Hown].
    unfold GET_transaction, findFirst.
    cbn [transaction created updated deleted]. rewrite Hu, lookup_insert_eq. cbn [row_of userId].
    rewrite Hown, String.eqb_refl. split; [done|].
    intros session' uid' Hu' Hne. rewrite Hu'.
    destruct (String.eqb_spec uid uid') as [->|_]; [congruence|done].
  - intros id m db' Hdel.
    pose proof (DELETE_transaction_cases session id db) as Hc.
    rewrite Hdel in Hc.
    destruct Hc as [[He _]|(uid & old & a & Hu & _ & _ & _ & _ & ->)]; [done|].
    intros session' uid' Hu'. unfold GET_transaction, findFirst.
    cbn [transaction created updated deleted]. by rewrite Hu', lookup_delete_eq.
Qed.

Lemma transaction_read_back_witness :
  let body := Scenario.body 400000 "TRANSFER" "X" "food" in
  let db' := snd (POST_transactions Scenario.me "t1" body Scenario.db0) in
  GET_transaction Scenario.me "t1" db'
  = Json 200 (row_of body (round2 400000) TRANSFER 1750000000000 "user-1")
  /\ GET_transaction TwoUsers.them "t1" db' = JsonError 404 "Transaction not found".
Proof.
  intros body db'.
  destruct (transaction_read_back Scenario.me Scenario.db0) as (Hpost & _ & _).
  destruct (Hpost "t1"%string body
              (row_of body (round2 400000) TRANSFER 1750000000000 "user-1") db' eq_refl)
    as [Hmine Hother].
  split; [exact Hmine|]. eapply Hother; [reflexivity|discriminate].
Defined.

End ReadBack.

